(** * Technical-analysis core of the crypto chatbot (services/crypto.server.ts)

    A shallow embedding of the indicator engine ([calculateEMA],
    [calculateRSI], [calculateBollingerBands], [applyIndicators]), of the
    trend and volatility classifier ([detectTrend], [calculateVolatility],
    [calculatePriceChange]), of the synthesizer ([generateOverallAnalysis],
    [getMultiTimeframeAnalysis]) and of the timeframe guard of
    [getMarketDataByTimeframe].

    JavaScript numbers are IEEE 754 binary64 values: they are modelled by
    Rocq's primitive floats, whose operations are the same binary64
    operations.  Integers that the program only uses as array indices,
    lengths, periods and counters are modelled by [Z] and [nat]; they stay
    far below 2^53, where binary64 represents them exactly. *)

From Stdlib Require Import ZArith Floats Ascii String.
From Stdlib Require Uint63.
From stdpp Require Import base option list list_numbers strings gmap.

Set Warnings "-inexact-float".

Local Open Scope Z_scope.

(** ** The JavaScript runtime, as far as the program uses it *)

Module JS.

(** The result of evaluating a piece of code: a value, or an exception.
    The exception carries the text [String(error)] yields, which is what the
    program interpolates into its own messages. *)
Inductive completion (A : Type) : Type :=
  | Normal (a : A)
  | Throw (error : string).
Global Arguments Normal {A} a.
Global Arguments Throw {A} error.

#[global] Instance completion_ret : MRet completion := @Normal.
#[global] Instance completion_bind : MBind completion :=
  λ A B f c, match c with Normal a => f a | Throw e => Throw e end.

(** [try { body } catch (error) { handler }] *)
Definition try_catch {A} (body : completion A) (handler : string → completion A)
    : completion A :=
  match body with Normal a => Normal a | Throw e => handler e end.

(** The number an integer denotes (exactly, for the integers below 2^53 in
    absolute value, which is where the program's indices and counters
    live). *)
Definition float_of_Z (z : Z) : float :=
  if z <? 0 then (- of_uint63 (Uint63.of_Z (- z)))%float
  else of_uint63 (Uint63.of_Z z).

(** [x > y], [x < y] and [x === y] on numbers. *)
Definition gt (x y : float) : bool := (y <? x)%float.
Definition lt (x y : float) : bool := (x <? y)%float.
Definition strict_eq (x y : float) : bool := (x =? y)%float.

(** ToBoolean on a number: [0], [-0] and [NaN] are falsy. *)
Definition truthy (x : float) : bool := negb (x =? 0)%float && negb (is_nan x).

(** [x || d] where [x] is a number or [undefined]. *)
Definition or_else (x : option float) (d : float) : float :=
  match x with
  | Some v => if truthy v then v else d
  | None => d
  end.

(** [x ?? d]: only [undefined] is replaced. *)
Definition nullish {A} (x : option A) (d : A) : A := default d x.

(** ToNumber on a number or [undefined]. *)
Definition to_number (x : option float) : float := default nan x.

(** [a.length] *)
Definition len {A} (a : list A) : Z := Z.of_nat (length a).

(** [a[i]] on a dense array: [undefined] outside [0 .. a.length - 1]. *)
Definition at_index {A} (a : list A) (i : Z) : option A :=
  if i <? 0 then None else a !! Z.to_nat i.

(** [o.field] where [o] was read from an array: reading a property of
    [undefined] throws a TypeError. *)
Definition deref {A} (o : option A) : completion A :=
  match o with
  | Some a => Normal a
  | None => Throw "TypeError: Cannot read properties of undefined"
  end.

(** [a.slice(start, end)]: negative bounds count from the end, and both are
    clamped to the array. *)
Definition slice_bound (len i : Z) : Z :=
  if i <? 0 then Z.max (len + i) 0 else Z.min i len.
Definition slice {A} (a : list A) (start stop : Z) : list A :=
  let k := slice_bound (len a) start in
  let final := slice_bound (len a) stop in
  take (Z.to_nat (final - k)) (drop (Z.to_nat k) a).

(** [a.reduce(f)] without an initial value. *)
Definition reduce {A} (f : A → A → A) (a : list A) : completion A :=
  match a with
  | [] => Throw "TypeError: Reduce of empty array with no initial value"
  | x :: a' => Normal (foldl f x a')
  end.

(** [a.reduce(f, init)] *)
Definition reduce_from {A B} (f : B → A → B) (init : B) (a : list A) : B :=
  foldl f init a.

(** [for (let i = from; i < to; i++) body], threading the variables the body
    assigns as a state. *)
Definition for_range {S} (from to : Z) (body : Z → S → S) (s : S) : S :=
  foldl (λ s i, body i s) s (seqZ from (to - from)).

(** The same loop when the body may throw. *)
Fixpoint for_each {S} (body : Z → S → completion S) (s : S) (indices : list Z)
    : completion S :=
  match indices with
  | [] => Normal s
  | i :: rest => s' ← body i s; for_each body s' rest
  end.
Definition for_range_throwing {S} (from to : Z) (body : Z → S → completion S)
    (s : S) : completion S :=
  for_each body s (seqZ from (to - from)).

(** [a.map((item, index) => f)] when the callback may throw. *)
Fixpoint map_from {A B} (f : A → Z → completion B) (index : Z) (a : list A)
    : completion (list B) :=
  match a with
  | [] => Normal []
  | item :: a' =>
      y ← f item index; ys ← map_from f (index + 1) a'; mret (y :: ys)
  end.
Definition map_throwing {A B} (f : A → Z → completion B) (a : list A)
    : completion (list B) :=
  map_from f 0 a.

(** [for (const x of a) body] *)
Definition for_of {A S} (a : list A) (body : A → S → S) (s : S) : S :=
  foldl (λ s x, body x s) s a.

(** Property lookup [o[k]] on an object literal: an own property, else a
    property inherited from [Object.prototype], else [undefined]. *)
Inductive property (A : Type) : Type :=
  | Own (a : A)
  | Inherited (name : string)
  | Undefined.
Global Arguments Own {A} a.
Global Arguments Inherited {A} name.
Global Arguments Undefined {A}.

Definition Object_prototype : list string :=
  [ "constructor"; "__defineGetter__"; "__defineSetter__"; "hasOwnProperty";
    "__lookupGetter__"; "__lookupSetter__"; "isPrototypeOf";
    "propertyIsEnumerable"; "toString"; "valueOf"; "__proto__";
    "toLocaleString" ].

Definition get {A} (own : list (string * A)) (k : string) : property A :=
  match list_find (λ kv, kv.1 = k) own with
  | Some (_, (_, a)) => Own a
  | None => if bool_decide (k ∈ Object_prototype) then Inherited k else Undefined
  end.

(** ToBoolean on the result of a lookup: objects and functions are truthy. *)
Definition defined {A} (p : property A) : bool :=
  match p with Undefined => false | _ => true end.

End JS.
Import JS.

(** ** Data model *)

Record CoinData := {
  timestamp : string;
  open : float;
  high : float;
  low : float;
  close : float;
  volume : option float;
  ema_20 : option float;
  rsi_14 : option float;
  macd : option float;
  macd_signal : option float;
  bb_upper : option float;
  bb_lower : option float;
  obv : option float
}.

(** ** Indicator engine *)

(** A [number[]] that is written by index ([ema[i] = v]) is a JavaScript
    object keyed by integers: writing beyond the end leaves holes, and a
    negative key is an ordinary property.  It is modelled by a finite map
    from [Z]; a key that was never written reads as [undefined]. *)

Definition calculateEMA (data : list float) (period : Z) : gmap Z float :=
  let multiplier := (2 / float_of_Z (period + 1))%float in
  let sum :=
    for_range 0 (Z.min period (len data))
      (λ i sum, (sum + to_number (at_index data i))%float) 0%float in
  let ema : gmap Z float := <[period - 1 := (sum / float_of_Z period)%float]> ∅ in
  for_range period (len data)
    (λ i ema,
       <[i := ((to_number (at_index data i) - to_number (ema !! (i - 1)%Z))
               * multiplier + to_number (ema !! (i - 1)%Z))%float]> ema)
    ema.

Definition calculateRSI (data : list float) (period : Z)
    : completion (gmap Z float) :=
  let '(gains, losses) :=
    for_range 1 (len data)
      (λ i '(gains, losses),
         let change :=
           (to_number (at_index data i) - to_number (at_index data (i - 1)%Z))%float in
         (gains ++ [if gt change 0 then change else 0%float],
          losses ++ [if lt change 0 then PrimFloat.abs change else 0%float]))
      ([], []) in
  for_range_throwing (period - 1) (len gains)
    (λ i rsi,
       sumGain ← reduce (λ a b, a + b)%float (slice gains (i - period + 1) (i + 1));
       let avgGain := (sumGain / float_of_Z period)%float in
       sumLoss ← reduce (λ a b, a + b)%float (slice losses (i - period + 1) (i + 1));
       let avgLoss := (sumLoss / float_of_Z period)%float in
       if strict_eq avgLoss 0 then
         mret (<[i := 100%float]> rsi)
       else
         let rs := (avgGain / avgLoss)%float in
         mret (<[i := (100 - 100 / (1 + rs))%float]> rsi))
    (∅ : gmap Z float).

Record Bands := {
  sma : gmap Z float;
  upperBand : gmap Z float;
  lowerBand : gmap Z float
}.

Section Platform.

(** [Math.log] and [Math.pow] are functions of the platform whose results
    the language leaves implementation-approximated: they are parameters. *)
Context (Math_log : float → float) (Math_pow : float → float → float).

Definition calculateBollingerBands (data : list float) (period : Z)
    (stdDev : float) : completion Bands :=
  for_range_throwing (period - 1) (len data)
    (λ i bands,
       let window := slice data (i - period + 1) (i + 1) in
       total ← reduce (λ a b, a + b)%float window;
       let mean := (total / float_of_Z period)%float in
       let variance :=
         (reduce_from (λ sum val, sum + Math_pow (val - mean) 2) 0 window
          / float_of_Z period)%float in
       let standardDeviation := PrimFloat.sqrt variance in
       mret {| sma := <[i := mean]> (sma bands);
               upperBand := <[i := (mean + standardDeviation * stdDev)%float]> (upperBand bands);
               lowerBand := <[i := (mean - standardDeviation * stdDev)%float]> (lowerBand bands) |})
    {| sma := ∅; upperBand := ∅; lowerBand := ∅ |}.

(** The object spread [{...item, ema_20: ..., ...}] copies every field of
    [item] and then sets the listed ones. *)
Definition applyIndicators (data : list CoinData) : completion (list CoinData) :=
  let closes := close <$> data in
  let ema20 := calculateEMA closes 20 in
  rsi14 ← calculateRSI closes 14;
  bb ← calculateBollingerBands closes 20 2;
  mret (imap (λ (n : nat) item,
          let index := Z.of_nat n in
          {| timestamp := timestamp item;
             open := open item;
             high := high item;
             low := low item;
             close := close item;
             volume := volume item;
             ema_20 := Some (or_else (ema20 !! index) 0);
             rsi_14 := Some (or_else (rsi14 !! (index - 1)) 50);
             bb_upper := Some (or_else (upperBand bb !! index) 0);
             bb_lower := Some (or_else (lowerBand bb !! index) 0);
             macd := Some 0%float;
             macd_signal := Some 0%float;
             obv := Some 0%float |}) data).

(** ** Trend and volatility classifier *)

Definition detectTrend (data : list CoinData) : completion string :=
  if len data <? 5 then mret "Insufficient data"%string else
  let latest := at_index data (len data - 1) in
  let prev := at_index data (len data - 5) in
  latest ← deref latest;
  let latestEma := nullish (ema_20 latest) 0%float in
  prev ← deref prev;
  let prevEma := nullish (ema_20 prev) 0%float in
  let latestRsi := nullish (rsi_14 latest) 50%float in
  if gt latestEma prevEma && gt latestRsi 55 then mret "Uptrend"%string
  else if lt latestEma prevEma && lt latestRsi 45 then mret "Downtrend"%string
  else mret "Sideways"%string.

Definition calculateVolatility (data : list CoinData) : completion float :=
  if len data <? 2 then mret 0%float else
  returns ← map_throwing
    (λ item index,
       earlier ← deref (at_index data index);
       mret (Math_log (close item / close earlier)%float))
    (slice data 1 (len data));
  let mean :=
    (reduce_from (λ sum r, sum + r) 0 returns / float_of_Z (len returns))%float in
  let variance :=
    (reduce_from (λ sum r, sum + Math_pow (r - mean) 2) 0 returns
     / float_of_Z (len returns))%float in
  mret (PrimFloat.sqrt variance * PrimFloat.sqrt 252)%float.

Definition calculatePriceChange (data : list CoinData) : completion float :=
  if len data <? 2 then mret 0%float else
  first ← deref (at_index data 0);
  let firstPrice := close first in
  last ← deref (at_index data (len data - 1));
  let lastPrice := close last in
  mret ((lastPrice - firstPrice) / firstPrice * 100)%float.

End Platform.

(** ** Market data *)

Module Market.

Record TimeframeConfig := {
  days : Z;
  interval : string;
  points : Z
}.

Definition TIMEFRAME_CONFIG : list (string * TimeframeConfig) :=
  [ ("15m", {| days := 1; interval := "minutely"; points := 96 |});
    ("30m", {| days := 2; interval := "minutely"; points := 96 |});
    ("1h", {| days := 7; interval := "hourly"; points := 168 |});
    ("12h", {| days := 30; interval := "daily"; points := 60 |});
    ("24h", {| days := 30; interval := "daily"; points := 30 |});
    ("7d", {| days := 180; interval := "daily"; points := 26 |});
    ("30d", {| days := 365; interval := "daily"; points := 12 |});
    ("6M", {| days := 1095; interval := "daily"; points := 6 |});
    ("1Y", {| days := 1825; interval := "daily"; points := 5 |}) ]%string.

(** What lies outside the program: the two price services and the mock
    generator, which draws on the clock and on [Math.random].
    [coingecko] and [coincap] give the candles that the corresponding [try]
    block of [getMarketDataByTimeframe] builds from the service's answer, or
    the exception raised inside that block.  [generateMockDataByTimeframe]
    only reads fields of a configuration the guard has found truthy, so it
    returns. *)
Record Sources := {
  coingecko : string → string → property TimeframeConfig → completion (list CoinData);
  coincap : string → string → property TimeframeConfig → completion (list CoinData);
  generateMockDataByTimeframe : string → string → list CoinData
}.

Definition getMarketDataByTimeframe (S : Sources) (coinId timeframe : string)
    : completion (list CoinData) :=
  let config := get TIMEFRAME_CONFIG timeframe in
  if negb (defined config) then
    Throw ("Error: Timeframe " +:+ timeframe +:+ " tidak didukung")
  else
    try_catch
      (fromCoingecko ← try_catch
         (processedData ← coingecko S coinId timeframe config;
          if len processedData >? 0 then mret (Some processedData) else mret None)
         (λ coingeckoError, mret None);
       match fromCoingecko with
       | Some processedData => mret processedData
       | None =>
           fromCoincap ← try_catch
             (processedData ← coincap S coinId timeframe config;
              if len processedData >? 0 then mret (Some processedData) else mret None)
             (λ coincapError, mret None);
           match fromCoincap with
           | Some processedData => mret processedData
           | None => mret (generateMockDataByTimeframe S coinId timeframe)
           end
       end)
      (λ error,
         Throw ("Error: Gagal mengambil data harga untuk timeframe "
                +:+ timeframe +:+ ": " +:+ error)).

End Market.

(** ** Multi-timeframe synthesizer *)

Record TimeframeData := {
  timeframe : string;
  duration : property string;
  data : list CoinData;
  analysis : string;
  trend : string;
  volatility : float;
  priceChange : float;
  volume24h : option float
}.

(** The fields [symbol] and [timestamp] of the source carry the record's
    name here, since [timestamp] is a field of [CoinData] already. *)
Record MultiTimeframeAnalysis := {
  analysis_symbol : string;
  analysis_timestamp : string;
  timeframes : list TimeframeData;
  overallSentiment : string;
  riskLevel : string;
  tradingRecommendation : string
}.

Record Overall := {
  sentiment : string;
  risk : string;
  recommendation : string
}.

Definition generateOverallAnalysis (timeframes : list TimeframeData) : Overall :=
  let '(bullishCount, bearishCount, totalVolatility, validTimeframes) :=
    for_of timeframes
      (λ tf '(bullishCount, bearishCount, totalVolatility, validTimeframes),
         if len (data tf) >? 0 then
           let validTimeframes := validTimeframes + 1 in
           let totalVolatility := (totalVolatility + volatility tf)%float in
           if bool_decide (trend tf = "Uptrend"%string) then
             (bullishCount + 1, bearishCount, totalVolatility, validTimeframes)
           else if bool_decide (trend tf = "Downtrend"%string) then
             (bullishCount, bearishCount + 1, totalVolatility, validTimeframes)
           else
             (bullishCount, bearishCount, totalVolatility, validTimeframes)
         else
           (bullishCount, bearishCount, totalVolatility, validTimeframes))
      (0, 0, 0%float, 0) in
  let avgVolatility :=
    if validTimeframes >? 0 then (totalVolatility / float_of_Z validTimeframes)%float
    else 0%float in
  let sentiment :=
    if bullishCount >? bearishCount + 2 then "Bullish"
    else if bearishCount >? bullishCount + 2 then "Bearish"
    else if bullishCount >? bearishCount then "Slightly Bullish"
    else if bearishCount >? bullishCount then "Slightly Bearish"
    else "Neutral" in
  let risk :=
    if gt avgVolatility 0.4 then "High"
    else if lt avgVolatility 0.15 then "Low"
    else "Medium" in
  let recommendation :=
    if bool_decide (sentiment = "Bullish") && bool_decide (risk ≠ "High") then "Buy"
    else if bool_decide (sentiment = "Bearish") && bool_decide (risk ≠ "High") then "Sell"
    else if bool_decide (risk = "High") then "Wait"
    else "Hold" in
  {| sentiment := sentiment; risk := risk; recommendation := recommendation |}%string.

Definition timeframeLabels : list (string * string) :=
  [ ("15m", "15 Menit"); ("30m", "30 Menit"); ("1h", "1 Jam");
    ("12h", "12 Jam"); ("24h", "24 Jam"); ("7d", "7 Hari");
    ("30d", "30 Hari"); ("6M", "6 Bulan"); ("1Y", "1 Tahun") ]%string.

(** The local constant [timeframes] of [getMultiTimeframeAnalysis]; the name
    is taken by the field of [MultiTimeframeAnalysis]. *)
Definition nine_timeframes : list string :=
  [ "15m"; "30m"; "1h"; "12h"; "24h"; "7d"; "30d"; "6M"; "1Y" ]%string.

(** The entry pushed by the [catch] block. *)
Definition fallback (timeframe : string) : TimeframeData :=
  {| timeframe := timeframe;
     duration := get timeframeLabels timeframe;
     data := [];
     analysis := "Analisis untuk timeframe " +:+ timeframe +:+ " tidak tersedia saat ini.";
     trend := "Unknown";
     volatility := 0;
     priceChange := 0;
     volume24h := None |}.

Section Synthesizer.

(** The platform functions, the narrative text of a timeframe (which formats
    numbers with [toFixed]; it returns on every input), the clock, and the two
    asynchronous services the synthesizer awaits.  The services are
    parameters: the synthesizer is modelled against any behaviour of theirs,
    each call resolving to a value or rejecting with an error. *)
Context (Math_log : float → float) (Math_pow : float → float → float).
Context (generateTimeframeAnalysis :
           list CoinData → string → string → float → float → string).
Context (now : string).
Context (getCoinId : string → completion string).
Context (getMarketDataByTimeframe : string → string → completion (list CoinData)).
Context (toUpperCase : string → string).

(** The body of the [try] block of one timeframe, up to the pushed entry. *)
Definition analyzeTimeframe (coinId timeframe : string) : completion TimeframeData :=
  data ← getMarketDataByTimeframe coinId timeframe;
  dataWithIndicators ← applyIndicators Math_pow data;
  trend ← detectTrend dataWithIndicators;
  volatility ← calculateVolatility Math_log Math_pow data;
  priceChange ← calculatePriceChange data;
  let timeframeAnalysis :=
    generateTimeframeAnalysis dataWithIndicators timeframe trend volatility priceChange in
  mret {| timeframe := timeframe;
          duration := get timeframeLabels timeframe;
          data := dataWithIndicators;
          analysis := timeframeAnalysis;
          trend := trend;
          volatility := volatility;
          priceChange := priceChange;
          volume24h := None |}.

Definition getMultiTimeframeAnalysis (symbol : string)
    : completion MultiTimeframeAnalysis :=
  coinId ← getCoinId symbol;
  let entries :=
    for_of nine_timeframes
      (λ timeframe entries,
         match analyzeTimeframe coinId timeframe with
         | Normal entry => entries ++ [entry]
         | Throw error => entries ++ [fallback timeframe]
         end)
      [] in
  let overall := generateOverallAnalysis entries in
  mret {| analysis_symbol := toUpperCase symbol;
          analysis_timestamp := now;
          timeframes := entries;
          overallSentiment := sentiment overall;
          riskLevel := risk overall;
          tradingRecommendation := recommendation overall |}.

(** The entry of one timeframe: the computed report, or the fallback when
    the [try] block threw. *)
Definition entry_of (coinId code : string) : TimeframeData :=
  match analyzeTimeframe coinId code with
  | Normal entry => entry
  | Throw error => fallback code
  end.

End Synthesizer.

(** The exported analysis, with the market data of this module. *)
Definition analyzeMultiTimeframe (Math_log : float → float)
    (Math_pow : float → float → float)
    (generateTimeframeAnalysis :
       list CoinData → string → string → float → float → string)
    (now : string) (getCoinId : string → completion string)
    (S : Market.Sources) (toUpperCase : string → string) (symbol : string)
    : completion MultiTimeframeAnalysis :=
  getMultiTimeframeAnalysis Math_log Math_pow generateTimeframeAnalysis now
    getCoinId (Market.getMarketDataByTimeframe S) toUpperCase symbol.

(** ** Loop bodies and notions of the specification

    The bodies of the loops above, named so that the properties below can
    speak about them, and the notions the specification states its rules
    with. *)

(** The arithmetic mean of a list of numbers, summed from the left as the
    code does. *)
Definition arithmetic_mean (l : list float) : float :=
  (foldl (λ sum x, sum + x) 0 l / float_of_Z (len l))%float.

(** The value the second loop of [calculateEMA] stores at index [i]. *)
Definition ema_value (data : list float) (period i : Z) (ema : gmap Z float)
    : float :=
  ((to_number (at_index data i) - to_number (ema !! (i - 1)%Z))
   * (2 / float_of_Z (period + 1))
   + to_number (ema !! (i - 1)%Z))%float.

(** The gains and losses the first loop of [calculateRSI] collects. *)
Definition rsi_step (data : list float) (i : Z)
    (changes : list float * list float) : list float * list float :=
  let '(gains, losses) := changes in
  let change :=
    (to_number (at_index data i) - to_number (at_index data (i - 1)%Z))%float in
  (gains ++ [if gt change 0 then change else 0%float],
   losses ++ [if lt change 0 then PrimFloat.abs change else 0%float]).

Definition rsi_changes (data : list float) : list float * list float :=
  for_range 1 (len data) (rsi_step data) ([], []).

(** The value the second loop of [calculateRSI] stores at index [i]. *)
Definition rsi_value (gains losses : list float) (period i : Z)
    : completion float :=
  sumGain ← reduce (λ a b, a + b)%float (slice gains (i - period + 1) (i + 1));
  let avgGain := (sumGain / float_of_Z period)%float in
  sumLoss ← reduce (λ a b, a + b)%float (slice losses (i - period + 1) (i + 1));
  let avgLoss := (sumLoss / float_of_Z period)%float in
  if strict_eq avgLoss 0 then mret 100%float
  else let rs := (avgGain / avgLoss)%float in mret (100 - 100 / (1 + rs))%float.

(** One annotated candle, as the callback of [data.map] builds it. *)
Definition annotate (ema20 rsi14 : gmap Z float) (bb : Bands) (n : nat)
    (item : CoinData) : CoinData :=
  {| timestamp := timestamp item;
     open := open item;
     high := high item;
     low := low item;
     close := close item;
     volume := volume item;
     ema_20 := Some (or_else (ema20 !! Z.of_nat n) 0);
     rsi_14 := Some (or_else (rsi14 !! (Z.of_nat n - 1)) 50);
     bb_upper := Some (or_else (upperBand bb !! Z.of_nat n) 0);
     bb_lower := Some (or_else (lowerBand bb !! Z.of_nat n) 0);
     macd := Some 0%float;
     macd_signal := Some 0%float;
     obv := Some 0%float |}.

(** The counts of the reduction rule, following the specification: bullish
    and bearish timeframes are those with trend "Uptrend" and "Downtrend"
    among the timeframes with non-empty data. *)
Definition bullish (timeframes : list TimeframeData) : nat :=
  length (filter (λ tf, data tf ≠ [] ∧ trend tf = "Uptrend"%string) timeframes).
Definition bearish (timeframes : list TimeframeData) : nat :=
  length (filter (λ tf, data tf ≠ [] ∧ trend tf = "Downtrend"%string) timeframes).

Definition sentiment_rule (bullish bearish : nat) : string :=
  if decide (bearish + 2 < bullish)%nat then "Bullish"
  else if decide (bullish + 2 < bearish)%nat then "Bearish"
  else if decide (bearish < bullish)%nat then "Slightly Bullish"
  else if decide (bullish < bearish)%nat then "Slightly Bearish"
  else "Neutral".

(** The body of the loop of [generateOverallAnalysis]. *)
Definition tally (tf : TimeframeData) (counts : Z * Z * float * Z)
    : Z * Z * float * Z :=
  let '(bullishCount, bearishCount, totalVolatility, validTimeframes) := counts in
  if len (data tf) >? 0 then
    let validTimeframes := validTimeframes + 1 in
    let totalVolatility := (totalVolatility + volatility tf)%float in
    if bool_decide (trend tf = "Uptrend"%string) then
      (bullishCount + 1, bearishCount, totalVolatility, validTimeframes)
    else if bool_decide (trend tf = "Downtrend"%string) then
      (bullishCount, bearishCount + 1, totalVolatility, validTimeframes)
    else
      (bullishCount, bearishCount, totalVolatility, validTimeframes)
  else
    (bullishCount, bearishCount, totalVolatility, validTimeframes).

(** ** Concrete inputs *)

(** A candle that only carries a close price. *)
Definition candle_at (close : float) : CoinData :=
  {| timestamp := ""; open := close; high := close; low := close;
     close := close; volume := None; ema_20 := None; rsi_14 := None;
     macd := None; macd_signal := None; bb_upper := None; bb_lower := None;
     obv := None |}.

Definition falling_closes : list float :=
  [15; 14; 13; 12; 11; 10; 9; 8; 7; 6; 5; 4; 3; 2; 1]%float.

Definition rising_closes : list float := [10; 10; 10; 10; 10; 20]%float.

(** A candle with a close price and the two indicators the trend rule
    reads. *)
Definition annotated_candle (close : float) (ema rsi : option float) : CoinData :=
  {| timestamp := ""; open := close; high := close; low := close;
     close := close; volume := None; ema_20 := ema; rsi_14 := rsi;
     macd := None; macd_signal := None; bb_upper := None; bb_lower := None;
     obv := None |}.

(** Six candles whose EMA rises from the first to the last but falls from
    the second to the last. *)
Definition trend_series : list CoinData :=
  [ annotated_candle 1 (Some 1%float) None;
    annotated_candle 5 (Some 5%float) None;
    annotated_candle 4 None None;
    annotated_candle 4 None None;
    annotated_candle 3 None None;
    annotated_candle 3 (Some 3%float) (Some 60%float) ].

(** A platform and two services for closed examples: the coin "btc"
    resolves, and the data of the timeframe "1h" cannot be fetched. *)
Definition sample_log (x : float) : float := x.
Definition sample_pow (x y : float) : float := (x * x)%float.
Definition sample_text (candles : list CoinData) (code trend : string)
    (volatility priceChange : float) : string :=
  "Analisis " +:+ code.
Definition sample_getCoinId (symbol : string) : completion string :=
  if bool_decide (symbol = "btc"%string) then Normal "bitcoin"%string
  else Throw "Error: Gagal mengambil coin ID".
Definition sample_getMarketData (coinId code : string)
    : completion (list CoinData) :=
  if bool_decide (code = "1h"%string) then
    Throw "Error: Gagal mengambil data harga untuk timeframe 1h"
  else Normal (candle_at <$> rising_closes).

(** Nine reports with non-empty data, seven of them "Uptrend" and none
    "Downtrend". *)
Definition report (code trend : string) : TimeframeData :=
  {| timeframe := code;
     duration := get timeframeLabels code;
     data := [candle_at 1];
     analysis := "";
     trend := trend;
     volatility := 0.2;
     priceChange := 0;
     volume24h := None |}.
Definition seven_uptrends : list TimeframeData :=
  [ report "15m" "Uptrend"; report "30m" "Uptrend"; report "1h" "Sideways";
    report "12h" "Uptrend"; report "24h" "Uptrend"; report "7d" "Uptrend";
    report "30d" "Sideways"; report "6M" "Uptrend"; report "1Y" "Uptrend" ].

(** * Further notions *)

(** ** The rules of the overall analysis

    The reports that count, their mean volatility (summed in the order of
    the reports, as the loop does) and the two remaining reduction rules. *)
Definition reports_with_data (timeframes : list TimeframeData)
    : list TimeframeData :=
  filter (λ tf, data tf ≠ []) timeframes.

Definition mean_volatility (timeframes : list TimeframeData) : float :=
  let counted := reports_with_data timeframes in
  match counted with
  | [] => 0%float
  | _ => (foldl (λ total tf, total + volatility tf) 0 counted
          / float_of_Z (len counted))%float
  end.

Definition risk_rule (avgVolatility : float) : string :=
  if gt avgVolatility 0.4 then "High"
  else if lt avgVolatility 0.15 then "Low"
  else "Medium".

Definition recommendation_rule (sentiment risk : string) : string :=
  if bool_decide (risk = "High"%string) then "Wait"
  else if bool_decide (sentiment = "Bullish"%string) then "Buy"
  else if bool_decide (sentiment = "Bearish"%string) then "Sell"
  else "Hold".

(** The four labels [detectTrend] can return. *)
Definition trend_labels : list string :=
  [ "Insufficient data"; "Uptrend"; "Downtrend"; "Sideways" ]%string.

(** The values the loop of [calculateBollingerBands] stores at index [i]:
    mean, upper band and lower band. *)
Definition bands_value (Math_pow : float → float → float) (data : list float)
    (period : Z) (stdDev : float) (i : Z) : completion (float * float * float) :=
  let window := slice data (i - period + 1) (i + 1) in
  total ← reduce (λ a b, a + b)%float window;
  let mean := (total / float_of_Z period)%float in
  let variance :=
    (reduce_from (λ sum val, sum + Math_pow (val - mean) 2) 0 window
     / float_of_Z period)%float in
  let standardDeviation := PrimFloat.sqrt variance in
  mret (mean, (mean + standardDeviation * stdDev)%float,
        (mean - standardDeviation * stdDev)%float).

(** ** Sample services

    A primary service that fails, a secondary one that answers with no
    candles, and a mock generator that returns six candles. *)
Definition sample_sources : Market.Sources :=
  {| Market.coingecko := λ _ _ _, Throw "Error: Network Error";
     Market.coincap := λ _ _ _, Normal [];
     Market.generateMockDataByTimeframe := λ _ _, candle_at <$> rising_closes |}.

(** ** Strings

    [s.toLowerCase()] on a string of ASCII characters: the letters [A] to
    [Z] become [a] to [z], every other character stays. *)
Definition lower_ascii (c : ascii) : ascii :=
  let n := nat_of_ascii c in
  if (65 <=? n)%nat && (n <=? 90)%nat then ascii_of_nat (n + 32) else c.

Fixpoint toLowerCase (s : string) : string :=
  match s with
  | EmptyString => EmptyString
  | String c s' => String (lower_ascii c) (toLowerCase s')
  end.

(** ** The route's timeframe (routes/_index.tsx)

    [timeframeMatch ? timeframeMatch[1].toLowerCase() : '24h'], where the
    argument is the group captured by
    [/\b(15m|30m|1h|12h|24h|7d|30d|6M|1Y)\b/i], if the message matched. *)
Definition requestedTimeframe (timeframeMatch : option string) : string :=
  match timeframeMatch with
  | Some captured => toLowerCase captured
  | None => "24h"
  end.

(** ** Coin identifiers *)

Definition coinMap : list (string * string) :=
  [ ("btc", "bitcoin"); ("eth", "ethereum"); ("bnb", "binancecoin");
    ("ada", "cardano"); ("dot", "polkadot"); ("xrp", "ripple");
    ("ltc", "litecoin"); ("link", "chainlink"); ("bch", "bitcoin-cash");
    ("xlm", "stellar"); ("usdt", "tether"); ("usdc", "usd-coin");
    ("sol", "solana"); ("avax", "avalanche-2"); ("matic", "matic-network");
    ("doge", "dogecoin"); ("shib", "shiba-inu"); ("trx", "tron");
    ("atom", "cosmos"); ("uni", "uniswap") ]%string.

(** An entry of the coin lists the two services answer with. *)
Record Coin := {
  coin_id : string;
  coin_symbol : string
}.

Section CoinId.

(** The answers of the two list requests: the coins of the response, or the
    exception of the request. *)
Context (coingecko_coins : completion (list Coin)).
Context (coincap_assets : completion (list Coin)).

(** The value returned is the one found: an identifier, or, for a symbol
    that names an inherited property of [coinMap], that property. *)
Definition getCoinId (symbol : string) : completion (property string) :=
  let directId := get coinMap (toLowerCase symbol) in
  if defined directId then mret directId else
  try_catch
    (response ← coingecko_coins;
     match List.find
             (λ coin, bool_decide (toLowerCase (coin_symbol coin) = toLowerCase symbol))
             response with
     | Some coin => mret (Own (coin_id coin))
     | None =>
         fromCoincap ← try_catch
           (coincapResponse ← coincap_assets;
            match List.find
                    (λ coin, bool_decide (toLowerCase (coin_symbol coin)
                                          = toLowerCase symbol))
                    coincapResponse with
            | Some coincapCoin => mret (Some (Own (coin_id coincapCoin)))
            | None => mret None
            end)
           (λ coincapError, mret None);
         match fromCoincap with
         | Some id => mret id
         | None =>
             Throw ("Error: Coin '" +:+ symbol +:+ "' tidak ditemukan di database.")
         end
     end)
    (λ error, Throw ("Error: Gagal mengambil coin ID: " +:+ error)).

End CoinId.

(** A coin list that knows "pepe" only. *)
Definition sample_coins : list Coin :=
  [ {| coin_id := "pepe"; coin_symbol := "PEPE" |} ]%string.

(** ** More of the runtime: extrema and dates *)

Definition is_positive_zero (x : float) : bool :=
  match classify x with PZero => true | _ => false end.
Definition is_negative_zero (x : float) : bool :=
  match classify x with NZero => true | _ => false end.

(** [Math.max(...values)]: from -Infinity; a [NaN] argument gives [NaN], and
    [+0] counts as greater than [-0]. *)
Fixpoint max_from (highest : float) (values : list float) : float :=
  match values with
  | [] => highest
  | number :: rest =>
      if is_nan number then nan
      else if is_positive_zero number && is_negative_zero highest then
        max_from number rest
      else if gt number highest then max_from number rest
      else max_from highest rest
  end.
Definition Math_max (values : list float) : float := max_from neg_infinity values.

(** [Math.min(...values)]: from +Infinity; [-0] counts as less than [+0]. *)
Fixpoint min_from (lowest : float) (values : list float) : float :=
  match values with
  | [] => lowest
  | number :: rest =>
      if is_nan number then nan
      else if is_negative_zero number && is_positive_zero lowest then
        min_from number rest
      else if lt number lowest then min_from number rest
      else min_from lowest rest
  end.
Definition Math_min (values : list float) : float := min_from infinity values.

(** [x <= y] on numbers. *)
Definition lte (x y : float) : bool := (x <=? y)%float.

(** Times are integral numbers of milliseconds, as the services send them;
    [None] stands for [NaN].  On such times, within the range of [Date], the
    floating-point computations of the program (a quotient rounded down, a
    product, a sum, a comparison) are exact, so they are modelled on [Z]. *)
Definition max_time : Z := 8640000000000000.

(** [Math.floor(time / intervalMs) * intervalMs]: [NaN] when the interval is
    0. *)
Definition bucket_start (time intervalMs : Z) : option Z :=
  if intervalMs =? 0 then None else Some (time / intervalMs * intervalMs).

(** [time < bucketStartTime + intervalMs] *)
Definition before_bucket_end (time : Z) (bucketStartTime : option Z)
    (intervalMs : Z) : bool :=
  match bucketStartTime with
  | Some start => time <? start + intervalMs
  | None => false
  end.

(** The indices of [for (let i = from; i < to; i += step)], for a positive
    step. *)
Definition range_by (from to step : Z) : list Z :=
  (λ k, from + step * k) <$> seqZ 0 ((to - from + step - 1) / step).

Section Candles.

(** The text [Date.prototype.toISOString] gives for a valid time. *)
Context (iso : Z → string).

(** [new Date(time).toISOString()]: a RangeError outside the range of
    [Date]. *)
Definition toISOString (time : option Z) : completion string :=
  match time with
  | Some t =>
      if Z.abs t <=? max_time then Normal (iso t)
      else Throw "RangeError: Invalid time value"
  | None => Throw "RangeError: Invalid time value"
  end.

(** A candle with the six fields the object literals of the aggregators
    set. *)
Definition candle (timestamp : string) (open high low close volume : float)
    : CoinData :=
  {| timestamp := timestamp; open := open; high := high; low := low;
     close := close; volume := Some volume; ema_20 := None; rsi_14 := None;
     macd := None; macd_signal := None; bb_upper := None; bb_lower := None;
     obv := None |}.

(** A sample is the pair [[time, value]] of the services' arrays. *)
Definition createAggregatedCandle (priceBucket volumeBucket : list (Z * float))
    (timestamp : option Z) : completion CoinData :=
  first ← deref (at_index priceBucket 0);
  let open := first.2 in
  last ← deref (at_index priceBucket (len priceBucket - 1));
  let close := last.2 in
  let high := Math_max (snd <$> priceBucket) in
  let low := Math_min (snd <$> priceBucket) in
  let volume := reduce_from (λ sum v, (sum + v.2)%float) 0%float volumeBucket in
  timestamp ← toISOString timestamp;
  mret (candle timestamp open high low close volume).

Definition aggregateToTimeframe (prices volumes : list (Z * float))
    (intervalMinutes : Z) : completion (list CoinData) :=
  let intervalMs := intervalMinutes * 60 * 1000 in
  if len prices =? 0 then mret [] else
  first ← deref (at_index prices 0);
  let bucketStartTime := bucket_start first.1 intervalMs in
  '(result, currentBucket, currentVolumeBucket, bucketStartTime) ←
    for_range_throwing 0 (len prices)
      (λ i '(result, currentBucket, currentVolumeBucket, bucketStartTime),
         price ← deref (at_index prices i);
         let volume := default (price.1, 0%float) (at_index volumes i) in
         if before_bucket_end price.1 bucketStartTime intervalMs then
           mret (result, currentBucket ++ [price], currentVolumeBucket ++ [volume],
                 bucketStartTime)
         else
           result ←
             (if len currentBucket >? 0 then
                aggregated ← createAggregatedCandle currentBucket
                               currentVolumeBucket bucketStartTime;
                mret (result ++ [aggregated])
              else mret result);
           mret (result, [price], [volume], bucket_start price.1 intervalMs))
      ([], [], [], bucketStartTime);
  if len currentBucket >? 0 then
    aggregated ← createAggregatedCandle currentBucket currentVolumeBucket
                   bucketStartTime;
    mret (result ++ [aggregated])
  else mret result.

Definition aggregateToHalfDay (prices volumes : list (Z * float))
    : completion (list CoinData) :=
  for_each
    (λ i result,
       firstHalf ← deref (at_index prices i);
       let secondHalf := default firstHalf (at_index prices (i + 1)) in
       let firstVolume := default (firstHalf.1, 0%float) (at_index volumes i) in
       let secondVolume := default firstVolume (at_index volumes (i + 1)) in
       timestamp ← toISOString (Some firstHalf.1);
       mret (result ++
             [candle timestamp firstHalf.2
                (Math_max [firstHalf.2; secondHalf.2])
                (Math_min [firstHalf.2; secondHalf.2])
                secondHalf.2
                (firstVolume.2 + secondVolume.2)%float]))
    [] (range_by 0 (len prices) 2).

End Candles.

(** The order every candle should have: low ≤ open ≤ high and
    low ≤ close ≤ high. *)
Definition ohlc_ordered (c : CoinData) : Prop :=
  lte (low c) (open c) = true ∧ lte (open c) (high c) = true
  ∧ lte (low c) (close c) = true ∧ lte (close c) (high c) = true.

(** The interval is a positive whole number of minutes, small enough for the
    time arithmetic of the aggregator to be exact on binary64. *)
Definition exact_interval (intervalMinutes : Z) : Prop :=
  0 < intervalMinutes ∧ intervalMinutes * 60 * 1000 + max_time < 2 ^ 53.

(** The samples carry a time of the epoch within the range of [Date]. *)
Definition valid_times (samples : list (Z * float)) : Prop :=
  Forall (λ sample, 0 ≤ sample.1 ≤ max_time) samples.

(** No sample's value is [NaN]. *)
Definition no_nan (samples : list (Z * float)) : Prop :=
  Forall (λ sample, is_nan sample.2 = false) samples.

(** Consecutive bucket starts are at least one interval apart. *)
Definition spaced (intervalMs : Z) (starts : list Z) : Prop :=
  ∀ (i : nat) (start next : Z),
    starts !! i = Some start → starts !! S i = Some next →
    start + intervalMs ≤ next.

Section Buckets.

Context (iso : Z → string).

(** What the loop of [aggregateToTimeframe] maintains after [k] samples. *)
Definition bucket_invariant (prices : list (Z * float)) (intervalMs : Z)
    (k : nat)
    (state : list CoinData * list (Z * float) * list (Z * float) * option Z)
    : Prop :=
  let '(result, currentBucket, currentVolumeBucket, bucketStartTime) := state in
  ∃ (current : Z) (starts : list Z),
    bucketStartTime = Some current
    ∧ 0 ≤ current ≤ max_time
    ∧ (∃ sample, sample ∈ prices ∧ current = sample.1 / intervalMs * intervalMs)
    ∧ (k = 0%nat →
       result = [] ∧ currentBucket = []
       ∧ ∃ first, prices !! 0%nat = Some first
                  ∧ current = first.1 / intervalMs * intervalMs)
    ∧ (k ≠ 0%nat → currentBucket ≠ [])
    ∧ Forall (λ sample, sample ∈ prices) currentBucket
    ∧ timestamp <$> result = iso <$> starts
    ∧ Forall (λ start,
                start + intervalMs ≤ current
                ∧ ∃ sample, sample ∈ prices
                            ∧ start = sample.1 / intervalMs * intervalMs) starts
    ∧ spaced intervalMs starts
    ∧ (no_nan prices → Forall ohlc_ordered result)
    ∧ (length result + length currentBucket ≤ k)%nat.

End Buckets.

(** The examples' samples lie in the first two quarters of an hour of the
    epoch; this is the text of the two bucket starts. *)
Definition sample_iso (time : Z) : string :=
  if time =? 0 then "1970-01-01T00:00:00.000Z"
  else "1970-01-01T00:15:00.000Z".

(** Three minutely samples [[time, price]]: two in the first quarter of an
    hour, one in the second. *)
Definition sample_prices : list (Z * float) :=
  [(0, 10%float); (60000, 30%float); (900000, 20%float)].
Definition sample_volumes : list (Z * float) :=
  [(0, 5%float); (60000, 6%float); (900000, 7%float)].

(** The samples' times lie in the range of [Date]. *)
Definition dated (samples : list (Z * float)) : Prop :=
  Forall (λ sample, Z.abs sample.1 ≤ max_time) samples.

(** ** The services' answers and the candles built from them *)

(** [a.filter((item, index) => keep)] *)
Fixpoint filter_from {A} (keep : A → Z → bool) (index : Z) (a : list A)
    : list A :=
  match a with
  | [] => []
  | item :: a' =>
      if keep item index then item :: filter_from keep (index + 1) a'
      else filter_from keep (index + 1) a'
  end.
Definition filter_indexed {A} (keep : A → Z → bool) (a : list A) : list A :=
  filter_from keep 0 a.

(** The body of CoinGecko's [market_chart] answer: each of the two arrays
    may be missing. *)
Record MarketChart := {
  chart_prices : option (list (Z * float));
  chart_total_volumes : option (list (Z * float))
}.

(** An item of CoinCap's [history] answer. *)
Record Asset := {
  asset_priceUsd : string;
  asset_time : Z
}.

Section Services.

(** [parseFloat] is left open, and so is [Math.random]: [random k] is the
    number its call number [k] returns. *)
Context (iso : Z → string) (parseFloat : string → float) (random : Z → float).

(** The candles the CoinGecko block of [getMarketDataByTimeframe] builds
    from the answer. *)
Definition coingecko_candles (timeframe : string) (chart : MarketChart)
    : completion (list CoinData) :=
  let prices := default [] (chart_prices chart) in
  let volumes := default [] (chart_total_volumes chart) in
  if bool_decide (timeframe = "15m"%string)
     || bool_decide (timeframe = "30m"%string) then
    let intervalMinutes :=
      if bool_decide (timeframe = "15m"%string) then 15 else 30 in
    aggregateToTimeframe iso prices volumes intervalMinutes
  else if bool_decide (timeframe = "12h"%string) then
    aggregateToHalfDay iso prices volumes
  else
    mapped ←
      map_throwing
        (λ item index,
           timestamp ← toISOString iso (Some item.1);
           let close := item.2 in
           let volume :=
             match at_index volumes index with
             | Some v => v.2
             | None => 0%float
             end in
           prevClose ←
             (if index >? 0 then
                previous ← deref (at_index prices (index - 1)); mret previous.2
              else mret close);
           mret (candle timestamp prevClose
                   (Math_max [close;
                              (prevClose * (1 + random (2 * index) * 0.02))%float])
                   (Math_min [close;
                              (prevClose
                               * (1 - random (2 * index + 1) * 0.02))%float])
                   close volume))
        prices;
    mret (filter_indexed (λ _ index, index >? 0) mapped).

(** The candles the CoinCap block builds from the answer; they carry no
    volume. *)
Definition coincap_candles (data : list Asset) : completion (list CoinData) :=
  mapped ←
    map_throwing
      (λ item index,
         let close := parseFloat (asset_priceUsd item) in
         prevClose ←
           (if index >? 0 then
              previous ← deref (at_index data (index - 1));
              mret (parseFloat (asset_priceUsd previous))
            else mret close);
         timestamp ← toISOString iso (Some (asset_time item));
         mret {| timestamp := timestamp; open := prevClose;
                 high := Math_max [close; prevClose];
                 low := Math_min [close; prevClose];
                 close := close; volume := None; ema_20 := None;
                 rsi_14 := None; macd := None; macd_signal := None;
                 bb_upper := None; bb_lower := None; obv := None |})
      data;
  mret (filter_indexed (λ _ index, index >? 0) mapped).

(** The sources of [getMarketDataByTimeframe] for given answers of the two
    services: [Throw] is a request that failed. *)
Definition services (chart : completion MarketChart)
    (history : completion (list Asset)) (mock : string → string → list CoinData)
    : Market.Sources :=
  {| Market.coingecko := λ coinId timeframe config,
       response ← chart; coingecko_candles timeframe response;
     Market.coincap := λ coinId timeframe config,
       response ← history; coincap_candles response;
     Market.generateMockDataByTimeframe := mock |}.

End Services.

(** ** The mock generator *)

Definition intervals : list (string * Z) :=
  [ ("15m", 15 * 60 * 1000); ("30m", 30 * 60 * 1000); ("1h", 60 * 60 * 1000);
    ("12h", 12 * 60 * 60 * 1000); ("24h", 24 * 60 * 60 * 1000);
    ("7d", 7 * 24 * 60 * 60 * 1000); ("30d", 30 * 24 * 60 * 60 * 1000);
    ("6M", 6 * 30 * 24 * 60 * 60 * 1000);
    ("1Y", 365 * 24 * 60 * 60 * 1000) ]%string.

(** [intervals[timeframe] || intervals['1h']]: an inherited property is a
    function or an object, which is truthy and is returned as it is. *)
Definition getIntervalMs (timeframe : string) : property Z :=
  match get intervals timeframe with
  | Own ms => if ms =? 0 then get intervals "1h" else Own ms
  | Inherited name => Inherited name
  | Undefined => get intervals "1h"
  end.

(** The indices of [for (let i = from; i >= 0; i--)]. *)
Definition descending (from : Z) : list Z := reverse (seqZ 0 (from + 1)).

Section Mock.

(** The clock reading [new Date().getTime()], the draws of [Math.random] in
    the order of the calls, and [Math.sin]. *)
Context (iso : Z → string) (now : Z) (random : Z → float) (sin : float → float).

Definition generateMockDataByTimeframe (coinId timeframe : string)
    : completion (list CoinData) :=
  let basePrice :=
    if bool_decide (coinId = "bitcoin"%string) then 45000%float
    else if bool_decide (coinId = "ethereum"%string) then 2500%float
    else 100%float in
  let config := get Market.TIMEFRAME_CONFIG timeframe in
  let intervalMs := getIntervalMs timeframe in
  (* [config.points]: [undefined] on an inherited function or object, whose
     minimum with 100 is [NaN] *)
  points ←
    match config with
    | Own c => Normal (Some (Market.points c))
    | Inherited _ => Normal None
    | Undefined => Throw "TypeError: Cannot read properties of undefined"
    end;
  match (λ p, Z.min p 100) <$> points with
  | None => mret []
  | Some dataPoints =>
      for_each
        (λ i data,
           let time :=
             match intervalMs with
             | Own ms => Some (now - i * ms)
             | _ => None
             end in
           let randomChange :=
             ((random (2 * (dataPoints - i)) - 0.5) * 0.1)%float in
           let price :=
             (basePrice * (1 + sin (float_of_Z i * 0.1) * 0.15 + randomChange))%float in
           let volume := (random (2 * (dataPoints - i) + 1) * 1000000)%float in
           timestamp ← toISOString iso time;
           mret (data ++
                 [candle timestamp (price * 0.999)%float (price * 1.003)%float
                    (price * 0.997)%float price volume]))
        [] (descending dataPoints)
  end.

End Mock.

(** Stand-ins for the examples: every draw is one half, and the sine is
    replaced by the identity. *)
Definition sample_random (k : Z) : float := 0.5%float.
Definition sample_sin (x : float) : float := x.
Definition sample_parseFloat (text : string) : float :=
  if bool_decide (text = "10"%string) then 10%float
  else if bool_decide (text = "30"%string) then 30%float
  else 20%float.
Definition sample_history : list Asset :=
  [ {| asset_priceUsd := "10"; asset_time := 0 |};
    {| asset_priceUsd := "30"; asset_time := 60000 |};
    {| asset_priceUsd := "20"; asset_time := 900000 |} ]%string.
Definition sample_chart : MarketChart :=
  {| chart_prices := Some sample_prices;
     chart_total_volumes := Some sample_volumes |}.

(** * Properties *)

(** ** Loops *)

Lemma for_range_nil {S} (from to : Z) (body : Z → S → S) (s : S) :
  to ≤ from → for_range from to body s = s.
Proof. intros Hle. unfold for_range. by rewrite seqZ_nil by lia. Qed.

Lemma for_range_snoc {S} (from : Z) (n : nat) (body : Z → S → S) (s : S) :
  for_range from (from + Z.of_nat (Datatypes.S n)) body s
  = body (from + Z.of_nat n) (for_range from (from + Z.of_nat n) body s).
Proof.
  unfold for_range.
  replace (from + Z.of_nat (Datatypes.S n) - from) with (Z.of_nat (Datatypes.S n)) by lia.
  replace (from + Z.of_nat n - from) with (Z.of_nat n) by lia.
  by rewrite seqZ_S, foldl_snoc.
Qed.

(** A loop that writes [a[i] = value i a] for ascending [i] leaves the keys
    outside its range alone, and every key it wrote holds the value computed
    from the final array, provided the value at [i] only reads keys below
    [i]. *)
Section WriteLoop.

Context (value : Z → gmap Z float → float).
Hypothesis value_reads_below : ∀ i (a a' : gmap Z float),
  (∀ k, k < i → a !! k = a' !! k) → value i a = value i a'.

Let write (i : Z) (a : gmap Z float) : gmap Z float := <[i := value i a]> a.

Lemma write_loop_outside (from : Z) (n : nat) (a : gmap Z float) (k : Z) :
  k < from ∨ from + Z.of_nat n ≤ k →
  for_range from (from + Z.of_nat n) write a !! k = a !! k.
Proof.
  induction n as [|n IH]; intros Hk.
  - by rewrite for_range_nil by lia.
  - rewrite for_range_snoc. unfold write at 1.
    rewrite lookup_insert_ne by lia. apply IH. lia.
Qed.

Lemma write_loop_inside (from : Z) (n : nat) (a : gmap Z float) (i : Z) :
  from ≤ i < from + Z.of_nat n →
  let final := for_range from (from + Z.of_nat n) write a in
  final !! i = Some (value i final).
Proof.
  induction n as [|n IH]; intros Hi; [lia|].
  cbn zeta. rewrite for_range_snoc.
  set (before := for_range from (from + Z.of_nat n) write a) in *.
  destruct (decide (i = from + Z.of_nat n)) as [->|Hne].
  - unfold write. rewrite lookup_insert_eq. f_equal.
    apply value_reads_below. intros k Hk. by rewrite lookup_insert_ne by lia.
  - unfold write at 1. rewrite lookup_insert_ne by lia.
    cbn zeta in IH. rewrite IH by lia. f_equal.
    apply value_reads_below. intros k Hk.
    unfold write. by rewrite lookup_insert_ne by lia.
Qed.

End WriteLoop.

(** ** EMA *)

Lemma at_index_lookup {A} (a : list A) (i : nat) :
  at_index a (Z.of_nat i) = a !! i.
Proof.
  unfold at_index. destruct (Z.ltb_spec (Z.of_nat i) 0); [lia|].
  by rewrite Nat2Z.id.
Qed.

Lemma sum_loop_take (data : list float) (n : nat) (s : float) :
  (n ≤ length data)%nat →
  for_range 0 (Z.of_nat n)
    (λ i sum, (sum + to_number (at_index data i))%float) s
  = foldl (λ sum x, (sum + x)%float) s (take n data).
Proof.
  induction n as [|n IH]; intros Hn.
  - by rewrite for_range_nil by lia.
  - destruct (lookup_lt_is_Some_2 data n) as [x Hx]; [lia|].
    rewrite (take_S_r _ _ x), foldl_snoc, <- IH by (done || lia).
    change (Z.of_nat (S n)) with (0 + Z.of_nat (S n)).
    rewrite for_range_snoc, !Z.add_0_l.
    by rewrite at_index_lookup, Hx.
Qed.

Lemma calculateEMA_unfold (data : list float) (period : Z) :
  calculateEMA data period
  = for_range period (len data)
      (λ i ema, <[i := ema_value data period i ema]> ema)
      (<[period - 1 :=
           (for_range 0 (Z.min period (len data))
              (λ i sum, (sum + to_number (at_index data i))%float) 0
            / float_of_Z period)%float]> ∅).
Proof. reflexivity. Qed.

Lemma range_as_offset (from to : Z) :
  from ≤ to → to = from + Z.of_nat (Z.to_nat (to - from)).
Proof. lia. Qed.

Lemma calculateEMA_before_seed (data : list float) (period k : Z) :
  k < period - 1 → calculateEMA data period !! k = None.
Proof.
  intros Hk. rewrite calculateEMA_unfold.
  destruct (Z.le_gt_cases period (len data)) as [Hle|Hgt].
  - rewrite (range_as_offset period (len data)) by done.
    rewrite (write_loop_outside
      (ema_value data period)) by lia.
    rewrite lookup_insert_ne by lia. apply lookup_empty.
  - rewrite for_range_nil by lia.
    rewrite lookup_insert_ne by lia. apply lookup_empty.
Qed.

Lemma calculateEMA_seed (data : list float) (period : Z) :
  0 ≤ period ≤ len data →
  calculateEMA data period !! (period - 1)
  = Some (arithmetic_mean (take (Z.to_nat period) data)).
Proof.
  intros Hp. rewrite calculateEMA_unfold.
  rewrite (range_as_offset period (len data)) by lia.
  rewrite (write_loop_outside
    (ema_value data period)) by lia.
  rewrite lookup_insert_eq. unfold arithmetic_mean, len in *.
  rewrite length_take, Nat.min_l, Z.min_l by lia.
  rewrite <- (sum_loop_take data (Z.to_nat period)) by lia.
  by rewrite !Z2Nat.id by lia.
Qed.

Lemma calculateEMA_step (data : list float) (period i : Z) :
  period ≤ i < len data →
  let ema := calculateEMA data period in
  ema !! i = Some (ema_value data period i ema).
Proof.
  intros Hi. cbn zeta. rewrite calculateEMA_unfold.
  rewrite (range_as_offset period (len data)) by lia.
  apply (write_loop_inside
    (ema_value data period)); [|lia].
  intros j a a' Hsame. unfold ema_value. by rewrite (Hsame (j - 1)) by lia.
Qed.

Lemma calculateEMA_defined (data : list float) (period i : Z) :
  period - 1 ≤ i → i < len data ∨ i = period - 1 →
  is_Some (calculateEMA data period !! i).
Proof.
  intros Hlo Hhi. destruct (decide (i = period - 1)) as [->|Hne].
  - rewrite calculateEMA_unfold.
    destruct (Z.le_gt_cases period (len data)) as [Hle|Hgt].
    + rewrite (range_as_offset period (len data)) by done.
      rewrite (write_loop_outside
        (ema_value data period)) by lia.
      by rewrite lookup_insert_eq.
    + rewrite for_range_nil by lia. by rewrite lookup_insert_eq.
  - pose proof (calculateEMA_step data period i) as Hstep.
    cbn zeta in Hstep. rewrite Hstep by lia. done.
Qed.

(** C7: for a close sequence with at least [period] elements, [calculateEMA]
    stores at index [period - 1] the arithmetic mean of the first [period]
    closes, leaves every earlier index undefined, and at every index
    [i ≥ period] of the sequence stores
    [(close[i] - EMA[i-1]) * (2 / (period + 1)) + EMA[i-1]], where [EMA[i-1]]
    is the defined value at the index before.  For the closes
    [10,10,10,10,10] and period 5, [EMA[4]] is [10]; with a sixth close [20],
    [EMA[5]] is [(20 - 10) * (2 / 6) + 10]. *)
Theorem calculateEMA_seed_and_recurrence (data : list float) (period : Z) :
  0 ≤ period ≤ len data →
  let ema := calculateEMA data period in
  ema !! (period - 1) = Some (arithmetic_mean (take (Z.to_nat period) data))
  ∧ (∀ k, k < period - 1 → ema !! k = None)
  ∧ (∀ i c, period ≤ i → data !! Z.to_nat i = Some c →
       ∃ previous,
         ema !! (i - 1) = Some previous
         ∧ ema !! i
           = Some ((c - previous) * (2 / float_of_Z (period + 1)) + previous)%float)
  ∧ calculateEMA [10; 10; 10; 10; 10]%float 5 !! 4 = Some 10%float
  ∧ calculateEMA [10; 10; 10; 10; 10; 20]%float 5 !! 5
    = Some ((20 - 10) * (2 / 6) + 10)%float.
Proof.
  intros Hp. cbn zeta. split; [by apply calculateEMA_seed|].
  split; [intros k Hk; by apply calculateEMA_before_seed|].
  split; [|split; vm_compute; reflexivity].
  intros i c Hi Hc.
  assert (i < len data) as Hlt.
  { apply lookup_lt_Some in Hc. unfold len. lia. }
  destruct (calculateEMA_defined data period (i - 1)) as [previous Hprev]; [lia..|].
  exists previous. split; [done|].
  pose proof (calculateEMA_step data period i) as Hstep. cbn zeta in Hstep.
  rewrite Hstep by lia. unfold ema_value. rewrite Hprev. unfold at_index.
  destruct (Z.ltb_spec i 0); [lia|]. by rewrite Hc.
Qed.

(** ** Loops whose body may throw *)

Lemma for_each_invariant {S} (P : S → Prop) (body : Z → S → completion S)
    (indices : list Z) (s : S) :
  P s →
  (∀ i s, i ∈ indices → P s → ∃ s', body i s = Normal s' ∧ P s') →
  ∃ s', for_each body s indices = Normal s' ∧ P s'.
Proof.
  revert s. induction indices as [|i indices IH]; intros s Hs Hbody.
  - by exists s.
  - destruct (Hbody i s) as (s1 & Hs1 & HP1); [left|done|].
    cbn [for_each]. rewrite Hs1. apply IH; [done|].
    intros j s2 Hj. apply Hbody. by right.
Qed.

(** A loop that writes [a[i] = v], where [v] is computed from [i] alone:
    if no computation throws, the loop returns, the keys it did not visit are
    unchanged and each visited key holds its value. *)
Lemma for_each_write (value : Z → completion float) (indices : list Z)
    (a : gmap Z float) :
  (∀ i, i ∈ indices → ∃ v, value i = Normal v) →
  ∃ a',
    for_each (λ i a, v ← value i; mret (<[i := v]> a)) a indices = Normal a'
    ∧ (∀ k, k ∉ indices → a' !! k = a !! k)
    ∧ (∀ i, i ∈ indices → ∃ v, value i = Normal v ∧ a' !! i = Some v).
Proof.
  revert a. induction indices as [|i indices IH]; intros a Hval.
  - exists a. split; [done|]. split; [done|]. intros i Hi. by inversion Hi.
  - destruct (Hval i) as [v Hv]; [left|].
    destruct (IH (<[i := v]> a)) as (a' & Hrun & Hout & Hin).
    { intros j Hj. apply Hval. by right. }
    exists a'. cbn [for_each]. rewrite Hv. split; [exact Hrun|]. split.
    + intros k Hk. rewrite Hout by (intros ?; apply Hk; by right).
      apply lookup_insert_ne. intros ->. apply Hk. left.
    + intros j Hj. destruct (decide (j ∈ indices)) as [Hmem|Hnot].
      * by apply Hin.
      * apply elem_of_cons in Hj as [->|Hj]; [|done].
        exists v. split; [done|]. rewrite Hout by done. apply lookup_insert_eq.
Qed.

(** ** Slices *)

Lemma length_slice_window {A} (a : list A) (period i : Z) :
  1 ≤ period → period - 1 ≤ i < len a →
  length (slice a (i - period + 1) (i + 1)) = Z.to_nat period.
Proof.
  intros Hp Hi. unfold slice, slice_bound, len in *.
  destruct (Z.ltb_spec (i - period + 1) 0); [lia|].
  destruct (Z.ltb_spec (i + 1) 0); [lia|].
  rewrite length_take, length_drop. lia.
Qed.

Lemma reduce_window {A} (f : A → A → A) (a : list A) (period i : Z) :
  1 ≤ period → period - 1 ≤ i < len a →
  ∃ x, reduce f (slice a (i - period + 1) (i + 1)) = Normal x.
Proof.
  intros Hp Hi. pose proof (length_slice_window a period i Hp Hi) as Hlen.
  destruct (slice a (i - period + 1) (i + 1)) as [|x w]; [cbn in Hlen; lia|].
  by eexists.
Qed.

(** ** RSI *)

Lemma for_each_ext {S} (body body' : Z → S → completion S) (indices : list Z)
    (s : S) :
  (∀ i s, body i s = body' i s) →
  for_each body s indices = for_each body' s indices.
Proof.
  intros Hext. revert s. induction indices as [|i indices IH]; intros s; [done|].
  cbn [for_each]. rewrite Hext. destruct (body' i s); cbn; [apply IH|done].
Qed.

Lemma calculateRSI_unfold (data : list float) (period : Z) :
  calculateRSI data period
  = for_each
      (λ i rsi,
         v ← rsi_value (rsi_changes data).1 (rsi_changes data).2 period i;
         mret (<[i := v]> rsi))
      (∅ : gmap Z float)
      (seqZ (period - 1) (len (rsi_changes data).1 - (period - 1))).
Proof.
  unfold calculateRSI.
  change (for_range 1 (len data) _ ([], [])) with (rsi_changes data).
  destruct (rsi_changes data) as [gains losses]. cbn [fst snd].
  unfold for_range_throwing. apply for_each_ext. intros i rsi.
  unfold rsi_value.
  destruct (reduce _ (slice gains _ _)); cbn; [|done].
  destruct (reduce _ (slice losses _ _)); cbn; [|done].
  by case_match.
Qed.

Lemma rsi_steps_length (data : list float) (n : nat) :
  let changes := for_range 1 (1 + Z.of_nat n) (rsi_step data) ([], []) in
  length changes.1 = n ∧ length changes.2 = n.
Proof.
  induction n as [|n [IH1 IH2]]; cbn zeta.
  - by rewrite for_range_nil by lia.
  - rewrite for_range_snoc. cbn zeta in IH1, IH2.
    destruct (for_range 1 (1 + Z.of_nat n) _ _) as [gains losses].
    cbn [rsi_step fst snd] in *. rewrite !length_app, IH1, IH2. cbn. lia.
Qed.

Lemma rsi_changes_length (data : list float) :
  length (rsi_changes data).1 = Z.to_nat (len data - 1)
  ∧ length (rsi_changes data).2 = Z.to_nat (len data - 1).
Proof.
  unfold rsi_changes.
  destruct (Z.le_gt_cases 1 (len data)) as [Hle|Hgt].
  - pose proof (rsi_steps_length data (Z.to_nat (len data - 1))) as Hsteps.
    cbn zeta in Hsteps. by rewrite <- range_as_offset in Hsteps.
  - rewrite for_range_nil by lia. cbn. lia.
Qed.

(** [calculateRSI] returns for every period of at least 1; the keys below
    [period - 1] are holes, and a key [i] from [period - 1] up to the number
    of price steps holds the value computed from the trailing window. *)
Lemma calculateRSI_returns (data : list float) (period : Z) :
  1 ≤ period →
  ∃ rsi,
    calculateRSI data period = Normal rsi
    ∧ (∀ k, k < period - 1 → rsi !! k = None)
    ∧ (∀ i, period - 1 ≤ i < len data - 1 →
         ∃ v, rsi_value (rsi_changes data).1 (rsi_changes data).2 period i
              = Normal v
              ∧ rsi !! i = Some v).
Proof.
  intros Hp. rewrite calculateRSI_unfold.
  destruct (rsi_changes_length data) as [Hg Hl].
  set (gains := (rsi_changes data).1) in *.
  set (losses := (rsi_changes data).2) in *.
  destruct (for_each_write (rsi_value gains losses period)
              (seqZ (period - 1) (len gains - (period - 1))) ∅)
    as (rsi & Hrun & Hout & Hin).
  { intros i [Hlo Hhi]%elem_of_seqZ. unfold rsi_value.
    destruct (reduce_window (λ a b, a + b)%float gains period i) as [g ->];
      [lia|lia|].
    destruct (reduce_window (λ a b, a + b)%float losses period i) as [l ->];
      [lia|unfold len in *; lia|].
    cbn. case_match; by eexists. }
  exists rsi. split; [done|]. split.
  - intros k Hk. rewrite Hout; [apply lookup_empty|].
    rewrite elem_of_seqZ. lia.
  - intros i Hi. apply Hin. rewrite elem_of_seqZ. unfold len in *. lia.
Qed.

(** ** Bollinger bands *)

(** [calculateBollingerBands] returns for every period of at least 1, and
    the keys below [period - 1] of its three arrays are holes. *)
Lemma calculateBollingerBands_returns (Math_pow : float → float → float)
    (data : list float) (period : Z) (stdDev : float) :
  1 ≤ period →
  ∃ bb,
    calculateBollingerBands Math_pow data period stdDev = Normal bb
    ∧ ∀ k, k < period - 1 →
        sma bb !! k = None ∧ upperBand bb !! k = None ∧ lowerBand bb !! k = None.
Proof.
  intros Hp. unfold calculateBollingerBands, for_range_throwing.
  apply (for_each_invariant
    (λ bb, ∀ k, k < period - 1 →
       sma bb !! k = None ∧ upperBand bb !! k = None ∧ lowerBand bb !! k = None)).
  - intros k Hk. cbn. by rewrite !lookup_empty.
  - intros i bb [Hlo Hhi]%elem_of_seqZ Hholes.
    destruct (reduce_window (λ a b, a + b)%float data period i) as [total ->];
      [lia|lia|].
    cbn. eexists. split; [done|]. intros k Hk. cbn.
    rewrite !lookup_insert_ne by lia. by apply Hholes.
Qed.

(** ** Annotation *)

(** [applyIndicators] never throws: the windows it reduces are never empty. *)
Lemma applyIndicators_returns (Math_pow : float → float → float)
    (data : list CoinData) :
  ∃ rsi14 bb,
    calculateRSI (close <$> data) 14 = Normal rsi14
    ∧ calculateBollingerBands Math_pow (close <$> data) 20 2 = Normal bb
    ∧ applyIndicators Math_pow data
      = Normal (imap (annotate (calculateEMA (close <$> data) 20) rsi14 bb) data).
Proof.
  destruct (calculateRSI_returns (close <$> data) 14) as (rsi14 & Hrsi & _); [lia|].
  destruct (calculateBollingerBands_returns Math_pow (close <$> data) 20 2)
    as (bb & Hbb & _); [lia|].
  exists rsi14, bb. split; [done|]. split; [done|].
  unfold applyIndicators. by rewrite Hrsi, Hbb.
Qed.

(** C1 (amended): [applyIndicators] returns on every candle series, and at
    every index before an indicator's window is seeded it stores a default
    number, not a marker: [ema_20], [bb_upper] and [bb_lower] are the number
    0 at the indices below 19, and [rsi_14] is the number 50 at the indices
    below 14. *)
Theorem applyIndicators_defaults_before_seed (Math_pow : float → float → float)
    (data : list CoinData) :
  ∃ annotated,
    applyIndicators Math_pow data = Normal annotated
    ∧ length annotated = length data
    ∧ ∀ (index : nat) candle, annotated !! index = Some candle →
        ((index < 19)%nat →
           ema_20 candle = Some 0%float
           ∧ bb_upper candle = Some 0%float
           ∧ bb_lower candle = Some 0%float)
        ∧ ((index < 14)%nat → rsi_14 candle = Some 50%float).
Proof.
  destruct (calculateRSI_returns (close <$> data) 14) as (rsi14 & Hrsi & Hrsi_holes & _);
    [lia|].
  destruct (calculateBollingerBands_returns Math_pow (close <$> data) 20 2)
    as (bb & Hbb & Hbb_holes); [lia|].
  eexists. split.
  { unfold applyIndicators. rewrite Hrsi, Hbb. reflexivity. }
  split; [apply length_imap|].
  intros index candle [item [_ ->]]%list_lookup_imap_Some. cbn. split.
  - intros Hindex.
    rewrite calculateEMA_before_seed by lia.
    destruct (Hbb_holes (Z.of_nat index)) as (_ & -> & ->); [lia|]. done.
  - intros Hindex. by rewrite Hrsi_holes by lia.
Qed.

(** C9: [applyIndicators] returns a series of the same length in which each
    candle has the timestamp, open, high, low, close and volume of the input
    candle at the same index. *)
Theorem applyIndicators_preserves_ohlcv (Math_pow : float → float → float)
    (data : list CoinData) :
  ∃ annotated,
    applyIndicators Math_pow data = Normal annotated
    ∧ length annotated = length data
    ∧ ∀ (index : nat) item, data !! index = Some item →
        ∃ candle,
          annotated !! index = Some candle
          ∧ timestamp candle = timestamp item
          ∧ open candle = open item
          ∧ high candle = high item
          ∧ low candle = low item
          ∧ close candle = close item
          ∧ volume candle = volume item.
Proof.
  destruct (applyIndicators_returns Math_pow data) as (rsi14 & bb & _ & _ & ->).
  eexists. split; [done|]. split; [apply length_imap|].
  intros index item Hitem. eexists. split.
  - rewrite list_lookup_imap, Hitem. reflexivity.
  - done.
Qed.

(** ** Comparison of numbers *)

Lemma SFcompare_Lt_Gt (x y : spec_float) :
  SFcompare x y = Some Lt → SFcompare y x = Some Gt.
Proof.
  destruct x as [sx|sx| |sx mx ex], y as [sy|sy| |sy my ey]; cbn;
    repeat (match goal with |- context [if ?b then _ else _] => destruct b end);
    try done.
  all: rewrite (Z.compare_antisym ex ey); destruct (ex ?= ey)%Z; cbn; try done.
  all: change (PosDef.Pos.compare_cont Eq ?a ?b) with (Pos.compare a b).
  all: rewrite (Pos.compare_antisym mx my); by destruct (mx ?= my)%positive.
Qed.

(** [x < y] excludes [x > y], also when an operand is [NaN] or infinite. *)
Lemma lt_not_gt (x y : float) : lt x y = true → gt x y = false.
Proof.
  unfold lt, gt. rewrite !ltb_spec. unfold SFltb. intros H.
  destruct (SFcompare (Prim2SF x) (Prim2SF y)) as [[]|] eqn:E; try done.
  by rewrite (SFcompare_Lt_Gt _ _ E).
Qed.

(** ** Classifier *)

Lemma at_index_last {A} (a : list A) (k : Z) :
  1 ≤ k ≤ len a → at_index a (len a - k) = a !! (length a - Z.to_nat k)%nat.
Proof.
  intros Hk. unfold at_index, len in *.
  destruct (Z.ltb_spec (Z.of_nat (length a) - k) 0); [lia|].
  f_equal. lia.
Qed.

Lemma map_from_returns {A B} (f : A → Z → completion B) (start : Z) (a : list A) :
  (∀ (k : nat) item, a !! k = Some item → ∃ y, f item (start + Z.of_nat k) = Normal y) →
  ∃ ys, map_from f start a = Normal ys ∧ length ys = length a.
Proof.
  revert start. induction a as [|item a IH]; intros start Hf.
  - by exists [].
  - destruct (Hf 0%nat item) as [y Hy]; [done|].
    rewrite Z.add_0_r in Hy.
    destruct (IH (start + 1)) as (ys & Hys & Hlen).
    { intros k item' Hk. destruct (Hf (S k) item' Hk) as [y' Hy'].
      exists y'. rewrite <- Hy'. f_equal. lia. }
    exists (y :: ys). cbn [map_from]. rewrite Hy. cbn. rewrite Hys. cbn.
    by rewrite Hlen.
Qed.

Lemma detectTrend_returns (data : list CoinData) :
  ∃ trend, detectTrend data = Normal trend.
Proof.
  unfold detectTrend. destruct (Z.ltb_spec (len data) 5) as [Hlt|Hge]; [by eexists|].
  rewrite (at_index_last data 1), (at_index_last data 5) by lia.
  destruct (lookup_lt_is_Some_2 data (length data - Z.to_nat 1)) as [latest ->];
    [unfold len in *; lia|].
  destruct (lookup_lt_is_Some_2 data (length data - Z.to_nat 5)) as [prev ->];
    [unfold len in *; lia|].
  cbn. repeat case_match; by eexists.
Qed.

Lemma calculatePriceChange_returns (data : list CoinData) :
  ∃ change, calculatePriceChange data = Normal change.
Proof.
  unfold calculatePriceChange.
  destruct (Z.ltb_spec (len data) 2) as [Hlt|Hge]; [by eexists|].
  rewrite (at_index_last data 1) by lia.
  change 0 with (Z.of_nat 0). rewrite at_index_lookup.
  destruct (lookup_lt_is_Some_2 data 0) as [first ->]; [unfold len in *; lia|].
  destruct (lookup_lt_is_Some_2 data (length data - Z.to_nat 1)) as [last ->];
    [unfold len in *; lia|].
  by eexists.
Qed.

Lemma calculateVolatility_returns (Math_log : float → float)
    (Math_pow : float → float → float) (data : list CoinData) :
  ∃ volatility, calculateVolatility Math_log Math_pow data = Normal volatility.
Proof.
  unfold calculateVolatility.
  destruct (Z.ltb_spec (len data) 2) as [Hlt|Hge]; [by eexists|].
  unfold map_throwing.
  edestruct (map_from_returns
    (λ item index,
       earlier ← deref (at_index data index);
       mret (Math_log (close item / close earlier)%float))
    0 (slice data 1 (len data))) as (returns & -> & _); [|by eexists].
  intros k item Hk. rewrite Z.add_0_l, at_index_lookup.
  apply lookup_lt_Some in Hk. unfold slice, slice_bound, len in *.
  destruct (Z.ltb_spec 1 0); [lia|].
  destruct (Z.ltb_spec (Z.of_nat (length data)) 0); [lia|].
  rewrite length_take, length_drop in Hk.
  destruct (lookup_lt_is_Some_2 data k) as [earlier ->]; [lia|].
  by eexists.
Qed.

(** C2 (amended): on every series of fewer than 5 candles [detectTrend]
    returns "Insufficient data"; on every series of fewer than 2 candles
    [calculateVolatility] and [calculatePriceChange] return 0. *)
Theorem classifier_on_short_series (Math_log : float → float)
    (Math_pow : float → float → float) (data : list CoinData) :
  ((length data < 5)%nat → detectTrend data = Normal "Insufficient data"%string)
  ∧ ((length data < 2)%nat →
       calculateVolatility Math_log Math_pow data = Normal 0%float
       ∧ calculatePriceChange data = Normal 0%float).
Proof.
  split.
  - intros Hlen. unfold detectTrend, len.
    by destruct (Z.ltb_spec (Z.of_nat (length data)) 5); [|lia].
  - intros Hlen. unfold calculateVolatility, calculatePriceChange, len.
    by destruct (Z.ltb_spec (Z.of_nat (length data)) 2); [|lia].
Qed.

(** C6 (amended): on a series of at least 5 candles [detectTrend] compares
    the latest candle, at index [length - 1], with the fifth candle from the
    end, at index [length - 5] (four positions earlier).  With a missing EMA
    read as 0 and a missing RSI as 50, it returns "Uptrend" exactly when the
    latest EMA is greater than the earlier one and the latest RSI is greater
    than 55, "Downtrend" exactly when the latest EMA is less than the earlier
    one and the latest RSI is less than 45, and "Sideways" exactly when
    neither holds. *)
Theorem detectTrend_rule (data : list CoinData) :
  (5 ≤ length data)%nat →
  ∃ latest earlier,
    data !! (length data - 1)%nat = Some latest
    ∧ data !! (length data - 5)%nat = Some earlier
    ∧ let latestEma := default 0%float (ema_20 latest) in
      let earlierEma := default 0%float (ema_20 earlier) in
      let latestRsi := default 50%float (rsi_14 latest) in
      let rising := gt latestEma earlierEma && gt latestRsi 55 in
      let falling := lt latestEma earlierEma && lt latestRsi 45 in
      (detectTrend data = Normal "Uptrend"%string ↔ rising = true)
      ∧ (detectTrend data = Normal "Downtrend"%string ↔ falling = true)
      ∧ (detectTrend data = Normal "Sideways"%string
         ↔ rising = false ∧ falling = false).
Proof.
  intros Hlen.
  destruct (lookup_lt_is_Some_2 data (length data - 1)) as [latest Hlatest]; [lia|].
  destruct (lookup_lt_is_Some_2 data (length data - 5)) as [earlier Hearlier]; [lia|].
  exists latest, earlier. split; [done|]. split; [done|]. cbn zeta.
  unfold detectTrend. destruct (Z.ltb_spec (len data) 5) as [Hlt|Hge];
    [unfold len in Hlt; lia|].
  rewrite (at_index_last data 1), (at_index_last data 5) by (unfold len; lia).
  change (Z.to_nat 1) with 1%nat. change (Z.to_nat 5) with 5%nat.
  rewrite Hlatest, Hearlier. cbn [deref mbind completion_bind]. unfold nullish.
  destruct (gt (default 0%float (ema_20 latest)) (default 0%float (ema_20 earlier)))
    eqn:Hup;
  destruct (lt (default 0%float (ema_20 latest)) (default 0%float (ema_20 earlier)))
    eqn:Hdown;
  destruct (gt (default 50%float (rsi_14 latest)) 55) eqn:Hhigh;
  destruct (lt (default 50%float (rsi_14 latest)) 45) eqn:Hlow;
  try (apply lt_not_gt in Hdown; congruence);
  unfold mret, completion_ret; repeat split; intros; destruct_and?; done.
Qed.

(** ** Overall analysis *)

Lemma len_positive {A} (a : list A) : (len a >? 0) = bool_decide (a ≠ []).
Proof. by destruct a. Qed.

Lemma tally_counts (timeframes : list TimeframeData) (b r : Z) (t : float) (v : Z) :
  ∃ t' v',
    for_of timeframes tally (b, r, t, v)
    = (b + Z.of_nat (bullish timeframes), r + Z.of_nat (bearish timeframes), t', v').
Proof.
  unfold for_of, bullish, bearish.
  revert b r t v. induction timeframes as [|tf timeframes IH]; intros b r t v.
  - exists t, v. cbn. by rewrite !Z.add_0_r.
  - cbn [foldl]. unfold tally at 2. rewrite len_positive.
    rewrite !filter_cons.
    destruct (decide (data tf = [])) as [Hempty|Hdata].
    + rewrite bool_decide_eq_false_2 by tauto.
      rewrite !decide_False by tauto. apply IH.
    + rewrite bool_decide_eq_true_2 by done.
      destruct (decide (trend tf = "Uptrend"%string)) as [Hup|Hnup].
      * rewrite bool_decide_eq_true_2 by done.
        rewrite decide_True, decide_False by (rewrite ?Hup; (done || intros [_ ?]; done)).
        edestruct IH as (t' & v' & ->). exists t', v'. cbn [length]. f_equal. f_equal.
        f_equal; lia.
      * rewrite bool_decide_eq_false_2 by done.
        rewrite (decide_False (P := _ ∧ trend tf = "Uptrend"%string)) by tauto.
        destruct (decide (trend tf = "Downtrend"%string)) as [Hdown|Hndown].
        -- rewrite bool_decide_eq_true_2 by done. rewrite decide_True by done.
           edestruct IH as (t' & v' & ->). exists t', v'. cbn [length].
           f_equal. f_equal. f_equal. lia.
        -- rewrite bool_decide_eq_false_2 by done.
           rewrite decide_False by tauto. apply IH.
Qed.

Lemma tally_no_data (timeframes : list TimeframeData) (counts : Z * Z * float * Z) :
  Forall (λ tf, data tf = []) timeframes →
  for_of timeframes tally counts = counts.
Proof.
  unfold for_of. induction 1 as [|tf timeframes Hempty _ IH]; [done|].
  cbn [foldl]. unfold tally at 2. destruct counts as [[[b r] t] v].
  by rewrite Hempty.
Qed.

Lemma generateOverallAnalysis_unfold (timeframes : list TimeframeData) :
  generateOverallAnalysis timeframes
  = let '(bullishCount, bearishCount, totalVolatility, validTimeframes) :=
      for_of timeframes tally (0, 0, 0%float, 0) in
    let avgVolatility :=
      if validTimeframes >? 0 then (totalVolatility / float_of_Z validTimeframes)%float
      else 0%float in
    let sentiment :=
      if bullishCount >? bearishCount + 2 then "Bullish"
      else if bearishCount >? bullishCount + 2 then "Bearish"
      else if bullishCount >? bearishCount then "Slightly Bullish"
      else if bearishCount >? bullishCount then "Slightly Bearish"
      else "Neutral" in
    let risk :=
      if gt avgVolatility 0.4 then "High"
      else if lt avgVolatility 0.15 then "Low"
      else "Medium" in
    let recommendation :=
      if bool_decide (sentiment = "Bullish") && bool_decide (risk ≠ "High") then "Buy"
      else if bool_decide (sentiment = "Bearish") && bool_decide (risk ≠ "High") then "Sell"
      else if bool_decide (risk = "High") then "Wait"
      else "Hold" in
    {| sentiment := sentiment; risk := risk; recommendation := recommendation |}%string.
Proof. reflexivity. Qed.

Lemma sentiment_follows_rule (timeframes : list TimeframeData) :
  sentiment (generateOverallAnalysis timeframes)
  = sentiment_rule (bullish timeframes) (bearish timeframes).
Proof.
  rewrite generateOverallAnalysis_unfold.
  destruct (tally_counts timeframes 0 0 0%float 0) as (t' & v' & ->).
  cbn [sentiment]. unfold sentiment_rule.
  repeat match goal with
  | |- context [?x >? ?y] => destruct (Z.gtb_spec x y)
  end;
  repeat case_decide; done || lia.
Qed.

Lemma count_with_data (wanted : string) (timeframes : list TimeframeData) :
  Forall (λ tf, data tf ≠ []) timeframes →
  length (filter (λ tf, data tf ≠ [] ∧ trend tf = wanted) timeframes)
  = length (filter (λ tf, trend tf = wanted) timeframes).
Proof.
  induction 1 as [|tf timeframes Hdata _ IH]; [done|].
  rewrite !filter_cons. destruct (decide (trend tf = wanted)) as [Heq|Hne].
  - rewrite decide_True by done. cbn. by rewrite IH.
  - rewrite decide_False by tauto. done.
Qed.

(** C5: the overall sentiment follows the reduction rule on the counts of
    "Uptrend" and "Downtrend" among the timeframes with non-empty data:
    "Bullish" if bullish > bearish + 2, "Bearish" if bearish > bullish + 2,
    else "Slightly Bullish" if bullish > bearish, else "Slightly Bearish" if
    bearish > bullish, else "Neutral".  In particular nine reports with
    non-empty data, 7 of them "Uptrend" and none "Downtrend", give
    "Bullish". *)
Theorem generateOverallAnalysis_sentiment (timeframes : list TimeframeData) :
  sentiment (generateOverallAnalysis timeframes)
  = sentiment_rule (bullish timeframes) (bearish timeframes)
  ∧ (length timeframes = 9%nat →
     Forall (λ tf, data tf ≠ []) timeframes →
     length (filter (λ tf, trend tf = "Uptrend"%string) timeframes) = 7%nat →
     length (filter (λ tf, trend tf = "Downtrend"%string) timeframes) = 0%nat →
     sentiment (generateOverallAnalysis timeframes) = "Bullish"%string).
Proof.
  split; [apply sentiment_follows_rule|].
  intros _ Hdata Hup Hdown.
  rewrite sentiment_follows_rule. unfold bullish, bearish.
  by rewrite !count_with_data, Hup, Hdown by done.
Qed.

Example sentiment_of_seven_uptrends :
  length seven_uptrends = 9%nat
  ∧ bullish seven_uptrends = 7%nat
  ∧ bearish seven_uptrends = 0%nat
  ∧ generateOverallAnalysis seven_uptrends
    = {| sentiment := "Bullish"; risk := "Medium"; recommendation := "Buy" |}.
Proof. repeat split; vm_compute; reflexivity. Qed.

(** C10: when every timeframe report has empty data, the overall analysis
    is sentiment "Neutral", risk "Low" (the average volatility defaults to
    0, which is below 0.15) and recommendation "Hold". *)
Theorem generateOverallAnalysis_without_data (timeframes : list TimeframeData) :
  Forall (λ tf, data tf = []) timeframes →
  generateOverallAnalysis timeframes
  = {| sentiment := "Neutral"; risk := "Low"; recommendation := "Hold" |}.
Proof.
  intros Hempty. rewrite generateOverallAnalysis_unfold.
  by rewrite tally_no_data by done.
Qed.

(** ** Synthesizer *)

Lemma for_of_push {A B} (f : A → B) (a : list A) (pushed : list B) :
  for_of a (λ x pushed, pushed ++ [f x]) pushed = pushed ++ (f <$> a).
Proof.
  unfold for_of. revert pushed. induction a as [|x a IH]; intros pushed; cbn.
  - by rewrite app_nil_r.
  - by rewrite IH, <- app_assoc.
Qed.

Lemma for_of_ext {A S} (a : list A) (body body' : A → S → S) (s : S) :
  (∀ x s, body x s = body' x s) → for_of a body s = for_of a body' s.
Proof.
  intros Hext. unfold for_of. revert s.
  induction a as [|x a IH]; intros s; cbn; [done|]. by rewrite Hext, IH.
Qed.

Section SynthesizerProperties.

Context (Math_log : float → float) (Math_pow : float → float → float).
Context (generateTimeframeAnalysis :
           list CoinData → string → string → float → float → string).
Context (now : string).
Context (getCoinId : string → completion string).
Context (getMarketDataByTimeframe : string → string → completion (list CoinData)).
Context (toUpperCase : string → string).

Let analyze :=
  analyzeTimeframe Math_log Math_pow generateTimeframeAnalysis
    getMarketDataByTimeframe.
Let synthesize :=
  getMultiTimeframeAnalysis Math_log Math_pow generateTimeframeAnalysis now
    getCoinId getMarketDataByTimeframe toUpperCase.
Let entry_for :=
  entry_of Math_log Math_pow generateTimeframeAnalysis getMarketDataByTimeframe.

Lemma analyzeTimeframe_rejected (coinId code error : string) :
  getMarketDataByTimeframe coinId code = Throw error →
  analyze coinId code = Throw error.
Proof. intros Hfetch. unfold analyze, analyzeTimeframe. by rewrite Hfetch. Qed.

(** The computation on the fetched candles never throws. *)
Lemma analyzeTimeframe_resolved (coinId code : string) (candles : list CoinData) :
  getMarketDataByTimeframe coinId code = Normal candles →
  ∃ entry, analyze coinId code = Normal entry.
Proof.
  intros Hfetch. unfold analyze, analyzeTimeframe. rewrite Hfetch. cbn.
  destruct (applyIndicators_returns Math_pow candles) as (rsi14 & bb & _ & _ & ->).
  cbn.
  destruct (detectTrend_returns
    (imap (annotate (calculateEMA (close <$> candles) 20) rsi14 bb) candles))
    as [trend ->].
  destruct (calculateVolatility_returns Math_log Math_pow candles) as [volatility ->].
  destruct (calculatePriceChange_returns candles) as [priceChange ->].
  by eexists.
Qed.

Lemma analyzeTimeframe_timeframe (coinId code : string) (entry : TimeframeData) :
  analyze coinId code = Normal entry → timeframe entry = code.
Proof.
  unfold analyze, analyzeTimeframe.
  destruct (getMarketDataByTimeframe coinId code) as [candles|]; [cbn|done].
  destruct (applyIndicators Math_pow candles) as [annotated|]; [cbn|done].
  destruct (detectTrend annotated); [cbn|done].
  destruct (calculateVolatility Math_log Math_pow candles); [cbn|done].
  destruct (calculatePriceChange candles); [cbn|done].
  by intros [= <-].
Qed.

Lemma getMultiTimeframeAnalysis_entries (symbol coinId : string) :
  getCoinId symbol = Normal coinId →
  ∃ result,
    synthesize symbol = Normal result
    ∧ timeframes result = entry_for coinId <$> nine_timeframes.
Proof.
  intros Hid. unfold synthesize, getMultiTimeframeAnalysis. rewrite Hid.
  eexists. split; [reflexivity|]. cbn [timeframes].
  rewrite <- (app_nil_l (entry_for coinId <$> nine_timeframes)).
  rewrite <- for_of_push. apply for_of_ext. intros code entries.
  unfold entry_for, entry_of. by case_match.
Qed.

(** C3: once the coin id of the symbol is resolved, so that the timeframes
    are analysed at all, [getMultiTimeframeAnalysis] returns a result with
    one entry per timeframe, in the order of the nine codes.  The entry of a
    timeframe whose data acquisition (or computation) throws is the
    degenerate report: empty data, trend "Unknown", volatility 0 and
    priceChange 0.  The entry of every other timeframe is the report
    computed for it, whatever happened to the timeframes before it. *)
Theorem getMultiTimeframeAnalysis_isolates_failures (symbol coinId : string) :
  getCoinId symbol = Normal coinId →
  ∃ result,
    synthesize symbol = Normal result
    ∧ timeframe <$> timeframes result = nine_timeframes
    ∧ ∀ (k : nat) code, nine_timeframes !! k = Some code →
        ∃ entry,
          timeframes result !! k = Some entry
          ∧ timeframe entry = code
          ∧ (∀ error,
               getMarketDataByTimeframe coinId code = Throw error
               ∨ analyze coinId code = Throw error →
               data entry = []
               ∧ trend entry = "Unknown"%string
               ∧ volatility entry = 0%float
               ∧ priceChange entry = 0%float)
          ∧ (∀ candles, getMarketDataByTimeframe coinId code = Normal candles →
               analyze coinId code = Normal entry).
Proof.
  intros Hid.
  destruct (getMultiTimeframeAnalysis_entries symbol coinId Hid)
    as (result & Hrun & Hentries).
  assert (∀ code, timeframe (entry_for coinId code) = code) as Hcode.
  { intros code. unfold entry_for, entry_of. fold (analyze coinId code).
    destruct (analyze coinId code) eqn:Hrun'; [|done].
    by eapply analyzeTimeframe_timeframe. }
  exists result. split; [done|]. rewrite Hentries. split.
  - rewrite <- list_fmap_compose.
    rewrite <- (list_fmap_id nine_timeframes) at 2.
    apply list_fmap_ext. intros _ code _. apply Hcode.
  - intros k code Hk. exists (entry_for coinId code).
    split; [by rewrite list_lookup_fmap, Hk|]. split; [apply Hcode|].
    unfold entry_for, entry_of. fold (analyze coinId code). split.
    + intros error [Hfetch|Hthrow].
      * by rewrite (analyzeTimeframe_rejected _ _ _ Hfetch).
      * by rewrite Hthrow.
    + intros candles Hfetch.
      destruct (analyzeTimeframe_resolved _ _ _ Hfetch) as [computed Hcomputed].
      by rewrite Hcomputed.
Qed.

End SynthesizerProperties.

(** ** RSI saturation *)

(** Where the mean loss of the trailing window is exactly zero, the RSI is
    100. *)
Lemma calculateRSI_saturates (data : list float) (period i : Z) (sumLoss : float) :
  1 ≤ period → period - 1 ≤ i < len data - 1 →
  reduce (λ a b, a + b)%float (slice (rsi_changes data).2 (i - period + 1) (i + 1))
  = Normal sumLoss →
  strict_eq (sumLoss / float_of_Z period) 0 = true →
  ∃ rsi, calculateRSI data period = Normal rsi ∧ rsi !! i = Some 100%float.
Proof.
  intros Hp Hi Hsum Hzero.
  destruct (calculateRSI_returns data period Hp) as (rsi & Hrun & _ & Hvalue).
  exists rsi. split; [done|].
  destruct (Hvalue i Hi) as (v & Hv & ->). f_equal.
  unfold rsi_value in Hv. rewrite Hsum in Hv.
  destruct (reduce _ (slice (rsi_changes data).1 _ _)); [|done].
  cbn [mbind completion_bind] in Hv. rewrite Hzero in Hv. by injection Hv.
Qed.

(** C4 (at the failing input): on fifteen strictly decreasing closes
    [calculateRSI] yields 0 for the full window, at key 13, which is index 14
    of the series; the [rsi_14] field [applyIndicators] stores at index 14 is
    50, since [rsi14[index - 1] || 50] takes the number 0 for a missing
    value. *)
Theorem applyIndicators_loses_zero_rsi (Math_pow : float → float → float) :
  (∃ rsi, calculateRSI falling_closes 14 = Normal rsi ∧ rsi !! 13 = Some 0%float)
  ∧ ∃ annotated candle,
      applyIndicators Math_pow (candle_at <$> falling_closes) = Normal annotated
      ∧ annotated !! 14%nat = Some candle
      ∧ rsi_14 candle = Some 50%float.
Proof.
  split.
  - eexists. split; [vm_compute; reflexivity|]. vm_compute. reflexivity.
  - eexists _, _. split; [vm_compute; reflexivity|]. split; reflexivity.
Qed.

(** The saturation value 100 does reach the annotated series: fifteen
    strictly increasing closes give [rsi_14 = 100] at index 14. *)
Example applyIndicators_carries_full_rsi (Math_pow : float → float → float) :
  ∃ annotated candle,
    applyIndicators Math_pow (candle_at <$> reverse falling_closes) = Normal annotated
    ∧ annotated !! 14%nat = Some candle
    ∧ rsi_14 candle = Some 100%float.
Proof. eexists _, _. split; [vm_compute; reflexivity|]. split; reflexivity. Qed.

(** ** Timeframe guard *)

Lemma nine_timeframes_configured : nine_timeframes = fst <$> Market.TIMEFRAME_CONFIG.
Proof. reflexivity. Qed.

Lemma get_undefined {A} (own : list (string * A)) (k : string) :
  k ∉ own.*1 → k ∉ Object_prototype → get own k = Undefined.
Proof.
  intros Hown Hproto. unfold get.
  destruct (list_find _ own) as [[n [k' a]]|] eqn:Hfind.
  - apply list_find_Some in Hfind as (Hn & Hk & _). cbn in Hk. subst k'.
    destruct Hown. apply list_elem_of_fmap. exists (k, a). split; [done|].
    by eapply list_elem_of_lookup_2.
  - by rewrite bool_decide_eq_false_2.
Qed.

(** A timeframe code that is neither configured nor the name of a property
    every object inherits is rejected with the error that names it. *)
Lemma getMarketDataByTimeframe_rejects (S : Market.Sources) (coinId code : string) :
  code ∉ nine_timeframes → code ∉ Object_prototype →
  Market.getMarketDataByTimeframe S coinId code
  = Throw ("Error: Timeframe " +:+ code +:+ " tidak didukung").
Proof.
  intros Hnine Hproto. unfold Market.getMarketDataByTimeframe.
  by rewrite get_undefined.
Qed.

(** Past the guard the function returns: both inner [try] blocks catch, and
    the mock generator ends the fallback chain. *)
Lemma getMarketDataByTimeframe_past_guard (S : Market.Sources) (coinId code : string) :
  defined (get Market.TIMEFRAME_CONFIG code) = true →
  ∃ candles, Market.getMarketDataByTimeframe S coinId code = Normal candles.
Proof.
  intros Hdefined. unfold Market.getMarketDataByTimeframe. rewrite Hdefined.
  cbn [negb].
  destruct (Market.coingecko S coinId code _) as [fromCoingecko|]; cbn.
  - destruct (len fromCoingecko >? 0); cbn; [by eexists|].
    destruct (Market.coincap S coinId code _) as [fromCoincap|]; cbn.
    + destruct (len fromCoincap >? 0); cbn; by eexists.
    + by eexists.
  - destruct (Market.coincap S coinId code _) as [fromCoincap|]; cbn.
    + destruct (len fromCoincap >? 0); cbn; by eexists.
    + by eexists.
Qed.

(** With the market data of this module no configured timeframe rejects:
    the fallback entries of the synthesizer guard against failures that the
    mock generator already absorbs. *)
Lemma getMarketDataByTimeframe_configured (S : Market.Sources) (coinId code : string) :
  code ∈ nine_timeframes →
  ∃ candles, Market.getMarketDataByTimeframe S coinId code = Normal candles.
Proof.
  intros Hcode. apply getMarketDataByTimeframe_past_guard.
  unfold nine_timeframes in Hcode.
  repeat (apply elem_of_cons in Hcode as [->|Hcode]; [reflexivity|]).
  by apply elem_of_nil in Hcode.
Qed.

(** C8 (at the failing input): "constructor" is not one of the nine
    configured codes, yet [TIMEFRAME_CONFIG["constructor"]] is the inherited
    [Object.prototype.constructor], which is truthy: the guard does not
    throw, and the call returns candles. *)
Theorem getMarketDataByTimeframe_inherited_name (S : Market.Sources)
    (coinId : string) :
  ("constructor"%string ∉ nine_timeframes)
  ∧ get Market.TIMEFRAME_CONFIG "constructor" = Inherited "constructor"
  ∧ ∃ candles,
      Market.getMarketDataByTimeframe S coinId "constructor" = Normal candles.
Proof.
  split; [apply (bool_decide_eq_false_1 _); by vm_compute|].
  split; [reflexivity|]. by apply getMarketDataByTimeframe_past_guard.
Qed.

(** ** Concrete runs *)

(** C1 (counterexample): the single candle of a one-candle series comes back
    with [ema_20], [bb_upper] and [bb_lower] equal to the number 0 and
    [rsi_14] equal to the number 50, not with a marker of absence. *)
Lemma applyIndicators_fabricates_defaults :
  ∃ candle,
    (∀ Math_pow, applyIndicators Math_pow [candle_at 1] = Normal [candle])
    ∧ ema_20 candle = Some 0%float
    ∧ rsi_14 candle = Some 50%float
    ∧ bb_upper candle = Some 0%float
    ∧ bb_lower candle = Some 0%float.
Proof.
  eexists. split; [intros Math_pow; vm_compute; reflexivity|]. by repeat split.
Qed.

(** C2 (counterexample): a series of two candles, fewer than 5, whose
    period change is 100 and not 0. *)
Lemma classifier_on_two_candles :
  (length [candle_at 1; candle_at 2] < 5)%nat
  ∧ calculatePriceChange [candle_at 1; candle_at 2] = Normal 100%float
  ∧ (100 =? 0)%float = false.
Proof. split; [cbn; lia|]. split; [vm_compute; reflexivity|reflexivity]. Qed.

(** C6 (counterexample): in [trend_series] the latest candle is at index 5
    and the candle five positions earlier at index 0; against that candle
    the latest EMA is greater and the latest RSI exceeds 55, yet
    [detectTrend] returns "Sideways": it compares with index 1. *)
Lemma detectTrend_not_five_positions_earlier :
  ∃ latest earlier,
    trend_series !! 5%nat = Some latest
    ∧ trend_series !! (5 - 5)%nat = Some earlier
    ∧ gt (default 0%float (ema_20 latest)) (default 0%float (ema_20 earlier))
      && gt (default 50%float (rsi_14 latest)) 55 = true
    ∧ detectTrend trend_series = Normal "Sideways"%string.
Proof. eexists _, _. repeat split; vm_compute; reflexivity. Qed.

(** C7 (witness): the six closes [10,10,10,10,10,20] with period 5. *)
Lemma calculateEMA_on_rising_closes :
  0 ≤ 5 ≤ len rising_closes
  ∧ calculateEMA rising_closes 5 !! 4
    = Some (arithmetic_mean (take (Z.to_nat 5) rising_closes))
  ∧ (∀ k, k < 4 → calculateEMA rising_closes 5 !! k = None)
  ∧ (∀ i c, 5 ≤ i → rising_closes !! Z.to_nat i = Some c →
       ∃ previous,
         calculateEMA rising_closes 5 !! (i - 1) = Some previous
         ∧ calculateEMA rising_closes 5 !! i
           = Some ((c - previous) * (2 / float_of_Z 6) + previous)%float).
Proof.
  split; [by vm_compute|].
  destruct (calculateEMA_seed_and_recurrence rising_closes 5)
    as (Hseed & Hholes & Hstep & _); [by vm_compute|].
  split; [exact Hseed|]. split; [exact Hholes|exact Hstep].
Defined.

(** C6 (witness): [trend_series] has six candles. *)
Lemma detectTrend_on_trend_series :
  (5 ≤ length trend_series)%nat
  ∧ ∃ latest earlier,
      trend_series !! (length trend_series - 1)%nat = Some latest
      ∧ trend_series !! (length trend_series - 5)%nat = Some earlier
      ∧ (detectTrend trend_series = Normal "Uptrend"%string
         ↔ gt (default 0%float (ema_20 latest)) (default 0%float (ema_20 earlier))
           && gt (default 50%float (rsi_14 latest)) 55 = true)
      ∧ (detectTrend trend_series = Normal "Downtrend"%string
         ↔ lt (default 0%float (ema_20 latest)) (default 0%float (ema_20 earlier))
           && lt (default 50%float (rsi_14 latest)) 45 = true)
      ∧ (detectTrend trend_series = Normal "Sideways"%string
         ↔ gt (default 0%float (ema_20 latest)) (default 0%float (ema_20 earlier))
           && gt (default 50%float (rsi_14 latest)) 55 = false
           ∧ lt (default 0%float (ema_20 latest)) (default 0%float (ema_20 earlier))
             && lt (default 50%float (rsi_14 latest)) 45 = false).
Proof.
  split; [cbn; lia|].
  apply (detectTrend_rule trend_series). cbn. lia.
Defined.

(** C10 (witness): the nine fallback reports of a synthesis in which every
    timeframe failed. *)
Lemma generateOverallAnalysis_on_fallbacks :
  Forall (λ tf, data tf = []) (fallback <$> nine_timeframes)
  ∧ generateOverallAnalysis (fallback <$> nine_timeframes)
    = {| sentiment := "Neutral"; risk := "Low"; recommendation := "Hold" |}.
Proof.
  assert (Forall (λ tf, data tf = []) (fallback <$> nine_timeframes)) as Hempty.
  { apply Forall_fmap, Forall_forall. by intros code _. }
  split; [exact Hempty|].
  exact (generateOverallAnalysis_without_data _ Hempty).
Defined.

(** C3 (witness): the synthesis of "btc" when the data of "1h" cannot be
    fetched. *)
Lemma getMultiTimeframeAnalysis_on_sample :
  sample_getCoinId "btc" = Normal "bitcoin"%string
  ∧ ∃ result,
      getMultiTimeframeAnalysis sample_log sample_pow sample_text "" sample_getCoinId
        sample_getMarketData id "btc"
      = Normal result
      ∧ timeframe <$> timeframes result = nine_timeframes
      ∧ ∀ (k : nat) code, nine_timeframes !! k = Some code →
          ∃ entry,
            timeframes result !! k = Some entry
            ∧ timeframe entry = code
            ∧ (∀ error,
                 sample_getMarketData "bitcoin" code = Throw error
                 ∨ analyzeTimeframe sample_log sample_pow sample_text
                     sample_getMarketData "bitcoin" code = Throw error →
                 data entry = []
                 ∧ trend entry = "Unknown"%string
                 ∧ volatility entry = 0%float
                 ∧ priceChange entry = 0%float)
            ∧ (∀ candles, sample_getMarketData "bitcoin" code = Normal candles →
                 analyzeTimeframe sample_log sample_pow sample_text
                   sample_getMarketData "bitcoin" code = Normal entry).
Proof.
  split; [reflexivity|].
  apply (getMultiTimeframeAnalysis_isolates_failures sample_log sample_pow
           sample_text "" sample_getCoinId sample_getMarketData id "btc" "bitcoin").
  reflexivity.
Defined.

(** * Further properties *)

(** ** Indicator engine *)

Lemma close_imap_annotate (ema20 rsi14 : gmap Z float) (bb : Bands)
    (data : list CoinData) :
  close <$> imap (annotate ema20 rsi14 bb) data = close <$> data.
Proof.
  apply list_eq. intros i.
  rewrite !list_lookup_fmap, list_lookup_imap. by destruct (data !! i).
Qed.

(** X1: annotating an annotated series changes nothing: the indicators are
    computed from the closes alone and the spread overwrites every indicator
    field. *)
Theorem applyIndicators_idempotent (Math_pow : float → float → float)
    (data : list CoinData) :
  ∃ annotated,
    applyIndicators Math_pow data = Normal annotated
    ∧ applyIndicators Math_pow annotated = Normal annotated.
Proof.
  destruct (applyIndicators_returns Math_pow data) as (rsi14 & bb & Hrsi & Hbb & Hrun).
  eexists. split; [exact Hrun|].
  unfold applyIndicators. rewrite close_imap_annotate, Hrsi, Hbb.
  cbn [mbind completion_bind mret completion_ret]. f_equal.
  apply list_eq. intros i. rewrite !list_lookup_imap.
  by destruct (data !! i).
Qed.

Lemma applyIndicators_below_twenty (Math_pow : float → float → float)
    (data : list CoinData) :
  (length data ≤ 19)%nat →
  ∃ annotated,
    applyIndicators Math_pow data = Normal annotated
    ∧ length annotated = length data
    ∧ Forall (λ c, ema_20 c = Some 0%float) annotated.
Proof.
  intros Hshort.
  destruct (applyIndicators_returns Math_pow data) as (rsi14 & bb & _ & _ & Hrun).
  eexists. split; [exact Hrun|]. split; [by rewrite length_imap|].
  apply Forall_lookup. intros i c. rewrite list_lookup_imap.
  destruct (data !! i) as [item|] eqn:Hitem; [|done].
  intros [= <-]. cbn [annotate ema_20].
  apply lookup_lt_Some in Hitem.
  by rewrite calculateEMA_before_seed by lia.
Qed.

Lemma detectTrend_without_ema (data : list CoinData) :
  (5 ≤ length data)%nat → Forall (λ c, ema_20 c = Some 0%float) data →
  detectTrend data = Normal "Sideways"%string.
Proof.
  intros Hlong Hema. unfold detectTrend, len.
  destruct (Z.ltb_spec (Z.of_nat (length data)) 5) as [Hlt|Hge]; [lia|].
  unfold at_index.
  destruct (Z.ltb_spec (Z.of_nat (length data) - 1) 0) as [?|_]; [lia|].
  destruct (Z.ltb_spec (Z.of_nat (length data) - 5) 0) as [?|_]; [lia|].
  destruct (lookup_lt_is_Some_2 data (Z.to_nat (Z.of_nat (length data) - 1)))
    as [latest Hlatest]; [lia|].
  destruct (lookup_lt_is_Some_2 data (Z.to_nat (Z.of_nat (length data) - 5)))
    as [earlier Hearlier]; [lia|].
  rewrite Hlatest, Hearlier. cbn [deref mbind completion_bind].
  rewrite (proj1 (Forall_lookup _ _) Hema _ _ Hlatest),
    (proj1 (Forall_lookup _ _) Hema _ _ Hearlier).
  reflexivity.
Qed.

(** X2: a series of 5 to 19 candles is always classified "Sideways" after
    annotation: both EMA values the trend rule compares are the default 0. *)
Theorem detectTrend_short_annotated_series (Math_pow : float → float → float)
    (data : list CoinData) :
  (5 ≤ length data ≤ 19)%nat →
  ∃ annotated,
    applyIndicators Math_pow data = Normal annotated
    ∧ detectTrend annotated = Normal "Sideways"%string.
Proof.
  intros [Hlong Hshort].
  destruct (applyIndicators_below_twenty Math_pow data Hshort)
    as (annotated & Hannotated & Hlength & Hema).
  exists annotated. split; [done|].
  apply detectTrend_without_ema; [|done].
  by rewrite Hlength.
Qed.

Lemma detectTrend_on_six_candles :
  (5 ≤ length (candle_at <$> rising_closes) ≤ 19)%nat
  ∧ ∃ annotated,
      applyIndicators sample_pow (candle_at <$> rising_closes) = Normal annotated
      ∧ detectTrend annotated = Normal "Sideways"%string.
Proof.
  split; [cbn; lia|].
  apply (detectTrend_short_annotated_series sample_pow (candle_at <$> rising_closes)).
  cbn. lia.
Defined.


Lemma for_each_throws_first {S} (body : Z → S → completion S) (s : S)
    (i : Z) (rest : list Z) (error : string) :
  body i s = Throw error → for_each body s (i :: rest) = Throw error.
Proof. intros Hbody. cbn [for_each]. by rewrite Hbody. Qed.

(** X4: for a period of at least 1 [calculateRSI] never throws, and it
    defines exactly the keys from [period - 1] up to the last price step:
    key [i] belongs to candle [i + 1], so with period 14 the first candle
    that has an RSI is candle 14. *)
Theorem calculateRSI_defined_indices (data : list float) (period : Z) :
  1 ≤ period →
  ∃ rsi,
    calculateRSI data period = Normal rsi
    ∧ ∀ i, is_Some (rsi !! i) ↔ period - 1 ≤ i < len data - 1.
Proof.
  intros Hp. rewrite calculateRSI_unfold.
  destruct (rsi_changes_length data) as [Hg Hl].
  set (gains := (rsi_changes data).1) in *.
  set (losses := (rsi_changes data).2) in *.
  destruct (for_each_write (rsi_value gains losses period)
              (seqZ (period - 1) (len gains - (period - 1))) ∅)
    as (rsi & Hrun & Hout & Hin).
  { intros i [Hlo Hhi]%elem_of_seqZ. unfold rsi_value.
    destruct (reduce_window (λ a b, a + b)%float gains period i) as [g ->];
      [lia|lia|].
    destruct (reduce_window (λ a b, a + b)%float losses period i) as [l ->];
      [lia|unfold len in *; lia|].
    cbn. case_match; by eexists. }
  exists rsi. split; [done|]. intros i. split.
  - intros Hsome.
    destruct (decide (i ∈ seqZ (period - 1) (len gains - (period - 1)))) as [Hi|Hi].
    + apply elem_of_seqZ in Hi. unfold len in *. lia.
    + rewrite Hout, lookup_empty in Hsome by done. by destruct Hsome.
  - intros Hi. destruct (Hin i) as (v & _ & ->); [|done].
    apply elem_of_seqZ. unfold len in *. lia.
Qed.

Lemma calculateRSI_on_falling_closes :
  1 ≤ 14
  ∧ ∃ rsi,
      calculateRSI falling_closes 14 = Normal rsi
      ∧ ∀ i, is_Some (rsi !! i) ↔ 14 - 1 ≤ i < len falling_closes - 1.
Proof.
  split; [lia|]. apply (calculateRSI_defined_indices falling_closes 14). lia.
Defined.

Lemma calculateBollingerBands_unfold (Math_pow : float → float → float)
    (data : list float) (period : Z) (stdDev : float) :
  calculateBollingerBands Math_pow data period stdDev
  = for_each
      (λ i bands,
         '(mean, upper, lower) ← bands_value Math_pow data period stdDev i;
         mret {| sma := <[i := mean]> (sma bands);
                 upperBand := <[i := upper]> (upperBand bands);
                 lowerBand := <[i := lower]> (lowerBand bands) |})
      {| sma := ∅; upperBand := ∅; lowerBand := ∅ |}
      (seqZ (period - 1) (len data - (period - 1))).
Proof.
  unfold calculateBollingerBands, for_range_throwing. apply for_each_ext.
  intros i bands. unfold bands_value. by destruct (reduce _ _).
Qed.

Lemma for_each_write_bands (value : Z → completion (float * float * float))
    (indices : list Z) (bands : Bands) :
  (∀ i, i ∈ indices → ∃ v, value i = Normal v) →
  ∃ bands',
    for_each
      (λ i bands,
         '(mean, upper, lower) ← value i;
         mret {| sma := <[i := mean]> (sma bands);
                 upperBand := <[i := upper]> (upperBand bands);
                 lowerBand := <[i := lower]> (lowerBand bands) |})
      bands indices
    = Normal bands'
    ∧ (∀ k, k ∉ indices →
         sma bands' !! k = sma bands !! k
         ∧ upperBand bands' !! k = upperBand bands !! k
         ∧ lowerBand bands' !! k = lowerBand bands !! k)
    ∧ (∀ i, i ∈ indices →
         ∃ mean upper lower,
           value i = Normal (mean, upper, lower)
           ∧ sma bands' !! i = Some mean
           ∧ upperBand bands' !! i = Some upper
           ∧ lowerBand bands' !! i = Some lower).
Proof.
  revert bands. induction indices as [|i indices IH]; intros bands Hval.
  - exists bands. split; [done|]. split; [done|]. intros i Hi. by inversion Hi.
  - destruct (Hval i) as [[[mean upper] lower] Hv]; [left|].
    destruct (IH {| sma := <[i := mean]> (sma bands);
                    upperBand := <[i := upper]> (upperBand bands);
                    lowerBand := <[i := lower]> (lowerBand bands) |})
      as (bands' & Hrun & Hout & Hin).
    { intros j Hj. apply Hval. by right. }
    exists bands'. cbn [for_each]. rewrite Hv. split; [exact Hrun|]. split.
    + intros k Hk.
      destruct (Hout k) as (-> & -> & ->); [intros ?; apply Hk; by right|].
      cbn. rewrite !lookup_insert_ne; [done|intros ->; apply Hk; left..].
    + intros j Hj. destruct (decide (j ∈ indices)) as [Hmem|Hnot].
      * by apply Hin.
      * apply elem_of_cons in Hj as [->|Hj]; [|done].
        exists mean, upper, lower. split; [done|].
        destruct (Hout i Hnot) as (-> & -> & ->). cbn.
        by rewrite !lookup_insert_eq.
Qed.



Lemma slice_same_bounds {A} (a : list A) (k : Z) : slice a k k = [].
Proof. unfold slice. by rewrite Z.sub_diag. Qed.

(** X6: with period 0 both window indicators throw on every input: the
    first window, [slice(0, 0)], is empty and [reduce] has no initial value. *)
Theorem window_indicators_reject_period_zero (Math_pow : float → float → float)
    (data : list float) (stdDev : float) :
  calculateRSI data 0
  = Throw "TypeError: Reduce of empty array with no initial value"
  ∧ calculateBollingerBands Math_pow data 0 stdDev
    = Throw "TypeError: Reduce of empty array with no initial value".
Proof.
  split.
  - rewrite calculateRSI_unfold.
    rewrite seqZ_cons by (unfold len; lia).
    apply for_each_throws_first. unfold rsi_value.
    change (0 - 1 - 0 + 1) with 0. change (0 - 1 + 1) with 0.
    by rewrite !slice_same_bounds.
  - rewrite calculateBollingerBands_unfold.
    rewrite seqZ_cons by (unfold len; lia).
    apply for_each_throws_first. unfold bands_value.
    change (0 - 1 - 0 + 1) with 0. change (0 - 1 + 1) with 0.
    by rewrite !slice_same_bounds.
Qed.

(** ** Overall analysis *)

Lemma tally_skips_reports_without_data (timeframes : list TimeframeData)
    (counts : Z * Z * float * Z) :
  for_of timeframes tally counts
  = for_of (reports_with_data timeframes) tally counts.
Proof.
  unfold for_of, reports_with_data. revert counts.
  induction timeframes as [|tf timeframes IH]; intros counts; [done|].
  rewrite filter_cons. destruct (decide (data tf ≠ [])) as [Hdata|Hempty].
  - cbn [foldl]. apply IH.
  - cbn [foldl]. rewrite <- IH. f_equal.
    destruct counts as [[[b r] t] v]. unfold tally.
    rewrite len_positive. by rewrite bool_decide_eq_false_2.
Qed.

Lemma tally_volatility (timeframes : list TimeframeData) (b r : Z) (t : float)
    (v : Z) :
  Forall (λ tf, data tf ≠ []) timeframes →
  ∃ b' r',
    for_of timeframes tally (b, r, t, v)
    = (b', r', foldl (λ total tf, (total + volatility tf)%float) t timeframes,
       v + len timeframes).
Proof.
  unfold for_of, len. intros Hdata. revert b r t v.
  induction Hdata as [|tf timeframes Htf _ IH]; intros b r t v.
  - exists b, r. cbn. by rewrite Z.add_0_r.
  - cbn [foldl]. unfold tally at 2. rewrite len_positive.
    rewrite bool_decide_eq_true_2 by done.
    replace (v + Z.of_nat (length (tf :: timeframes)))
      with (v + 1 + Z.of_nat (length timeframes)) by (cbn [length]; lia).
    repeat case_match; apply IH.
Qed.

(** X7: the risk level is "High" when the mean volatility of the reports
    with data exceeds 0.4, "Low" when it is below 0.15, and "Medium"
    otherwise; the mean is 0 when no report has data. *)
Theorem generateOverallAnalysis_risk (timeframes : list TimeframeData) :
  risk (generateOverallAnalysis timeframes)
  = risk_rule (mean_volatility timeframes).
Proof.
  rewrite generateOverallAnalysis_unfold, tally_skips_reports_without_data.
  unfold mean_volatility.
  destruct (tally_volatility (reports_with_data timeframes) 0 0 0%float 0)
    as (b & r & ->).
  { unfold reports_with_data. apply Forall_forall. intros tf Htf.
    by apply list_elem_of_filter in Htf as [? _]. }
  cbn [risk]. destruct (reports_with_data timeframes) as [|tf counted]; [done|].
  unfold len at 1. cbn [length]. rewrite Z.add_0_l.
  by destruct (Z.gtb_spec (Z.of_nat (S (length counted))) 0); [|lia].
Qed.

(** X8: the recommendation is "Wait" whenever the risk is "High"; otherwise
    it is "Buy" for a "Bullish" sentiment, "Sell" for a "Bearish" one and
    "Hold" for the three remaining sentiments. *)
Theorem generateOverallAnalysis_recommendation (timeframes : list TimeframeData) :
  recommendation (generateOverallAnalysis timeframes)
  = recommendation_rule (sentiment (generateOverallAnalysis timeframes))
      (risk (generateOverallAnalysis timeframes)).
Proof.
  rewrite generateOverallAnalysis_unfold.
  destruct (for_of timeframes tally _) as [[[b r] t] v].
  cbn [recommendation sentiment risk]. unfold recommendation_rule.
  repeat match goal with
  | |- context [if ?c then _ else _] =>
      match c with
      | bool_decide _ => fail 1
      | _ && _ => fail 1
      | _ => destruct c
      end
  end; reflexivity.
Qed.

Lemma reports_with_data_twice (timeframes : list TimeframeData) :
  reports_with_data (reports_with_data timeframes) = reports_with_data timeframes.
Proof.
  unfold reports_with_data.
  induction timeframes as [|tf timeframes IH]; [done|].
  rewrite filter_cons. destruct (decide (data tf ≠ [])) as [Hdata|Hempty]; [|done].
  by rewrite filter_cons, decide_True, IH by done.
Qed.

(** X9: reports without data have no influence on the overall analysis. *)
Theorem generateOverallAnalysis_ignores_empty_reports
    (timeframes : list TimeframeData) :
  generateOverallAnalysis timeframes
  = generateOverallAnalysis (reports_with_data timeframes).
Proof.
  rewrite !generateOverallAnalysis_unfold.
  by rewrite (tally_skips_reports_without_data timeframes),
    (tally_skips_reports_without_data (reports_with_data timeframes)),
    reports_with_data_twice.
Qed.

(** ** Market data *)

(** X10: for a timeframe that passes the guard the sources are tried in
    order and the first non-empty answer wins: the candles of CoinGecko if
    it answers with at least one candle; else those of CoinCap if it answers
    with at least one; else the mock series.  A source that throws and a
    source that answers with no candle are treated alike, and the call never
    throws. *)
Theorem getMarketDataByTimeframe_source_order (S : Market.Sources)
    (coinId code : string) :
  defined (get Market.TIMEFRAME_CONFIG code) = true →
  Market.getMarketDataByTimeframe S coinId code
  = Normal
      match Market.coingecko S coinId code (get Market.TIMEFRAME_CONFIG code) with
      | Normal (candle :: candles) => candle :: candles
      | _ =>
          match Market.coincap S coinId code (get Market.TIMEFRAME_CONFIG code) with
          | Normal (candle :: candles) => candle :: candles
          | _ => Market.generateMockDataByTimeframe S coinId code
          end
      end.
Proof.
  intros Hdefined. unfold Market.getMarketDataByTimeframe. rewrite Hdefined.
  cbn [negb].
  destruct (Market.coingecko S coinId code _) as [[|c1 cs1]|];
    destruct (Market.coincap S coinId code _) as [[|c2 cs2]|]; reflexivity.
Qed.

Lemma getMarketDataByTimeframe_on_sample_sources :
  defined (get Market.TIMEFRAME_CONFIG "1h") = true
  ∧ Market.getMarketDataByTimeframe sample_sources "bitcoin" "1h"
    = Normal (candle_at <$> rising_closes).
Proof.
  split; [reflexivity|].
  exact (getMarketDataByTimeframe_source_order sample_sources "bitcoin" "1h" eq_refl).
Defined.


(** ** Synthesizer *)

Lemma detectTrend_label (data : list CoinData) (label : string) :
  detectTrend data = Normal label → label ∈ trend_labels.
Proof.
  unfold detectTrend, trend_labels.
  destruct (len data <? 5); [intros [= <-]; set_solver|].
  destruct (deref (at_index data (len data - 1))) as [latest|]; [cbn|done].
  destruct (deref (at_index data (len data - 5))) as [earlier|]; [cbn|done].
  repeat case_match; intros [= <-]; set_solver.
Qed.

Section SynthesizerFurther.

Context (Math_log : float → float) (Math_pow : float → float → float).
Context (generateTimeframeAnalysis :
           list CoinData → string → string → float → float → string).
Context (now : string).
Context (getCoinId : string → completion string).
Context (getMarketDataByTimeframe : string → string → completion (list CoinData)).
Context (toUpperCase : string → string).

Lemma analyzeTimeframe_computed (coinId code : string) (report : TimeframeData) :
  analyzeTimeframe Math_log Math_pow generateTimeframeAnalysis
    getMarketDataByTimeframe coinId code = Normal report →
  ∃ candles,
    getMarketDataByTimeframe coinId code = Normal candles
    ∧ applyIndicators Math_pow candles = Normal (data report)
    ∧ detectTrend (data report) = Normal (trend report)
    ∧ calculateVolatility Math_log Math_pow candles = Normal (volatility report)
    ∧ calculatePriceChange candles = Normal (priceChange report).
Proof.
  unfold analyzeTimeframe.
  destruct (getMarketDataByTimeframe coinId code) as [candles|]; [cbn|done].
  destruct (applyIndicators Math_pow candles) as [annotated|] eqn:Hannotated;
    [cbn|done].
  destruct (detectTrend annotated) eqn:Htrend; [cbn|done].
  destruct (calculateVolatility Math_log Math_pow candles) eqn:Hvolatility;
    [cbn|done].
  destruct (calculatePriceChange candles) eqn:Hchange; [cbn|done].
  intros [= <-]. exists candles. by repeat split.
Qed.

(** The only way [getMultiTimeframeAnalysis] fails is the resolution of the
    coin id: it rejects exactly when [getCoinId] rejects, with the same
    error. *)
Lemma getMultiTimeframeAnalysis_rejects_with_getCoinId (symbol error : string) :
  getMultiTimeframeAnalysis Math_log Math_pow generateTimeframeAnalysis now
    getCoinId getMarketDataByTimeframe toUpperCase symbol = Throw error
  ↔ getCoinId symbol = Throw error.
Proof.
  unfold getMultiTimeframeAnalysis.
  destruct (getCoinId symbol) as [coinId|e];
    cbn [mbind completion_bind mret completion_ret].
  - split; intros H; discriminate H.
  - split; intros [= ->]; reflexivity.
Qed.

End SynthesizerFurther.

(** X11: with the market data of this module the fallback report is never
    used.  Once the coin id is resolved, the exported analysis returns nine
    reports, and the report of each timeframe is computed from the candles
    [getMarketDataByTimeframe] returned for it: its data are the annotated
    candles and its trend is one of the four labels of [detectTrend], never
    "Unknown". *)
Theorem analyzeMultiTimeframe_never_falls_back
    (Math_log : float → float) (Math_pow : float → float → float)
    (generateTimeframeAnalysis :
       list CoinData → string → string → float → float → string)
    (now : string) (getCoinId : string → completion string)
    (S : Market.Sources) (toUpperCase : string → string)
    (symbol coinId : string) :
  getCoinId symbol = Normal coinId →
  ∃ result,
    analyzeMultiTimeframe Math_log Math_pow generateTimeframeAnalysis now
      getCoinId S toUpperCase symbol = Normal result
    ∧ length (timeframes result) = 9%nat
    ∧ ∀ (k : nat) code, nine_timeframes !! k = Some code →
        ∃ candles report,
          Market.getMarketDataByTimeframe S coinId code = Normal candles
          ∧ timeframes result !! k = Some report
          ∧ applyIndicators Math_pow candles = Normal (data report)
          ∧ detectTrend (data report) = Normal (trend report)
          ∧ trend report ∈ trend_labels.
Proof.
  intros Hid. unfold analyzeMultiTimeframe.
  destruct (getMultiTimeframeAnalysis_entries Math_log Math_pow
              generateTimeframeAnalysis now getCoinId
              (Market.getMarketDataByTimeframe S) toUpperCase symbol coinId Hid)
    as (result & Hrun & Hentries).
  exists result. split; [exact Hrun|]. rewrite Hentries. split; [done|].
  intros k code Hk.
  destruct (getMarketDataByTimeframe_configured S coinId code) as [candles Hfetch].
  { by eapply list_elem_of_lookup_2. }
  destruct (analyzeTimeframe_resolved Math_log Math_pow generateTimeframeAnalysis
              (Market.getMarketDataByTimeframe S) coinId code candles Hfetch)
    as [report Hreport].
  destruct (analyzeTimeframe_computed Math_log Math_pow generateTimeframeAnalysis
              (Market.getMarketDataByTimeframe S) coinId code report Hreport)
    as (candles' & Hfetch' & Hdata & Htrend & _).
  rewrite Hfetch in Hfetch'. injection Hfetch' as <-.
  exists candles, report. split; [done|]. split.
  - rewrite list_lookup_fmap, Hk. cbn. unfold entry_of. by rewrite Hreport.
  - split; [done|]. split; [done|]. by eapply detectTrend_label.
Qed.

Lemma analyzeMultiTimeframe_on_sample :
  sample_getCoinId "btc" = Normal "bitcoin"%string
  ∧ ∃ result,
      analyzeMultiTimeframe sample_log sample_pow sample_text "" sample_getCoinId
        sample_sources id "btc" = Normal result
      ∧ length (timeframes result) = 9%nat
      ∧ ∀ (k : nat) code, nine_timeframes !! k = Some code →
          ∃ candles report,
            Market.getMarketDataByTimeframe sample_sources "bitcoin" code
            = Normal candles
            ∧ timeframes result !! k = Some report
            ∧ applyIndicators sample_pow candles = Normal (data report)
            ∧ detectTrend (data report) = Normal (trend report)
            ∧ trend report ∈ trend_labels.
Proof.
  split; [reflexivity|].
  apply (analyzeMultiTimeframe_never_falls_back sample_log sample_pow sample_text
           "" sample_getCoinId sample_sources id "btc" "bitcoin").
  reflexivity.
Defined.

(** ** The route's timeframe *)

(** X12: the route lower-cases the timeframe it matched, and the table of
    configurations is case-sensitive: a request for "6M" or "1Y", in any
    capitalisation, reaches [getMarketDataByTimeframe] as "6m" or "1y" and is
    rejected as unsupported, while the seven other timeframes, and the
    default "24h", pass the guard and return candles. *)
Theorem requestedTimeframe_loses_6M_and_1Y (S : Market.Sources)
    (coinId captured : string) :
  toLowerCase captured ∈ (toLowerCase <$> nine_timeframes) →
  let requested := requestedTimeframe (Some captured) in
  (requested ∈ ["6m"; "1y"]%string →
     Market.getMarketDataByTimeframe S coinId requested
     = Throw ("Error: Timeframe " +:+ requested +:+ " tidak didukung"))
  ∧ (requested ∉ ["6m"; "1y"]%string →
     ∃ candles, Market.getMarketDataByTimeframe S coinId requested = Normal candles)
  ∧ ∃ candles,
      Market.getMarketDataByTimeframe S coinId (requestedTimeframe None)
      = Normal candles.
Proof.
  intros Hmatched. cbn [requestedTimeframe]. cbn zeta.
  split; [|split].
  - intros Hlost.
    apply getMarketDataByTimeframe_rejects.
    + repeat (apply elem_of_cons in Hlost as [->|Hlost];
              [apply (bool_decide_eq_false_1 _); by vm_compute|]).
      by apply elem_of_nil in Hlost.
    + repeat (apply elem_of_cons in Hlost as [->|Hlost];
              [apply (bool_decide_eq_false_1 _); by vm_compute|]).
      by apply elem_of_nil in Hlost.
  - intros Hkept. apply getMarketDataByTimeframe_past_guard.
    set (lowered := toLowerCase <$> nine_timeframes) in Hmatched.
    vm_compute in lowered. subst lowered.
    repeat (apply elem_of_cons in Hmatched as [Heq|Hmatched];
            [rewrite Heq in *;
             first [reflexivity | exfalso; apply Hkept; set_solver]|]).
    by apply elem_of_nil in Hmatched.
  - by apply getMarketDataByTimeframe_past_guard.
Qed.

Lemma requestedTimeframe_on_6M :
  toLowerCase "6M" ∈ (toLowerCase <$> nine_timeframes)
  ∧ (requestedTimeframe (Some "6M"%string) ∈ ["6m"; "1y"]%string →
       Market.getMarketDataByTimeframe sample_sources "bitcoin"
         (requestedTimeframe (Some "6M"%string))
       = Throw ("Error: Timeframe " +:+ requestedTimeframe (Some "6M"%string)
                +:+ " tidak didukung"))
  ∧ (requestedTimeframe (Some "6M"%string) ∉ ["6m"; "1y"]%string →
       ∃ candles,
         Market.getMarketDataByTimeframe sample_sources "bitcoin"
           (requestedTimeframe (Some "6M"%string)) = Normal candles)
  ∧ ∃ candles,
      Market.getMarketDataByTimeframe sample_sources "bitcoin"
        (requestedTimeframe None) = Normal candles.
Proof.
  assert (toLowerCase "6M" ∈ (toLowerCase <$> nine_timeframes)) as Hmatched
    by (apply (bool_decide_eq_true_1 _); by vm_compute).
  split; [exact Hmatched|].
  exact (requestedTimeframe_loses_6M_and_1Y sample_sources "bitcoin" "6M" Hmatched).
Defined.

(** ** Coin identifiers *)





(** ** The order of numbers *)

Ltac compare_cases :=
  repeat match goal with
  | |- context [PosDef.Pos.compare_cont Eq ?a ?b] =>
      change (PosDef.Pos.compare_cont Eq a b) with (Pos.compare a b)
  | H : context [PosDef.Pos.compare_cont Eq ?a ?b] |- _ =>
      change (PosDef.Pos.compare_cont Eq a b) with (Pos.compare a b) in H
  end;
  repeat match goal with
  | H : context [Z.compare ?a ?b] |- _ => destruct (Z.compare_spec a b)
  | |- context [Z.compare ?a ?b] => destruct (Z.compare_spec a b)
  | H : context [Pos.compare ?a ?b] |- _ => destruct (Pos.compare_spec a b)
  | |- context [Pos.compare ?a ?b] => destruct (Pos.compare_spec a b)
  end.

Lemma SFleb_trans (x y z : spec_float) :
  SFleb x y = true → SFleb y z = true → SFleb x z = true.
Proof.
  unfold SFleb.
  destruct x as [sx|sx| |sx mx ex], y as [sy|sy| |sy my ey], z as [sz|sz| |sz mz ez];
    cbn; try done;
    repeat match goal with s : bool |- _ => destruct s end; cbn; try done.
  all: intros Hxy Hyz; compare_cases; cbn in *; try done; try lia.
Qed.

Lemma SFleb_refl (x : spec_float) : x ≠ S754_nan → SFleb x x = true.
Proof.
  unfold SFleb. destruct x as [s|s| |s m e]; cbn; try done;
    intros _; destruct s; cbn; try done; compare_cases; cbn; try done; lia.
Qed.

Lemma SFltb_leb (x y : spec_float) : SFltb x y = true → SFleb x y = true.
Proof. unfold SFltb, SFleb. by destruct (SFcompare x y) as [[]|]. Qed.

Lemma SFleb_total (x y : spec_float) :
  x ≠ S754_nan → y ≠ S754_nan → SFltb y x = false → SFleb x y = true.
Proof.
  unfold SFltb, SFleb.
  destruct x as [sx|sx| |sx mx ex], y as [sy|sy| |sy my ey]; cbn; try done;
    intros _ _;
    repeat match goal with s : bool |- _ => destruct s end; cbn; try done.
  all: compare_cases; cbn in *; try done; try lia.
Qed.

Lemma is_nan_spec (x : float) : is_nan x = false ↔ Prim2SF x ≠ S754_nan.
Proof.
  unfold is_nan. rewrite FloatAxioms.eqb_spec. unfold SFeqb.
  destruct (Prim2SF x) as [s|s| |s m e]; cbn; try (by split);
    destruct s; cbn; try (by split).
  all: compare_cases; cbn; try (by split); lia.
Qed.

Lemma lte_refl (x : float) : is_nan x = false → lte x x = true.
Proof.
  intros Hx%is_nan_spec. unfold lte. rewrite FloatAxioms.leb_spec. by apply SFleb_refl.
Qed.

Lemma lte_trans (x y z : float) : lte x y = true → lte y z = true → lte x z = true.
Proof. unfold lte. rewrite !FloatAxioms.leb_spec. apply SFleb_trans. Qed.

Lemma lt_lte (x y : float) : lt x y = true → lte x y = true.
Proof. unfold lt, lte. rewrite FloatAxioms.ltb_spec, FloatAxioms.leb_spec. apply SFltb_leb. Qed.

Lemma not_gt_lte (x y : float) :
  is_nan x = false → is_nan y = false → gt x y = false → lte x y = true.
Proof.
  intros Hx%is_nan_spec Hy%is_nan_spec. unfold gt, lte.
  rewrite FloatAxioms.ltb_spec, FloatAxioms.leb_spec. by apply SFleb_total.
Qed.

Lemma not_lt_lte (x y : float) :
  is_nan x = false → is_nan y = false → lt x y = false → lte y x = true.
Proof.
  intros Hx%is_nan_spec Hy%is_nan_spec. unfold lt, lte.
  rewrite FloatAxioms.ltb_spec, FloatAxioms.leb_spec. by apply SFleb_total.
Qed.

Lemma negative_zero_lte_positive_zero (x y : float) :
  is_negative_zero x = true → is_positive_zero y = true →
  lte x y = true ∧ lte y x = true.
Proof.
  unfold is_negative_zero, is_positive_zero, lte.
  rewrite !FloatAxioms.classify_spec, !FloatAxioms.leb_spec. unfold SF64classify, SFclassify.
  destruct (Prim2SF x) as [[]|[]| |[] mx ex], (Prim2SF y) as [[]|[]| |[] my ey];
    try done; repeat case_match; done.
Qed.

(** ** [Math.max] and [Math.min] *)

Lemma max_from_bounds (values : list float) (highest : float) :
  is_nan highest = false → Forall (λ x, is_nan x = false) values →
  is_nan (max_from highest values) = false
  ∧ lte highest (max_from highest values) = true
  ∧ Forall (λ x, lte x (max_from highest values) = true) values.
Proof.
  revert highest.
  induction values as [|number rest IH]; intros highest Hhighest Hvalues.
  { cbn. by split; [|split; [apply lte_refl|]]. }
  apply Forall_cons in Hvalues as [Hnumber Hrest]. cbn [max_from].
  rewrite Hnumber.
  destruct (is_positive_zero number && is_negative_zero highest) eqn:Hzero.
  { apply andb_true_iff in Hzero as [Hpos Hneg].
    destruct (negative_zero_lte_positive_zero _ _ Hneg Hpos) as [Hle _].
    destruct (IH number Hnumber Hrest) as (Hnan & Hbound & Hall).
    split; [done|]. split; [by eapply lte_trans|]. by apply Forall_cons. }
  destruct (gt number highest) eqn:Hgt.
  - destruct (IH number Hnumber Hrest) as (Hnan & Hbound & Hall).
    split; [done|]. split; [|by apply Forall_cons].
    eapply lte_trans; [|done]. by apply lt_lte.
  - destruct (IH highest Hhighest Hrest) as (Hnan & Hbound & Hall).
    split; [done|]. split; [done|]. apply Forall_cons. split; [|done].
    eapply lte_trans; [|done]. by apply not_gt_lte.
Qed.

Lemma min_from_bounds (values : list float) (lowest : float) :
  is_nan lowest = false → Forall (λ x, is_nan x = false) values →
  is_nan (min_from lowest values) = false
  ∧ lte (min_from lowest values) lowest = true
  ∧ Forall (λ x, lte (min_from lowest values) x = true) values.
Proof.
  revert lowest.
  induction values as [|number rest IH]; intros lowest Hlowest Hvalues.
  { cbn. by split; [|split; [apply lte_refl|]]. }
  apply Forall_cons in Hvalues as [Hnumber Hrest]. cbn [min_from].
  rewrite Hnumber.
  destruct (is_negative_zero number && is_positive_zero lowest) eqn:Hzero.
  { apply andb_true_iff in Hzero as [Hneg Hpos].
    destruct (negative_zero_lte_positive_zero _ _ Hneg Hpos) as [Hle _].
    destruct (IH number Hnumber Hrest) as (Hnan & Hbound & Hall).
    split; [done|]. split; [by eapply lte_trans|]. by apply Forall_cons. }
  destruct (lt number lowest) eqn:Hlt.
  - destruct (IH number Hnumber Hrest) as (Hnan & Hbound & Hall).
    split; [done|]. split; [|by apply Forall_cons].
    eapply lte_trans; [done|]. by apply lt_lte.
  - destruct (IH lowest Hlowest Hrest) as (Hnan & Hbound & Hall).
    split; [done|]. split; [done|]. apply Forall_cons. split; [|done].
    eapply lte_trans; [done|]. by apply not_lt_lte.
Qed.

Lemma Math_max_bounds (values : list float) (x : float) :
  Forall (λ x, is_nan x = false) values → x ∈ values →
  lte x (Math_max values) = true.
Proof.
  intros Hvalues Hx.
  destruct (max_from_bounds values neg_infinity eq_refl Hvalues) as (_ & _ & Hall).
  by apply (proj1 (Forall_forall _ _) Hall).
Qed.

Lemma Math_min_bounds (values : list float) (x : float) :
  Forall (λ x, is_nan x = false) values → x ∈ values →
  lte (Math_min values) x = true.
Proof.
  intros Hvalues Hx.
  destruct (min_from_bounds values infinity eq_refl Hvalues) as (_ & _ & Hall).
  by apply (proj1 (Forall_forall _ _) Hall).
Qed.

(** ** The aggregators of the CoinGecko series *)

Lemma for_each_indexed {S} (P : nat → S → Prop) (body : Z → S → completion S)
    (n : nat) (s : S) :
  P 0%nat s →
  (∀ (k : nat) s, (k < n)%nat → P k s →
     ∃ s', body (Z.of_nat k) s = Normal s' ∧ P (Datatypes.S k) s') →
  ∃ s', for_each body s (seqZ 0 (Z.of_nat n)) = Normal s' ∧ P n s'.
Proof.
  intros Hstart Hstep.
  assert (∀ (m j : nat) s, (j + m = n)%nat → P j s →
            ∃ s', for_each body s (seqZ (Z.of_nat j) (Z.of_nat m)) = Normal s'
                  ∧ P n s') as Hfrom.
  { induction m as [|m IH]; intros j s' Hsum Hs'.
    - exists s'. split; [done|]. by replace n with j by lia.
    - rewrite seqZ_cons by lia. cbn [for_each].
      destruct (Hstep j s') as (s'' & -> & Hs''); [lia|done|]. cbn.
      replace (Z.succ (Z.of_nat j)) with (Z.of_nat (Datatypes.S j)) by lia.
      replace (Z.pred (Z.of_nat (Datatypes.S m))) with (Z.of_nat m) by lia.
      apply IH; [lia|done]. }
  by apply (Hfrom n 0%nat s).
Qed.

Lemma bucket_start_next (intervalMs current time : Z) :
  0 < intervalMs →
  (∃ time', current = time' / intervalMs * intervalMs) →
  current + intervalMs ≤ time →
  current + intervalMs ≤ time / intervalMs * intervalMs.
Proof.
  intros Hpos [time' ->] Hle.
  assert (time' / intervalMs + 1 ≤ time / intervalMs) as Hquot.
  { apply Z.div_le_lower_bound; lia. }
  nia.
Qed.

Lemma bucket_start_bounds (intervalMs time : Z) :
  0 < intervalMs → 0 ≤ time →
  0 ≤ time / intervalMs * intervalMs ≤ time
  ∧ time < time / intervalMs * intervalMs + intervalMs.
Proof.
  intros Hpos Htime.
  pose proof (Z.mul_div_le time intervalMs Hpos).
  pose proof (Z.mul_succ_div_gt time intervalMs Hpos).
  pose proof (Z.div_pos time intervalMs Htime Hpos). nia.
Qed.

Section BucketsProperties.

Context (iso : Z → string).

Lemma createAggregatedCandle_returns (priceBucket volumeBucket : list (Z * float))
    (start : Z) :
  priceBucket ≠ [] → 0 ≤ start ≤ max_time →
  ∃ first final,
    head priceBucket = Some first ∧ last priceBucket = Some final
    ∧ createAggregatedCandle iso priceBucket volumeBucket (Some start)
      = Normal (candle (iso start) first.2 (Math_max (snd <$> priceBucket))
                  (Math_min (snd <$> priceBucket)) final.2
                  (reduce_from (λ sum v, (sum + v.2)%float) 0%float
                     volumeBucket)).
Proof.
  intros Hbucket Hstart.
  destruct priceBucket as [|first rest]; [done|].
  destruct (last (first :: rest)) as [final|] eqn:Hlast;
    [|by apply last_None in Hlast].
  exists first, final. split; [done|]. split; [done|].
  unfold createAggregatedCandle.
  change (at_index (first :: rest) 0) with (Some first). cbn [deref mbind completion_bind].
  replace (len (first :: rest) - 1) with (Z.of_nat (length rest))
    by (unfold len; cbn [length]; lia).
  rewrite at_index_lookup.
  rewrite last_lookup in Hlast. cbn [length Nat.pred] in Hlast.
  rewrite Hlast. cbn. unfold toISOString.
  destruct (Z.leb_spec (Z.abs start) max_time); [done|lia].
Qed.

Lemma bucket_candle_ordered (priceBucket : list (Z * float))
    (first final : Z * float) (time : string) (volume : float) :
  no_nan priceBucket →
  head priceBucket = Some first → last priceBucket = Some final →
  ohlc_ordered (candle time first.2 (Math_max (snd <$> priceBucket))
                  (Math_min (snd <$> priceBucket)) final.2 volume).
Proof.
  intros Hnan Hfirst Hfinal.
  assert (Forall (λ x, is_nan x = false) (snd <$> priceBucket)) as Hvalues.
  { by apply Forall_fmap. }
  assert (first.2 ∈ snd <$> priceBucket) as Hfirst_in.
  { apply list_elem_of_fmap_2. destruct priceBucket; [done|].
    injection Hfirst as ->. apply elem_of_cons. by left. }
  assert (final.2 ∈ snd <$> priceBucket) as Hfinal_in.
  { apply list_elem_of_fmap_2. rewrite last_lookup in Hfinal.
    by eapply list_elem_of_lookup_2. }
  unfold ohlc_ordered. cbn.
  repeat split; by first [apply Math_max_bounds | apply Math_min_bounds].
Qed.

Lemma aggregateToTimeframe_buckets_and_order (prices volumes : list (Z * float))
    (intervalMinutes : Z) :
  0 < intervalMinutes → valid_times prices →
  ∃ candles starts,
    aggregateToTimeframe iso prices volumes intervalMinutes = Normal candles
    ∧ timestamp <$> candles = iso <$> starts
    ∧ Forall (λ start,
                ∃ sample, sample ∈ prices
                  ∧ bucket_start sample.1 (intervalMinutes * 60 * 1000)
                    = Some start) starts
    ∧ spaced (intervalMinutes * 60 * 1000) starts
    ∧ (prices ≠ [] → candles ≠ [])
    ∧ (length candles ≤ length prices)%nat
    ∧ (no_nan prices → Forall ohlc_ordered candles).
Proof.
  intros Hminutes Htimes. unfold aggregateToTimeframe.
  set (intervalMs := intervalMinutes * 60 * 1000).
  assert (0 < intervalMs) as Hpos by (unfold intervalMs; lia).
  assert (∀ time, bucket_start time intervalMs
                  = Some (time / intervalMs * intervalMs)) as Hstart.
  { intros time. unfold bucket_start.
    destruct (Z.eqb_spec intervalMs 0); [lia|done]. }
  destruct (decide (prices = [])) as [->|Hprices].
  { exists [], []. cbn. by repeat split. }
  destruct (prices !! 0%nat) as [first|] eqn:Hfirst;
    [|apply lookup_ge_None in Hfirst; destruct prices; [done|cbn in Hfirst; lia]].
  destruct (Z.eqb_spec (len prices) 0) as [Hlen|_];
    [unfold len in Hlen; destruct prices; [done|cbn in Hlen; lia]|].
  rewrite (at_index_lookup prices 0%nat : at_index prices 0 = prices !! 0%nat),
    Hfirst.
  cbn [deref mbind completion_bind]. rewrite Hstart.
  unfold for_range_throwing.
  replace (len prices - 0) with (Z.of_nat (length prices)) by (unfold len; lia).
  assert (∀ sample, sample ∈ prices → 0 ≤ sample.1 ≤ max_time) as Hvalid.
  { by apply Forall_forall. }
  match goal with
  | |- context [for_each ?body ?s _] =>
      destruct (for_each_indexed (bucket_invariant iso prices intervalMs) body
                  (length prices) s) as (state & -> & Hinvariant)
  end.
  - exists (first.1 / intervalMs * intervalMs), [].
    assert (first ∈ prices) as Hin by by eapply list_elem_of_lookup_2.
    pose proof (bucket_start_bounds intervalMs first.1 Hpos
                  (proj1 (Hvalid _ Hin))) as Hbounds.
    pose proof (Hvalid _ Hin).
    repeat split; try done; try lia.
    all: try by exists first.
  - intros k [[[result currentBucket] currentVolumeBucket] bucketStartTime] Hk
      (current & starts & -> & Hcurrent & Hsource & Hzero & Hnonzero & Hbucket
       & Htimestamps & Hstarts & Hspaced & Hordered & Hlength).
    destruct (lookup_lt_is_Some_2 prices k Hk) as [price Hprice].
    cbv beta iota. rewrite !at_index_lookup, Hprice. cbn [deref mbind completion_bind].
    assert (price ∈ prices) as Hin by by eapply list_elem_of_lookup_2.
    pose proof (Hvalid _ Hin) as Hprice_time.
    unfold before_bucket_end.
    destruct (Z.ltb_spec price.1 (current + intervalMs)) as [Hbefore|Hafter].
    + eexists. split; [reflexivity|]. exists current, starts.
      repeat split; try done; try lia.
      * intros _. by destruct currentBucket.
      * apply Forall_app. split; [done|]. by apply Forall_singleton.
      * rewrite length_app. cbn. lia.
    + destruct k as [|k].
      { destruct (Hzero eq_refl) as (_ & _ & first' & Hfirst' & ->).
        rewrite Hfirst' in Hprice. injection Hprice as ->.
        pose proof (bucket_start_bounds intervalMs price.1 Hpos
                      (proj1 Hprice_time)). lia. }
      specialize (Hnonzero ltac:(done)).
      rewrite Z.gtb_ltb.
      destruct (Z.ltb_spec 0 (len currentBucket)) as [_|Hempty];
        [|unfold len in Hempty; destruct currentBucket; [done|cbn in Hempty; lia]].
      destruct (createAggregatedCandle_returns currentBucket currentVolumeBucket
                  current Hnonzero Hcurrent)
        as (opening & closing & Hopening & Hclosing & ->).
      cbn [mbind completion_bind mret completion_ret]. rewrite Hstart.
      eexists. split; [reflexivity|].
      pose proof (bucket_start_bounds intervalMs price.1 Hpos
                    (proj1 Hprice_time)) as Hbounds.
      assert (current + intervalMs ≤ price.1 / intervalMs * intervalMs) as Hnext.
      { apply bucket_start_next; [done| |lia].
        destruct Hsource as (sample & _ & ->). by eexists. }
      exists (price.1 / intervalMs * intervalMs), (starts ++ [current]).
      repeat split; try done; try lia.
      * by exists price.
      * by apply Forall_singleton.
      * rewrite !fmap_app, Htimestamps. done.
      * apply Forall_app. split.
        -- eapply Forall_impl; [exact Hstarts|].
           intros start [Hle Hsample]. split; [lia|done].
        -- apply Forall_singleton. split; [lia|done].
      * intros i start next Hi Hnexti.
        destruct (decide (S i < length starts)%nat) as [Hinside|Hlast].
        -- rewrite lookup_app_l in Hi by lia.
           rewrite lookup_app_l in Hnexti by lia. by eapply Hspaced.
        -- assert (S i = length starts) as Hi'.
           { apply lookup_lt_Some in Hnexti. rewrite length_app in Hnexti.
             cbn in Hnexti. lia. }
           rewrite lookup_app_l in Hi by lia.
           rewrite lookup_app_r in Hnexti by lia.
           rewrite Hi', Nat.sub_diag in Hnexti. injection Hnexti as <-.
           apply list_elem_of_lookup_2 in Hi.
           by destruct (proj1 (Forall_forall _ _) Hstarts _ Hi).
      * intros Hnan. apply Forall_app. split; [by apply Hordered|].
        apply Forall_singleton. apply bucket_candle_ordered; try done.
        unfold no_nan. eapply Forall_impl; [exact Hbucket|].
        intros sample Hsample. by apply (proj1 (Forall_forall _ _) Hnan).
      * rewrite length_app. cbn.
        destruct currentBucket; [done|]. cbn in Hlength. lia.
  - destruct state as [[[result currentBucket] currentVolumeBucket] bucketStartTime].
    destruct Hinvariant
      as (current & starts & -> & Hcurrent & Hsource & _ & Hnonzero & Hbucket
          & Htimestamps & Hstarts & Hspaced & Hordered & Hlength).
    cbn [mbind completion_bind].
    assert (currentBucket ≠ []) as Hbucket_ne.
    { apply Hnonzero. destruct prices; [done|]. done. }
    rewrite Z.gtb_ltb.
    destruct (Z.ltb_spec 0 (len currentBucket)) as [_|Hempty];
      [|unfold len in Hempty; destruct currentBucket; [done|cbn in Hempty; lia]].
    destruct (createAggregatedCandle_returns currentBucket currentVolumeBucket
                current Hbucket_ne Hcurrent)
      as (opening & closing & Hopening & Hclosing & ->).
    cbn [mbind completion_bind mret completion_ret].
    eexists. exists (starts ++ [current]). split; [reflexivity|].
    repeat split.
    + rewrite !fmap_app, Htimestamps. done.
    + apply Forall_app. split.
      * eapply Forall_impl; [exact Hstarts|].
        intros start [_ (sample & Hsample & ->)]. exists sample. by rewrite Hstart.
      * apply Forall_singleton. destruct Hsource as (sample & Hsample & ->).
        exists sample. by rewrite Hstart.
    + intros i start next Hi Hnexti.
      destruct (decide (S i < length starts)%nat) as [Hinside|Hlast].
      * rewrite lookup_app_l in Hi by lia.
        rewrite lookup_app_l in Hnexti by lia. by eapply Hspaced.
      * assert (S i = length starts) as Hi'.
        { apply lookup_lt_Some in Hnexti. rewrite length_app in Hnexti.
          cbn in Hnexti. lia. }
        rewrite lookup_app_l in Hi by lia.
        rewrite lookup_app_r in Hnexti by lia.
        rewrite Hi', Nat.sub_diag in Hnexti. injection Hnexti as <-.
        apply list_elem_of_lookup_2 in Hi.
        by destruct (proj1 (Forall_forall _ _) Hstarts _ Hi).
    + intros _. by destruct result.
    + rewrite length_app. cbn. destruct currentBucket; [done|].
      cbn in Hlength. lia.
    + intros Hnan. apply Forall_app. split; [by apply Hordered|].
      apply Forall_singleton. apply bucket_candle_ordered; try done.
      unfold no_nan. eapply Forall_impl; [exact Hbucket|].
      intros sample Hsample. by apply (proj1 (Forall_forall _ _) Hnan).
Qed.

(** X15: [aggregateToTimeframe] never throws on samples dated from the epoch
    on within the range of [Date], in whatever order they arrive.  The
    candles it returns are stamped, in order, with bucket starts of samples
    of the input; consecutive stamps are at least one interval apart, so no
    two candles share a bucket; there is at least one candle when there is
    a sample, and never more candles than samples. *)
Theorem aggregateToTimeframe_buckets (prices volumes : list (Z * float))
    (intervalMinutes : Z) :
  exact_interval intervalMinutes → valid_times prices →
  ∃ candles starts,
    aggregateToTimeframe iso prices volumes intervalMinutes = Normal candles
    ∧ timestamp <$> candles = iso <$> starts
    ∧ Forall (λ start,
                ∃ sample, sample ∈ prices
                  ∧ bucket_start sample.1 (intervalMinutes * 60 * 1000)
                    = Some start) starts
    ∧ spaced (intervalMinutes * 60 * 1000) starts
    ∧ (prices ≠ [] → candles ≠ [])
    ∧ (length candles ≤ length prices)%nat.
Proof.
  intros [Hminutes _] Htimes.
  destruct (aggregateToTimeframe_buckets_and_order prices volumes
              intervalMinutes Hminutes Htimes)
    as (candles & starts & Hreturns & Hstamps & Hstarts & Hspaced & Hsome
        & Hlength & _).
  by exists candles, starts.
Qed.

(** X16: on samples dated from the epoch on within the range of [Date], and
    when no price is [NaN], every candle [aggregateToTimeframe] returns is
    ordered: low ≤ open ≤ high and low ≤ close ≤ high. *)
Theorem aggregateToTimeframe_ordered (prices volumes : list (Z * float))
    (intervalMinutes : Z) :
  exact_interval intervalMinutes → valid_times prices → no_nan prices →
  ∃ candles,
    aggregateToTimeframe iso prices volumes intervalMinutes = Normal candles
    ∧ Forall ohlc_ordered candles.
Proof.
  intros [Hminutes _] Htimes Hnan.
  destruct (aggregateToTimeframe_buckets_and_order prices volumes
              intervalMinutes Hminutes Htimes)
    as (candles & _ & Hreturns & _ & _ & _ & _ & _ & Hordered).
  exists candles. split; [done|]. by apply Hordered.
Qed.

End BucketsProperties.

Lemma exact_interval_15 : exact_interval 15.
Proof. unfold exact_interval, max_time. lia. Qed.

Lemma valid_times_sample_prices : valid_times sample_prices.
Proof.
  unfold valid_times, sample_prices, max_time.
  repeat (apply Forall_cons_2; [cbn; lia|]). apply Forall_nil_2.
Qed.

Lemma no_nan_sample_prices : no_nan sample_prices.
Proof.
  unfold no_nan, sample_prices.
  repeat (apply Forall_cons_2; [reflexivity|]). apply Forall_nil_2.
Qed.

Lemma aggregateToTimeframe_on_sample_prices :
  ∃ candles starts,
    aggregateToTimeframe sample_iso sample_prices sample_volumes 15
    = Normal candles
    ∧ timestamp <$> candles = sample_iso <$> starts
    ∧ Forall (λ start,
                ∃ sample, sample ∈ sample_prices
                  ∧ bucket_start sample.1 (15 * 60 * 1000) = Some start) starts
    ∧ spaced (15 * 60 * 1000) starts
    ∧ (sample_prices ≠ [] → candles ≠ [])
    ∧ (length candles ≤ length sample_prices)%nat.
Proof.
  exact (aggregateToTimeframe_buckets sample_iso sample_prices sample_volumes 15
           exact_interval_15 valid_times_sample_prices).
Defined.

Lemma aggregateToTimeframe_ordered_on_sample_prices :
  ∃ candles,
    aggregateToTimeframe sample_iso sample_prices sample_volumes 15
    = Normal candles
    ∧ Forall ohlc_ordered candles.
Proof.
  exact (aggregateToTimeframe_ordered sample_iso sample_prices sample_volumes 15
           exact_interval_15 valid_times_sample_prices no_nan_sample_prices).
Defined.

Lemma is_nan_true (x : float) : is_nan x = true → x = nan.
Proof.
  intros Hnan. apply Prim2SF_inj.
  destruct (Prim2SF x) as [s|s| |s m e] eqn:Hx; [| |done|];
    (assert (is_nan x = false) as Hfalse
       by (apply is_nan_spec; by rewrite Hx)); congruence.
Qed.

Lemma gt_irreflexive (x : float) : gt x x = false.
Proof.
  destruct (gt x x) eqn:Hgt; [|done].
  assert (lt x x = true) as Hlt by exact Hgt.
  apply lt_not_gt in Hlt. congruence.
Qed.

Lemma not_gt_neg_infinity (x : float) :
  is_nan x = false → gt x neg_infinity = false → x = neg_infinity.
Proof.
  intros Hx%is_nan_spec. unfold gt. rewrite FloatAxioms.ltb_spec.
  intros Hlt. apply Prim2SF_inj.
  change (Prim2SF neg_infinity) with (S754_infinity true) in *.
  unfold SFltb in Hlt.
  by destruct (Prim2SF x) as [[]|[]| |[] m e].
Qed.

Lemma not_lt_infinity (x : float) :
  is_nan x = false → lt x infinity = false → x = infinity.
Proof.
  intros Hx%is_nan_spec. unfold lt. rewrite FloatAxioms.ltb_spec.
  intros Hlt. apply Prim2SF_inj.
  change (Prim2SF infinity) with (S754_infinity false) in *.
  unfold SFltb in Hlt.
  by destruct (Prim2SF x) as [[]|[]| |[] m e].
Qed.

Lemma zero_of_one_sign (x : float) :
  is_positive_zero x && is_negative_zero x = false.
Proof. unfold is_positive_zero, is_negative_zero. by destruct (classify x). Qed.

Lemma Math_max_same (x : float) : Math_max [x; x] = x.
Proof.
  unfold Math_max. cbn [max_from].
  destruct (is_nan x) eqn:Hnan; [by rewrite (is_nan_true x Hnan)|].
  change (is_negative_zero neg_infinity) with false. rewrite andb_false_r.
  destruct (gt x neg_infinity) eqn:Hgt.
  - by rewrite zero_of_one_sign, gt_irreflexive.
  - symmetry. by apply not_gt_neg_infinity.
Qed.

Lemma Math_min_same (x : float) : Math_min [x; x] = x.
Proof.
  unfold Math_min. cbn [min_from].
  destruct (is_nan x) eqn:Hnan; [by rewrite (is_nan_true x Hnan)|].
  change (is_positive_zero infinity) with false. rewrite andb_false_r.
  destruct (lt x infinity) eqn:Hlt.
  - rewrite andb_comm, zero_of_one_sign.
    change (lt x x) with (gt x x). by rewrite gt_irreflexive.
  - symmetry. by apply not_lt_infinity.
Qed.

Lemma for_each_fmap {S} (f : Z → Z) (body : Z → S → completion S) (s : S)
    (indices : list Z) :
  for_each body s (f <$> indices) = for_each (λ i, body (f i)) s indices.
Proof.
  revert s. induction indices as [|i indices IH]; intros s; [done|].
  cbn [fmap list_fmap for_each]. destruct (body (f i) s); cbn; [apply IH|done].
Qed.

Section HalfDayProperties.

Context (iso : Z → string).

Lemma aggregateToHalfDay_candles (prices volumes : list (Z * float)) :
  dated prices →
  ∃ candles,
    aggregateToHalfDay iso prices volumes = Normal candles
    ∧ length candles = ((length prices + 1) / 2)%nat
    ∧ ∀ (j : nat) first,
        prices !! (2 * j)%nat = Some first →
        candles !! j
        = Some (let secondHalf := default first (prices !! (2 * j + 1)%nat) in
                let firstVolume :=
                  default (first.1, 0%float) (volumes !! (2 * j)%nat) in
                let secondVolume :=
                  default firstVolume (volumes !! (2 * j + 1)%nat) in
                candle (iso first.1) first.2
                  (Math_max [first.2; secondHalf.2])
                  (Math_min [first.2; secondHalf.2]) secondHalf.2
                  (firstVolume.2 + secondVolume.2)%float).
Proof.
  intros Hdated. unfold aggregateToHalfDay, range_by. rewrite for_each_fmap.
  replace ((len prices - 0 + 2 - 1) / 2)
    with (Z.of_nat ((length prices + 1) / 2)%nat)
    by (unfold len; rewrite Nat2Z.inj_div; f_equal; lia).
  match goal with
  | |- context [for_each ?body ?s _] =>
      destruct (for_each_indexed
                  (λ k result,
                     length result = k
                     ∧ ∀ (j : nat) first,
                         (j < k)%nat → prices !! (2 * j)%nat = Some first →
                         result !! j
                         = Some (let secondHalf :=
                                   default first (prices !! (2 * j + 1)%nat) in
                                 let firstVolume :=
                                   default (first.1, 0%float)
                                     (volumes !! (2 * j)%nat) in
                                 let secondVolume :=
                                   default firstVolume
                                     (volumes !! (2 * j + 1)%nat) in
                                 candle (iso first.1) first.2
                                   (Math_max [first.2; secondHalf.2])
                                   (Math_min [first.2; secondHalf.2])
                                   secondHalf.2
                                   (firstVolume.2 + secondVolume.2)%float))
                  body ((length prices + 1) / 2)%nat s)
        as (candles & -> & Hlength & Hcandles)
  end.
  - split; [done|]. intros j first Hj. lia.
  - intros k result Hk [Hlength Hcandles].
    assert (2 * k < length prices)%nat as Hinside.
    { pose proof (Nat.div_mod_eq (length prices + 1) 2).
      pose proof (Nat.mod_upper_bound (length prices + 1) 2). lia. }
    destruct (lookup_lt_is_Some_2 prices (2 * k)%nat Hinside) as [first Hfirst].
    cbv beta.
    replace (0 + 2 * Z.of_nat k) with (Z.of_nat (2 * k)) by lia.
    replace (Z.of_nat (2 * k) + 1) with (Z.of_nat (2 * k + 1)) by lia.
    rewrite !at_index_lookup, Hfirst. cbn [deref mbind completion_bind].
    unfold toISOString.
    assert (Z.abs first.1 ≤ max_time) as Htime.
    { apply (proj1 (Forall_forall _ _) Hdated).
      by eapply list_elem_of_lookup_2. }
    destruct (Z.leb_spec (Z.abs first.1) max_time); [|lia].
    eexists. split; [reflexivity|]. split.
    + rewrite length_app. cbn. lia.
    + intros j first' Hj Hfirst'.
      destruct (decide (j = k)) as [->|Hother].
      * rewrite lookup_app_r by lia. rewrite Hlength, Nat.sub_diag.
        rewrite Hfirst in Hfirst'. injection Hfirst' as <-. done.
      * rewrite lookup_app_l by lia. apply Hcandles; [lia|done].
  - exists candles. split; [done|]. split; [done|].
    intros j first Hfirst. apply Hcandles; [|done].
    apply lookup_lt_Some in Hfirst.
    pose proof (Nat.div_mod_eq (length prices + 1) 2).
    pose proof (Nat.mod_upper_bound (length prices + 1) 2). lia.
Qed.

(** X17: on samples whose times lie in the range of [Date],
    [aggregateToHalfDay] never throws and pairs the samples up: it returns
    (n + 1) / 2 candles for n samples; candle j is stamped with the time of
    sample 2j, opens at sample 2j and closes at sample 2j + 1 (at sample 2j
    when that was the last one); and when no price is [NaN] every candle is
    ordered, low ≤ open ≤ high and low ≤ close ≤ high. *)
Theorem aggregateToHalfDay_pairs (prices volumes : list (Z * float)) :
  dated prices →
  ∃ candles,
    aggregateToHalfDay iso prices volumes = Normal candles
    ∧ length candles = ((length prices + 1) / 2)%nat
    ∧ (∀ (j : nat) c, candles !! j = Some c →
         ∃ first, prices !! (2 * j)%nat = Some first
           ∧ timestamp c = iso first.1 ∧ open c = first.2
           ∧ close c = (default first (prices !! (2 * j + 1)%nat)).2)
    ∧ (no_nan prices → Forall ohlc_ordered candles).
Proof.
  intros Hdated.
  destruct (aggregateToHalfDay_candles prices volumes Hdated)
    as (candles & Hreturns & Hlength & Hcandles).
  assert (∀ (j : nat) c, candles !! j = Some c →
            ∃ first, prices !! (2 * j)%nat = Some first
              ∧ candles !! j = Some c
              ∧ c = candle (iso first.1) first.2
                      (Math_max [first.2;
                                 (default first (prices !! (2 * j + 1)%nat)).2])
                      (Math_min [first.2;
                                 (default first (prices !! (2 * j + 1)%nat)).2])
                      (default first (prices !! (2 * j + 1)%nat)).2
                      ((default (first.1, 0%float) (volumes !! (2 * j)%nat)).2
                       + (default (default (first.1, 0%float)
                                     (volumes !! (2 * j)%nat))
                            (volumes !! (2 * j + 1)%nat)).2)%float) as Hshape.
  { intros j c Hc.
    assert (2 * j < length prices)%nat as Hinside.
    { apply lookup_lt_Some in Hc. rewrite Hlength in Hc.
      pose proof (Nat.div_mod_eq (length prices + 1) 2).
      pose proof (Nat.mod_upper_bound (length prices + 1) 2). lia. }
    destruct (lookup_lt_is_Some_2 prices (2 * j)%nat Hinside) as [first Hfirst].
    exists first. split; [done|]. split; [done|].
    rewrite (Hcandles j first Hfirst) in Hc. by injection Hc as <-. }
  exists candles. split; [done|]. split; [done|]. split.
  - intros j c Hc. destruct (Hshape j c Hc) as (first & Hfirst & _ & ->).
    by exists first.
  - intros Hnan. apply Forall_lookup. intros j c Hc.
    destruct (Hshape j c Hc) as (first & Hfirst & _ & ->).
    set (secondHalf := default first (prices !! (2 * j + 1)%nat)).
    assert (is_nan first.2 = false) as Hfirst_nan.
    { apply (proj1 (Forall_forall _ _) Hnan). by eapply list_elem_of_lookup_2. }
    assert (is_nan secondHalf.2 = false) as Hsecond_nan.
    { unfold secondHalf.
      destruct (prices !! (2 * j + 1)%nat) as [second|] eqn:Hsecond; [|done].
      apply (proj1 (Forall_forall _ _) Hnan). by eapply list_elem_of_lookup_2. }
    assert (Forall (λ x, is_nan x = false) [first.2; secondHalf.2]) as Hvalues.
    { by repeat apply Forall_cons_2. }
    unfold ohlc_ordered, candle. cbn [low open high close].
    repeat split;
      first [apply Math_max_bounds | apply Math_min_bounds]; try done;
      set_solver.
Qed.

(** X18: when the number of samples is odd, the last candle of
    [aggregateToHalfDay] is made of the last sample alone: it is flat, open,
    high, low and close all being that sample's price, and, unless the
    volumes go on beyond the prices, its volume is the last volume counted
    twice. *)
Theorem aggregateToHalfDay_odd_tail (prices volumes : list (Z * float))
    (j : nat) (final finalVolume : Z * float) :
  dated prices →
  length prices = (2 * j + 1)%nat →
  prices !! (2 * j)%nat = Some final →
  volumes !! (2 * j)%nat = Some finalVolume →
  volumes !! (2 * j + 1)%nat = None →
  ∃ candles c,
    aggregateToHalfDay iso prices volumes = Normal candles
    ∧ last candles = Some c
    ∧ open c = final.2 ∧ high c = final.2 ∧ low c = final.2
    ∧ close c = final.2
    ∧ volume c = Some (finalVolume.2 + finalVolume.2)%float.
Proof.
  intros Hdated Hodd Hfinal Hvolume Hbeyond.
  destruct (aggregateToHalfDay_candles prices volumes Hdated)
    as (candles & Hreturns & Hlength & Hcandles).
  specialize (Hcandles j final Hfinal).
  assert (prices !! (2 * j + 1)%nat = None) as Hnone
    by (apply lookup_ge_None; lia).
  rewrite Hnone, Hvolume, Hbeyond in Hcandles. cbn [default] in Hcandles.
  rewrite Math_max_same, Math_min_same in Hcandles.
  assert (length candles = S j) as Hcount.
  { rewrite Hlength, Hodd.
    replace (2 * j + 1 + 1)%nat with ((j + 1) * 2)%nat by lia.
    rewrite Nat.div_mul by done. lia. }
  eexists candles, _. split; [done|]. split.
  - rewrite last_lookup, Hcount. exact Hcandles.
  - done.
Qed.

End HalfDayProperties.

Lemma dated_sample_prices : dated sample_prices.
Proof.
  unfold dated, sample_prices, max_time.
  repeat (apply Forall_cons_2; [cbn; lia|]). apply Forall_nil_2.
Qed.

Lemma aggregateToHalfDay_on_sample_prices :
  ∃ candles,
    aggregateToHalfDay sample_iso sample_prices sample_volumes = Normal candles
    ∧ length candles = ((length sample_prices + 1) / 2)%nat
    ∧ (∀ (j : nat) c, candles !! j = Some c →
         ∃ first, sample_prices !! (2 * j)%nat = Some first
           ∧ timestamp c = sample_iso first.1 ∧ open c = first.2
           ∧ close c = (default first (sample_prices !! (2 * j + 1)%nat)).2)
    ∧ (no_nan sample_prices → Forall ohlc_ordered candles).
Proof.
  exact (aggregateToHalfDay_pairs sample_iso sample_prices sample_volumes
           dated_sample_prices).
Defined.

Lemma aggregateToHalfDay_tail_on_sample_prices :
  ∃ candles c,
    aggregateToHalfDay sample_iso sample_prices sample_volumes = Normal candles
    ∧ last candles = Some c
    ∧ open c = 20%float ∧ high c = 20%float ∧ low c = 20%float
    ∧ close c = 20%float
    ∧ volume c = Some 14%float.
Proof.
  exact (aggregateToHalfDay_odd_tail sample_iso sample_prices sample_volumes 1
           (900000, 20%float) (900000, 7%float) dated_sample_prices
           eq_refl eq_refl eq_refl eq_refl).
Defined.

(** ** The candles built from the services' answers *)

Lemma filter_from_positive {A} (a : list A) (index : Z) :
  0 < index → filter_from (λ _ index, index >? 0) index a = a.
Proof.
  revert index. induction a as [|item a IH]; intros index Hindex; [done|].
  cbn [filter_from]. rewrite Z.gtb_ltb.
  destruct (Z.ltb_spec 0 index); [|lia]. f_equal. apply IH. lia.
Qed.

Lemma filter_indexed_positive {A} (a : list A) :
  filter_indexed (λ _ index, index >? 0) a = drop 1 a.
Proof.
  destruct a as [|item a]; [done|]. unfold filter_indexed. cbn [filter_from].
  change (0 >? 0) with false. cbn. by apply filter_from_positive.
Qed.

Lemma map_from_lookup {A B} (f : A → Z → completion B) (g : A → Z → B)
    (start : Z) (a : list A) :
  (∀ (k : nat) item, a !! k = Some item →
     f item (start + Z.of_nat k) = Normal (g item (start + Z.of_nat k))) →
  map_from f start a = Normal (imap (λ k item, g item (start + Z.of_nat k)) a).
Proof.
  revert start. induction a as [|item a IH]; intros start Hf; [done|].
  cbn [map_from imap]. pose proof (Hf 0%nat item eq_refl) as Hitem.
  rewrite Z.add_0_r in Hitem |- *. rewrite Hitem. cbn.
  rewrite (IH (start + 1)).
  - cbn. do 2 f_equal. apply imap_ext. intros k item' _. cbn. f_equal. lia.
  - intros k item' Hk. specialize (Hf (S k) item' Hk).
    by replace (start + 1 + Z.of_nat k) with (start + Z.of_nat (S k)) by lia.
Qed.

Lemma getMarketDataByTimeframe_first_source (S : Market.Sources)
    (coinId code : string) (c : CoinData) (cs : list CoinData) :
  defined (get Market.TIMEFRAME_CONFIG code) = true →
  Market.coingecko S coinId code (get Market.TIMEFRAME_CONFIG code)
  = Normal (c :: cs) →
  Market.getMarketDataByTimeframe S coinId code = Normal (c :: cs).
Proof.
  intros Hdefined Hanswer. unfold Market.getMarketDataByTimeframe.
  by rewrite Hdefined, Hanswer.
Qed.

Lemma getMarketDataByTimeframe_last_source (S : Market.Sources)
    (coinId code : string) :
  defined (get Market.TIMEFRAME_CONFIG code) = true →
  (∀ c cs, Market.coingecko S coinId code (get Market.TIMEFRAME_CONFIG code)
           ≠ Normal (c :: cs)) →
  (∀ c cs, Market.coincap S coinId code (get Market.TIMEFRAME_CONFIG code)
           ≠ Normal (c :: cs)) →
  Market.getMarketDataByTimeframe S coinId code
  = Normal (Market.generateMockDataByTimeframe S coinId code).
Proof.
  intros Hdefined Hfirst Hsecond. unfold Market.getMarketDataByTimeframe.
  rewrite Hdefined. cbn [negb].
  destruct (Market.coingecko S coinId code _) as [[|c1 cs1]|];
    destruct (Market.coincap S coinId code _) as [[|c2 cs2]|];
    try reflexivity; try (by destruct (Hfirst c1 cs1));
    by destruct (Hsecond c2 cs2).
Qed.

Section ServicesProperties.

Context (iso : Z → string) (parseFloat : string → float) (random : Z → float).

Lemma coincap_candles_lookup (data : list Asset) :
  Forall (λ item, Z.abs (asset_time item) ≤ max_time) data →
  ∃ candles,
    coincap_candles iso parseFloat data = Normal candles
    ∧ length candles = (length data - 1)%nat
    ∧ ∀ (k : nat) previous item,
        data !! k = Some previous → data !! S k = Some item →
        candles !! k
        = Some {| timestamp := iso (asset_time item);
                  open := parseFloat (asset_priceUsd previous);
                  high := Math_max [parseFloat (asset_priceUsd item);
                                    parseFloat (asset_priceUsd previous)];
                  low := Math_min [parseFloat (asset_priceUsd item);
                                   parseFloat (asset_priceUsd previous)];
                  close := parseFloat (asset_priceUsd item);
                  volume := None; ema_20 := None; rsi_14 := None;
                  macd := None; macd_signal := None; bb_upper := None;
                  bb_lower := None; obv := None |}.
Proof.
  intros Hdated. unfold coincap_candles, map_throwing.
  rewrite (map_from_lookup _
             (λ item index,
                let previous := default item (at_index data (index - 1)) in
                let prevClose :=
                  if index >? 0 then parseFloat (asset_priceUsd previous)
                  else parseFloat (asset_priceUsd item) in
                {| timestamp := iso (asset_time item); open := prevClose;
                   high := Math_max [parseFloat (asset_priceUsd item); prevClose];
                   low := Math_min [parseFloat (asset_priceUsd item); prevClose];
                   close := parseFloat (asset_priceUsd item);
                   volume := None; ema_20 := None; rsi_14 := None;
                   macd := None; macd_signal := None; bb_upper := None;
                   bb_lower := None; obv := None |})).
  - cbn [mbind completion_bind mret completion_ret].
    rewrite filter_indexed_positive. eexists. split; [reflexivity|]. split.
    + rewrite length_drop, length_imap. done.
    + intros k previous item Hprevious Hitem.
      rewrite lookup_drop, list_lookup_imap.
      change (1 + k)%nat with (S k). rewrite Hitem. cbn [fmap option_fmap option_map].
      replace (0 + Z.of_nat (S k) - 1) with (Z.of_nat k) by lia.
      rewrite at_index_lookup, Hprevious. cbn [default].
      rewrite Z.gtb_ltb. destruct (Z.ltb_spec 0 (0 + Z.of_nat (S k))); [done|lia].
  - intros k item Hitem. cbv beta zeta.
    assert (Z.abs (asset_time item) ≤ max_time) as Htime.
    { apply (proj1 (Forall_forall _ _) Hdated).
      by eapply list_elem_of_lookup_2. }
    unfold toISOString.
    destruct (Z.leb_spec (Z.abs (asset_time item)) max_time); [|lia].
    rewrite Z.gtb_ltb.
    destruct (Z.ltb_spec 0 (0 + Z.of_nat k)) as [Hpositive|_]; [|done].
    replace (0 + Z.of_nat k - 1) with (Z.of_nat (k - 1)) by lia.
    rewrite at_index_lookup.
    destruct (lookup_lt_is_Some_2 data (k - 1)) as [previous ->];
      [apply lookup_lt_Some in Hitem; lia|]. done.
Qed.

(** X19: from a CoinCap answer of n well-dated items the CoinCap block of
    [getMarketDataByTimeframe] builds n - 1 candles without volume, none
    from a single item: candle k is stamped with the time of item k + 1,
    opens at the price of item k and closes at the price of item k + 1.  So
    every candle opens where the one before closed, and when no price
    parses to [NaN] every candle is ordered, low ≤ open ≤ high and
    low ≤ close ≤ high. *)
Theorem coincap_candles_chain (data : list Asset) :
  Forall (λ item, Z.abs (asset_time item) ≤ max_time) data →
  ∃ candles,
    coincap_candles iso parseFloat data = Normal candles
    ∧ length candles = (length data - 1)%nat
    ∧ (∀ (k : nat) c, candles !! k = Some c →
         ∃ previous item,
           data !! k = Some previous ∧ data !! S k = Some item
           ∧ timestamp c = iso (asset_time item)
           ∧ open c = parseFloat (asset_priceUsd previous)
           ∧ close c = parseFloat (asset_priceUsd item)
           ∧ volume c = None)
    ∧ (∀ (k : nat) c next,
         candles !! k = Some c → candles !! S k = Some next →
         open next = close c)
    ∧ (Forall (λ item, is_nan (parseFloat (asset_priceUsd item)) = false) data →
       Forall ohlc_ordered candles).
Proof.
  intros Hdated.
  destruct (coincap_candles_lookup data Hdated)
    as (candles & Hreturns & Hlength & Hcandles).
  assert (∀ (k : nat) c, candles !! k = Some c →
            ∃ previous item,
              data !! k = Some previous ∧ data !! S k = Some item
              ∧ c = {| timestamp := iso (asset_time item);
                       open := parseFloat (asset_priceUsd previous);
                       high := Math_max [parseFloat (asset_priceUsd item);
                                         parseFloat (asset_priceUsd previous)];
                       low := Math_min [parseFloat (asset_priceUsd item);
                                        parseFloat (asset_priceUsd previous)];
                       close := parseFloat (asset_priceUsd item);
                       volume := None; ema_20 := None; rsi_14 := None;
                       macd := None; macd_signal := None; bb_upper := None;
                       bb_lower := None; obv := None |}) as Hshape.
  { intros k c Hc. pose proof (lookup_lt_Some _ _ _ Hc) as Hk.
    rewrite Hlength in Hk.
    destruct (lookup_lt_is_Some_2 data k) as [previous Hprevious]; [lia|].
    destruct (lookup_lt_is_Some_2 data (S k)) as [item Hitem]; [lia|].
    exists previous, item. split; [done|]. split; [done|].
    rewrite (Hcandles k previous item Hprevious Hitem) in Hc.
    by injection Hc as <-. }
  exists candles. split; [done|]. split; [done|]. split; [|split].
  - intros k c Hc.
    destruct (Hshape k c Hc) as (previous & item & Hprevious & Hitem & ->).
    by exists previous, item.
  - intros k c next Hc Hnext.
    destruct (Hshape k c Hc) as (previous & item & Hprevious & Hitem & ->).
    destruct (Hshape (S k) next Hnext)
      as (previous' & item' & Hprevious' & Hitem' & ->).
    cbn. congruence.
  - intros Hnan. apply Forall_lookup. intros k c Hc.
    destruct (Hshape k c Hc) as (previous & item & Hprevious & Hitem & ->).
    assert (Forall (λ x, is_nan x = false)
              [parseFloat (asset_priceUsd item);
               parseFloat (asset_priceUsd previous)]) as Hvalues.
    { repeat apply Forall_cons_2; [| |done];
        apply (proj1 (Forall_forall _ _) Hnan);
        by eapply list_elem_of_lookup_2. }
    unfold ohlc_ordered. cbn [low open high close].
    repeat split;
      first [apply Math_max_bounds | apply Math_min_bounds]; try done;
      set_solver.
Qed.

(** X20: when CoinGecko answers with at least one sample, all of them dated
    from the epoch on within the range of [Date],
    [getMarketDataByTimeframe] serves for 15m, 30m and 12h what the
    aggregators make of that answer, with 15 and 30 minute buckets and half
    days; neither CoinCap nor the mock generator has a part in the
    result. *)
Theorem getMarketDataByTimeframe_aggregates (chart : MarketChart)
    (history : completion (list Asset)) (mock : string → string → list CoinData)
    (coinId : string) (prices : list (Z * float)) :
  chart_prices chart = Some prices → prices ≠ [] → valid_times prices →
  let sources := services iso parseFloat random (Normal chart) history mock in
  let volumes := default [] (chart_total_volumes chart) in
  Market.getMarketDataByTimeframe sources coinId "15m"
  = aggregateToTimeframe iso prices volumes 15
  ∧ Market.getMarketDataByTimeframe sources coinId "30m"
    = aggregateToTimeframe iso prices volumes 30
  ∧ Market.getMarketDataByTimeframe sources coinId "12h"
    = aggregateToHalfDay iso prices volumes.
Proof.
  intros Hprices Hsome Htimes sources volumes.
  assert (dated prices) as Hdated.
  { eapply Forall_impl; [exact Htimes|]. intros sample. cbn. lia. }
  destruct (aggregateToTimeframe_buckets_and_order iso prices volumes 15
              ltac:(lia) Htimes)
    as (quarters & _ & Hquarters & _ & _ & _ & Hquarters_some & _).
  destruct (aggregateToTimeframe_buckets_and_order iso prices volumes 30
              ltac:(lia) Htimes)
    as (halves & _ & Hhalves & _ & _ & _ & Hhalves_some & _).
  destruct (aggregateToHalfDay_candles iso prices volumes Hdated)
    as (days & Hdays & Hdays_length & _).
  specialize (Hquarters_some Hsome). specialize (Hhalves_some Hsome).
  assert (days ≠ []) as Hdays_some.
  { intros ->. cbn [length] in Hdays_length.
    assert (1 ≤ (length prices + 1) / 2)%nat as Hone; [|lia].
    apply Nat.div_le_lower_bound; [done|].
    destruct prices; [done|cbn [length]; lia]. }
  rewrite Hquarters, Hhalves, Hdays.
  destruct quarters as [|c1 cs1]; [done|].
  destruct halves as [|c2 cs2]; [done|].
  destruct days as [|c3 cs3]; [done|].
  repeat split; apply getMarketDataByTimeframe_first_source; try reflexivity;
    unfold sources, services; cbn [Market.coingecko mbind completion_bind];
    unfold coingecko_candles; rewrite Hprices; cbn [default];
    fold volumes; done.
Qed.

(** X21: an answer with a single sample cannot make a candle, since each
    candle needs the sample before it and the first one is dropped.  So,
    for the timeframes that are not aggregated, when CoinGecko and CoinCap
    both answer with at most one sample, [getMarketDataByTimeframe] serves
    the mock series. *)
Theorem getMarketDataByTimeframe_single_samples (chart : MarketChart)
    (data : list Asset) (mock : string → string → list CoinData)
    (coinId code : string) :
  code ∈ ["1h"; "24h"; "7d"; "30d"; "6M"; "1Y"]%string →
  (length (default [] (chart_prices chart)) ≤ 1)%nat →
  (length data ≤ 1)%nat →
  Market.getMarketDataByTimeframe
    (services iso parseFloat random (Normal chart) (Normal data) mock)
    coinId code
  = Normal (mock coinId code).
Proof.
  intros Hcode Hprices Hdata.
  apply getMarketDataByTimeframe_last_source.
  - repeat (apply elem_of_cons in Hcode as [->|Hcode]; [reflexivity|]).
    by apply elem_of_nil in Hcode.
  - intros c cs. cbn [services Market.coingecko mbind completion_bind].
    unfold coingecko_candles.
    assert (bool_decide (code = "15m"%string)
            || bool_decide (code = "30m"%string) = false) as ->.
    { repeat (apply elem_of_cons in Hcode as [->|Hcode]; [reflexivity|]).
      by apply elem_of_nil in Hcode. }
    assert (bool_decide (code = "12h"%string) = false) as ->.
    { repeat (apply elem_of_cons in Hcode as [->|Hcode]; [reflexivity|]).
      by apply elem_of_nil in Hcode. }
    destruct (default [] (chart_prices chart)) as [|sample [|? ?]];
      [done| |cbn in Hprices; lia].
    unfold map_throwing. cbn [map_from].
    destruct (toISOString iso (Some sample.1)); [|done].
    by cbn.
  - intros c cs. cbn [services Market.coincap mbind completion_bind].
    unfold coincap_candles.
    destruct data as [|item [|? ?]]; [done| |cbn in Hdata; lia].
    unfold map_throwing. cbn [map_from].
    change (0 >? 0) with false. cbn [mbind completion_bind mret completion_ret].
    destruct (toISOString iso (Some (asset_time item))); [|done].
    by cbn.
Qed.

End ServicesProperties.

Lemma dated_sample_history :
  Forall (λ item, Z.abs (asset_time item) ≤ max_time) sample_history.
Proof.
  unfold sample_history, max_time.
  repeat (apply Forall_cons_2; [cbn; lia|]). apply Forall_nil_2.
Qed.

Lemma coincap_candles_on_sample_history :
  ∃ candles,
    coincap_candles sample_iso sample_parseFloat sample_history = Normal candles
    ∧ length candles = 2%nat
    ∧ (∀ (k : nat) c next,
         candles !! k = Some c → candles !! S k = Some next →
         open next = close c).
Proof.
  destruct (coincap_candles_chain sample_iso sample_parseFloat sample_history
              dated_sample_history)
    as (candles & Hreturns & Hlength & _ & Hchain & _).
  by exists candles.
Defined.

Lemma getMarketDataByTimeframe_on_sample_chart :
  Market.getMarketDataByTimeframe
    (services sample_iso sample_parseFloat sample_random (Normal sample_chart)
       (Throw "Error: Network Error") (λ _ _, []))
    "bitcoin" "15m"
  = aggregateToTimeframe sample_iso sample_prices sample_volumes 15
  ∧ Market.getMarketDataByTimeframe
      (services sample_iso sample_parseFloat sample_random (Normal sample_chart)
         (Throw "Error: Network Error") (λ _ _, []))
      "bitcoin" "30m"
    = aggregateToTimeframe sample_iso sample_prices sample_volumes 30
  ∧ Market.getMarketDataByTimeframe
      (services sample_iso sample_parseFloat sample_random (Normal sample_chart)
         (Throw "Error: Network Error") (λ _ _, []))
      "bitcoin" "12h"
    = aggregateToHalfDay sample_iso sample_prices sample_volumes.
Proof.
  exact (getMarketDataByTimeframe_aggregates sample_iso sample_parseFloat
           sample_random sample_chart (Throw "Error: Network Error")
           (λ _ _, []) "bitcoin" sample_prices eq_refl ltac:(done)
           valid_times_sample_prices).
Defined.

Lemma getMarketDataByTimeframe_on_single_samples :
  Market.getMarketDataByTimeframe
    (services sample_iso sample_parseFloat sample_random
       (Normal {| chart_prices := Some [(0, 10%float)];
                  chart_total_volumes := None |})
       (Normal [ {| asset_priceUsd := "10"; asset_time := 0 |} ])
       (λ _ _, candle_at <$> rising_closes))
    "bitcoin" "1h"
  = Normal (candle_at <$> rising_closes).
Proof.
  apply (getMarketDataByTimeframe_single_samples sample_iso sample_parseFloat
           sample_random
           {| chart_prices := Some [(0, 10%float)]; chart_total_volumes := None |}
           [ {| asset_priceUsd := "10"; asset_time := 0 |} ]
           (λ _ _, candle_at <$> rising_closes) "bitcoin" "1h").
  - set_solver.
  - cbn. lia.
  - cbn. lia.
Defined.

(** ** The mock generator *)

Lemma for_each_push {B} (R : Z → B → Prop)
    (body : Z → list B → completion (list B)) (indices : list Z)
    (data : list B) :
  (∀ i data, i ∈ indices → ∃ c, body i data = Normal (data ++ [c]) ∧ R i c) →
  ∃ pushed,
    for_each body data indices = Normal (data ++ pushed)
    ∧ Forall2 R indices pushed.
Proof.
  revert data. induction indices as [|i indices IH]; intros data Hbody.
  - exists []. by rewrite app_nil_r.
  - destruct (Hbody i data) as (c & Hc & Hrelated); [set_solver|].
    destruct (IH (data ++ [c])) as (pushed & Hpushed & Hall).
    { intros i' data' Hi'. apply Hbody. set_solver. }
    exists (c :: pushed). cbn [for_each]. rewrite Hc. cbn.
    rewrite Hpushed, <- app_assoc. split; [done|]. by apply Forall2_cons.
Qed.

Lemma elem_of_descending (from i : Z) : i ∈ descending from → 0 ≤ i ≤ from.
Proof.
  unfold descending. rewrite elem_of_reverse, elem_of_seqZ. lia.
Qed.

Section MockProperties.

Context (iso : Z → string) (now : Z) (random : Z → float) (sin : float → float).

Lemma generateMockDataByTimeframe_for (coinId timeframe : string)
    (config : Market.TimeframeConfig) (intervalMs : Z) :
  get Market.TIMEFRAME_CONFIG timeframe = Own config →
  getIntervalMs timeframe = Own intervalMs →
  (∀ i, 0 ≤ i ≤ Z.min (Market.points config) 100 →
        Z.abs (now - i * intervalMs) ≤ max_time) →
  ∃ data,
    generateMockDataByTimeframe iso now random sin coinId timeframe
    = Normal data
    ∧ Forall2 (λ i c,
                 timestamp c = iso (now - i * intervalMs)
                 ∧ open c = (close c * 0.999)%float
                 ∧ high c = (close c * 1.003)%float
                 ∧ low c = (close c * 0.997)%float)
        (descending (Z.min (Market.points config) 100)) data.
Proof.
  intros Hconfig Hinterval Hrange. unfold generateMockDataByTimeframe.
  rewrite Hconfig, Hinterval. cbn [mbind completion_bind fmap option_fmap option_map].
  match goal with
  | |- context [for_each ?body [] ?indices] =>
      destruct (for_each_push
                  (λ i c,
                     timestamp c = iso (now - i * intervalMs)
                     ∧ open c = (close c * 0.999)%float
                     ∧ high c = (close c * 1.003)%float
                     ∧ low c = (close c * 0.997)%float)
                  body indices []) as (data & -> & Hdata)
  end.
  - intros i data Hi%elem_of_descending. cbv beta zeta. unfold toISOString.
    destruct (Z.leb_spec (Z.abs (now - i * intervalMs)) max_time) as [_|Hout];
      [|specialize (Hrange i Hi); lia].
    eexists. split; [reflexivity|]. done.
  - by exists data.
Qed.

Lemma generateMockDataByTimeframe_without_points (coinId name : string) :
  name ∈ Object_prototype →
  defined (get Market.TIMEFRAME_CONFIG name) = true
  ∧ generateMockDataByTimeframe iso now random sin coinId name = Normal [].
Proof.
  intros Hname. unfold Object_prototype in Hname.
  repeat (apply elem_of_cons in Hname as [->|Hname]; [by split|]).
  by apply elem_of_nil in Hname.
Qed.

(** X22: for each of the nine configured timeframes and a clock that reads
    a time from the epoch on within the range of [Date],
    [generateMockDataByTimeframe] never throws; it returns
    min(points, 100) + 1 candles, between 6 and 101 of them, stamped one
    interval apart from the oldest to the newest, the newest at the time
    of the call; and every candle's open, high and low are its close times
    0.999, 1.003 and 0.997. *)
Theorem generateMockDataByTimeframe_series (coinId timeframe : string) :
  timeframe ∈ nine_timeframes → 0 ≤ now ≤ max_time →
  ∃ data config intervalMs,
    generateMockDataByTimeframe iso now random sin coinId timeframe
    = Normal data
    ∧ get Market.TIMEFRAME_CONFIG timeframe = Own config
    ∧ get intervals timeframe = Own intervalMs
    ∧ len data = Z.min (Market.points config) 100 + 1
    ∧ 6 ≤ len data ≤ 101
    ∧ Forall2 (λ i c,
                 timestamp c = iso (now - i * intervalMs)
                 ∧ open c = (close c * 0.999)%float
                 ∧ high c = (close c * 1.003)%float
                 ∧ low c = (close c * 0.997)%float)
        (descending (Z.min (Market.points config) 100)) data
    ∧ ∃ newest, last data = Some newest ∧ timestamp newest = iso now.
Proof.
  intros Hcode Hnow.
  assert (∃ config intervalMs,
            get Market.TIMEFRAME_CONFIG timeframe = Own config
            ∧ getIntervalMs timeframe = Own intervalMs
            ∧ get intervals timeframe = Own intervalMs
            ∧ 5 ≤ Market.points config
            ∧ 0 < intervalMs ≤ 31536000000)
    as (config & intervalMs & Hconfig & Hinterval & Hown & Hpoints & Hms).
  { unfold nine_timeframes in Hcode.
    repeat (apply elem_of_cons in Hcode as [->|Hcode];
            [eexists _, _; split; [reflexivity|]; split; [reflexivity|];
             split; [reflexivity|]; cbn; lia|]).
    by apply elem_of_nil in Hcode. }
  set (dataPoints := Z.min (Market.points config) 100).
  destruct (generateMockDataByTimeframe_for coinId timeframe config intervalMs
              Hconfig Hinterval) as (data & Hdata & Hcandles).
  { intros i Hi. unfold max_time in *. nia. }
  fold dataPoints in Hcandles.
  assert (len data = dataPoints + 1) as Hlength.
  { unfold len. rewrite <- (Forall2_length _ _ _ Hcandles).
    unfold descending. rewrite length_reverse, length_seqZ. lia. }
  exists data, config, intervalMs.
  split; [done|]. split; [done|]. split; [done|]. split; [done|].
  split; [lia|]. split; [done|].
  unfold descending in Hcandles.
  rewrite seqZ_cons, reverse_cons in Hcandles by lia.
  apply Forall2_app_inv_l in Hcandles
    as (older & latest & _ & Hlatest & ->).
  apply Forall2_cons_inv_l in Hlatest as (newest & rest & Hnewest & Hrest & ->).
  apply Forall2_nil_inv_l in Hrest as ->.
  exists newest. split; [by rewrite last_snoc|].
  destruct Hnewest as [-> _]. f_equal. lia.
Qed.

(** X23: for a name every object inherits, such as "constructor", which the
    guard of [getMarketDataByTimeframe] lets through, the inherited
    configuration has no [points]: the loop of [generateMockDataByTimeframe]
    never runs and the mock series is empty.  So when both services fail,
    [getMarketDataByTimeframe] answers such a name with an empty series and
    no error. *)
Theorem getMarketDataByTimeframe_empty_for_inherited_name (coinId name : string) :
  name ∈ Object_prototype →
  generateMockDataByTimeframe iso now random sin coinId name = Normal []
  ∧ ∀ (parseFloat : string → float) (mock : string → string → list CoinData)
      (error error' : string),
      generateMockDataByTimeframe iso now random sin coinId name
      = Normal (mock coinId name) →
      Market.getMarketDataByTimeframe
        (services iso parseFloat random (Throw error) (Throw error') mock)
        coinId name
      = Normal [].
Proof.
  intros Hname.
  destruct (generateMockDataByTimeframe_without_points coinId name Hname)
    as [Hdefined Hempty].
  split; [done|]. intros parseFloat mock error error' Hmock.
  rewrite Hempty in Hmock. injection Hmock as Hmock.
  rewrite getMarketDataByTimeframe_last_source; [|done|done|done].
  cbn [services Market.generateMockDataByTimeframe]. by rewrite <- Hmock.
Qed.

(** X24: for 30d, 6M and 1Y the mock series has 13, 7 and 6 candles, too
    few for the 20-period average the trend rule compares: whatever the
    draws, the trend computed from mock data for these timeframes is
    "Sideways". *)
Theorem generateMockDataByTimeframe_trend_is_sideways
    (Math_pow : float → float → float) (coinId timeframe : string) :
  timeframe ∈ ["30d"; "6M"; "1Y"]%string → 0 ≤ now ≤ max_time →
  ∃ data annotated,
    generateMockDataByTimeframe iso now random sin coinId timeframe
    = Normal data
    ∧ applyIndicators Math_pow data = Normal annotated
    ∧ detectTrend annotated = Normal "Sideways"%string.
Proof.
  intros Hcode Hnow.
  assert (∃ config intervalMs,
            get Market.TIMEFRAME_CONFIG timeframe = Own config
            ∧ getIntervalMs timeframe = Own intervalMs
            ∧ 5 ≤ Market.points config ≤ 12
            ∧ 0 < intervalMs ≤ 31536000000)
    as (config & intervalMs & Hconfig & Hinterval & Hpoints & Hms).
  { repeat (apply elem_of_cons in Hcode as [->|Hcode];
            [eexists _, _; split; [reflexivity|]; split; [reflexivity|];
             cbn; lia|]).
    by apply elem_of_nil in Hcode. }
  destruct (generateMockDataByTimeframe_for coinId timeframe config intervalMs
              Hconfig Hinterval) as (data & Hdata & Hcandles).
  { intros i Hi. unfold max_time in *. nia. }
  apply Forall2_length in Hcandles. unfold descending in Hcandles.
  rewrite length_reverse, length_seqZ in Hcandles.
  destruct (applyIndicators_below_twenty Math_pow data)
    as (annotated & Hannotated & Hlength & Hema); [lia|].
  exists data, annotated. split; [done|]. split; [done|].
  apply detectTrend_without_ema; [lia|done].
Qed.

End MockProperties.

Lemma generateMockDataByTimeframe_trend_on_1Y :
  ∃ data annotated,
    generateMockDataByTimeframe sample_iso 1000000000000 sample_random
      sample_sin "bitcoin" "1Y"
    = Normal data
    ∧ applyIndicators sample_pow data = Normal annotated
    ∧ detectTrend annotated = Normal "Sideways"%string.
Proof.
  apply (generateMockDataByTimeframe_trend_is_sideways sample_iso 1000000000000
           sample_random sample_sin sample_pow "bitcoin" "1Y").
  - set_solver.
  - unfold max_time. lia.
Defined.

Lemma generateMockDataByTimeframe_on_1Y :
  ∃ data config intervalMs,
    generateMockDataByTimeframe sample_iso 1000000000000 sample_random
      sample_sin "bitcoin" "1Y"
    = Normal data
    ∧ get Market.TIMEFRAME_CONFIG "1Y" = Own config
    ∧ get intervals "1Y" = Own intervalMs
    ∧ len data = Z.min (Market.points config) 100 + 1
    ∧ 6 ≤ len data ≤ 101.
Proof.
  destruct (generateMockDataByTimeframe_series sample_iso 1000000000000
              sample_random sample_sin "bitcoin" "1Y")
    as (data & config & intervalMs & Hdata & Hconfig & Hinterval & Hlength
        & Hbounds & _).
  - set_solver.
  - unfold max_time. lia.
  - by exists data, config, intervalMs.
Defined.

Lemma getMarketDataByTimeframe_on_constructor :
  generateMockDataByTimeframe sample_iso 1000000000000 sample_random
    sample_sin "bitcoin" "constructor"
  = Normal []
  ∧ Market.getMarketDataByTimeframe
      (services sample_iso sample_parseFloat sample_random
         (Throw "Error: Network Error") (Throw "Error: Network Error")
         (λ _ _, []))
      "bitcoin" "constructor"
    = Normal [].
Proof.
  destruct (getMarketDataByTimeframe_empty_for_inherited_name sample_iso
              1000000000000 sample_random sample_sin "bitcoin" "constructor")
    as [Hempty Hserved].
  - set_solver.
  - split; [done|]. by apply Hserved.
Defined.
